(** * The recurring to-do handler of fitapp (src/pages/api/todo.ts)

    A shallow embedding of the single request handler that implements the
    four to-do operations (list with daily materialization, create, update,
    cascading delete) over the Prisma [todo] table, and the properties of
    the specification that concern it.

    Conventions of the model:
    - a string is the list of its code units, all of them below 256;
    - a [Date] is its time value in milliseconds, read in server-local time
      with a fixed offset (no daylight-saving jump), as an integer of [Z];
      [None] stands for an Invalid Date; the ends of the range of [Date]
      and of the timestamps of the database are compared as in UTC (the
      offset shifts them by less than a day);
    - a JavaScript number is an integer, an infinity or [NaN] ([Num]); the
      integers are those a double holds, and what [parseInt], [*], [+] and
      [-] produce is rounded to the nearest double ([Js.number]); [NaN]
      also stands for [undefined] where the code destructures a missing
      array element (both are falsy);
    - record ids (cuid strings in the database) are natural numbers handed
      out by a counter of the table; user ids are natural numbers;
    - a request is served at one clock reading [now] (the two [new Date()]
      of the create branch read the same instant); [console.log] is left
      out;
    - the JSON body is taken decoded, field by field, into what the schema
      and the handler tell apart: a field is missing, of another type than
      the one they test for, or a value of that type;
    - every [prisma] call may reject: a list of booleans scripts, call by
      call, whether the database is unreachable for that call. *)

From Stdlib Require Import ZArith List Bool String Ascii Lia Arith DecimalString.
From Stdlib Require Import Sorted.
Import ListNotations.

Local Open Scope string_scope.
Local Open Scope Z_scope.

(** ** Strings *)

(** Code unit [c] occurs in [s]. *)
Fixpoint occurs (c : ascii) (s : string) : bool :=
  match s with
  | EmptyString => false
  | String d r => Ascii.eqb d c || occurs c r
  end.

(** ** Numbers *)

(** A Number of the handler: an integer, an infinity or [NaN]. The two
    zeros are one: [-0] is falsy and counts as [0] wherever the handler
    uses a number. *)
Inductive Num := Fin (z : Z) | PosInf | NegInf | NaN.

(** ** JavaScript primitives used by the handler *)

Module Js.

(** [StrWhiteSpaceChar], which is also the white space of [trim], among the
    code units below 256: TAB, LF, VT, FF, CR, SP and NBSP (U+00A0). *)
Definition is_white_space (c : ascii) : bool :=
  match N_of_ascii c with
  | 9%N | 10%N | 11%N | 12%N | 13%N | 32%N | 160%N => true
  | _ => false
  end.

(** The Number value of the integer [z]: [z] itself below 2^53 in size,
    else the nearest integer with a significand of 53 bits, a tie going to
    the even significand, and an infinity from 2^1024 on. *)
Definition number (z : Z) : Num :=
  let a := Z.abs z in
  if a <? 2 ^ 53 then Fin z
  else
    let e := Z.log2 a - 52 in
    let q := a / 2 ^ e in
    let r := a mod 2 ^ e in
    let q' :=
      if (2 ^ (e - 1) <? r) || ((r =? 2 ^ (e - 1)) && Z.odd q) then q + 1 else q in
    let v := q' * 2 ^ e in
    if 2 ^ 1024 <=? v then (if z <? 0 then NegInf else PosInf)
    else Fin (Z.sgn z * v).

(** [a + b] and [a - b] on Numbers. *)
Definition add (a b : Num) : Num :=
  match a, b with
  | Fin x, Fin y => number (x + y)
  | NaN, _ | _, NaN => NaN
  | PosInf, NegInf | NegInf, PosInf => NaN
  | PosInf, _ | _, PosInf => PosInf
  | NegInf, _ | _, NegInf => NegInf
  end.

Definition sub (a b : Num) : Num :=
  match a, b with
  | Fin x, Fin y => number (x - y)
  | NaN, _ | _, NaN => NaN
  | PosInf, PosInf | NegInf, NegInf => NaN
  | PosInf, _ | _, NegInf => PosInf
  | NegInf, _ | _, PosInf => NegInf
  end.

Fixpoint trim_start (s : string) : string :=
  match s with
  | String c r => if is_white_space c then trim_start r else s
  | EmptyString => s
  end.

(** Value of [c] as a digit of the given radix, if it is one. *)
Definition digit_value (radix : Z) (c : ascii) : option Z :=
  let n := Z.of_nat (nat_of_ascii c) in
  let v :=
    if (48 <=? n) && (n <=? 57) then Some (n - 48)
    else if (97 <=? n) && (n <=? 122) then Some (n - 87)
    else if (65 <=? n) && (n <=? 90) then Some (n - 55)
    else None in
  match v with
  | Some d => if d <? radix then Some d else None
  | None => None
  end.

(** The longest prefix of radix digits, read as a number; [acc] is [None]
    until the first digit is seen. *)
Fixpoint read_digits (radix : Z) (acc : option Z) (s : string) : option Z :=
  match s with
  | String c r =>
      match digit_value radix c with
      | Some d =>
          read_digits radix
            (Some (radix * (match acc with Some a => a | None => 0 end) + d)) r
      | None => acc
      end
  | EmptyString => acc
  end.

(** [parseInt(s)] with no radix argument: leading white space, an optional
    sign, an optional [0x] prefix, then digits, read as a Number; [NaN]
    when there is no digit. *)
Definition parseInt (s : string) : Num :=
  let s1 := trim_start s in
  let '(sign, s2) :=
    match s1 with
    | String "-"%char r => (-1, r)
    | String "+"%char r => (1, r)
    | _ => (1, s1)
    end in
  let '(radix, s3) :=
    match s2 with
    | String "0"%char (String "x"%char r) => (16, r)
    | String "0"%char (String "X"%char r) => (16, r)
    | _ => (10, s2)
    end in
  match read_digits radix None s3 with
  | Some n => number (sign * n)
  | None => NaN
  end.

(** [s.split(':')]. *)
Fixpoint split_colon (s : string) : list string :=
  match s with
  | EmptyString => [EmptyString]
  | String c r =>
      if Ascii.eqb c ":"%char then EmptyString :: split_colon r
      else
        match split_colon r with
        | h :: t => String c h :: t
        | [] => [String c EmptyString]
        end
  end.

(** [const [hh, mm] = s.split(':').map((v) => parseInt(v))]; a part that
    is not there is [undefined], here [NaN]. *)
Definition split_time (s : string) : Num * Num :=
  let parts := map parseInt (split_colon s) in
  (nth 0 parts NaN, nth 1 parts NaN).

(** [x || d] on a number: [NaN], [undefined] and [0] are falsy. *)
Definition or_num (x : Num) (d : Z) : Num :=
  match x with
  | Fin v => if v =? 0 then Fin d else x
  | NaN => Fin d
  | _ => x
  end.

(** [s || d] on a nullable string: [null] and [''] are falsy. *)
Definition or_str (x : option string) (d : string) : string :=
  match x with
  | Some EmptyString => d
  | Some s => s
  | None => d
  end.

Definition msPerSecond : Z := 1000.
Definition msPerMinute : Z := 60000.
Definition msPerHour : Z := 3600000.
Definition msPerDay : Z := 86400000.

(** [Day(t)]: the number of the day of [t]. *)
Definition Day (t : Z) : Z := t / msPerDay.

(** [new Date(y, m, d, 0, 0, 0, 0)] for the date of [now], from the year
    100 on (the constructor reads a year below 100 as a year of the
    twentieth century). *)
Definition startOfDay (now : Z) : Z := msPerDay * (now / msPerDay).

(** [new Date(y, m, d, 23, 59, 59, 999)] for the date of [now]. *)
Definition endOfDay (now : Z) : Z :=
  startOfDay now + 23 * msPerHour + 59 * msPerMinute + 59 * 1000 + 999.

Definition getHours (t : Z) : Z := (t mod msPerDay) / msPerHour.
Definition getMinutes (t : Z) : Z := (t mod msPerHour) / msPerMinute.

(** [MakeTime(hour, min, sec, ms)]: the products and the sums are those of
    the Numbers, each one rounded. *)
Definition MakeTime (hour min sec ms : Num) : Num :=
  match hour, min, sec, ms with
  | Fin h, Fin m, Fin s, Fin milli =>
      add (add (add (number (h * msPerHour)) (number (m * msPerMinute)))
               (number (s * msPerSecond)))
          (Fin milli)
  | _, _, _, _ => NaN
  end.

(** [MakeDate(day, time)]. *)
Definition MakeDate (day time : Num) : Num :=
  match day, time with
  | Fin d, Fin t =>
      match add (number (d * msPerDay)) (Fin t) with
      | Fin tv => Fin tv
      | _ => NaN
      end
  | _, _ => NaN
  end.

(** [TimeClip]: a time value that is not finite or beyond 8.64e15 ms is an
    Invalid Date. *)
Definition TimeClip (time : Num) : option Z :=
  match time with
  | Fin t => if Z.abs t <=? 8640000000000000 then Some t else None
  | _ => None
  end.

(** [d.setHours(hour, min, 0, 0)] on a valid date [d]: the day of [d] with
    the time of day replaced; hours and minutes out of range carry into
    the neighbouring days. *)
Definition setHours (d : Z) (hour min : Num) : option Z :=
  TimeClip (MakeDate (Fin (Day d)) (MakeTime hour min (Fin 0) (Fin 0))).

(** [String(n)] for a number ([NaN] prints as NaN). *)
Definition String_of_num (n : option Z) : string :=
  match n with
  | Some z => NilZero.string_of_int (Z.to_int z)
  | None => "NaN"
  end.

(** [s.padStart(2, '0')]. *)
Definition padStart2 (s : string) : string :=
  match s with
  | EmptyString => "00"
  | String c EmptyString => String "0"%char s
  | _ => s
  end.

(** [d.toTimeString().slice(0, 5)] of a valid date: HH:MM. *)
Definition timeString5 (t : Z) : string :=
  padStart2 (String_of_num (Some (getHours t))) ++ ":" ++
  padStart2 (String_of_num (Some (getMinutes t))).

End Js.

(** ** The [todo] table behind the Prisma client *)

Module Prisma.

Inductive Recurrence := NONE | DAILY.

(** Modelled from the spec: the Prisma schema is not among the sources; the
    row has the attributes of the data model (section 3 of the
    specification), [completed] defaults to false, the optional columns to
    null, and [templateId] is a weak reference: deleting the row it names
    leaves the referring rows as they are. *)
Record Todo := {
  id : nat;
  userId : nat;
  title : string;
  notes : option string;
  tags : list string;
  completed : bool;
  dueAt : option Z;
  timeOfDay : option string;
  recurrence : Recurrence;
  isTemplate : bool;
  templateId : option nat
}.

(** The table: its rows in storage order and the id generator. *)
Record Table := { rows : list Todo; nextId : nat }.

Inductive Error :=
  | Unreachable        (* the database did not answer *)
  | RecordNotFound     (* update/delete of a row that is not there *)
  | ValidationError.   (* an argument the client or the database refuses *)

Inductive Result (A : Type) :=
  | Ok (a : A)
  | Throw (e : Error).
Arguments Ok {A} a.
Arguments Throw {A} e.

(** What a request runs against: the table and the script of outages, one
    boolean per [prisma] call still to come ([true]: that call rejects). *)
Record World := { db : Table; faults : list bool }.

Definition M (A : Type) : Type := World -> Result A * World.

Definition ret {A} (a : A) : M A := fun w => (Ok a, w).

Definition throw {A} (e : Error) : M A := fun w => (Throw e, w).

Definition bind {A B} (c : M A) (k : A -> M B) : M B :=
  fun w =>
    match c w with
    | (Ok a, w') => k a w'
    | (Throw e, w') => (Throw e, w')
    end.

(** One awaited call of the client: it consumes one entry of the script. *)
Definition call {A} (op : Table -> Result A * Table) : M A :=
  fun w =>
    match faults w with
    | true :: fs => (Throw Unreachable, {| db := db w; faults := fs |})
    | _ =>
        let '(r, t) := op (db w) in (r, {| db := t; faults := tl (faults w) |})
    end.

Definition set_id (i : nat) (r : Todo) : Todo :=
  {| id := i; userId := userId r; title := title r; notes := notes r;
     tags := tags r; completed := completed r; dueAt := dueAt r;
     timeOfDay := timeOfDay r; recurrence := recurrence r;
     isTemplate := isTemplate r; templateId := templateId r |}.

Fixpoint update_first (p : Todo -> bool) (f : Todo -> Todo) (l : list Todo)
  : option (Todo * list Todo) :=
  match l with
  | [] => None
  | r :: l' =>
      if p r then Some (f r, f r :: l')
      else
        match update_first p f l' with
        | Some (r', l'') => Some (r', r :: l'')
        | None => None
        end
  end.

Fixpoint remove_first (p : Todo -> bool) (l : list Todo) : option (list Todo) :=
  match l with
  | [] => None
  | r :: l' =>
      if p r then Some l'
      else
        match remove_first p l' with
        | Some l'' => Some (r :: l'')
        | None => None
        end
  end.

(** [take: n]: the first [n] matches, or the last [-n] for a negative [n]. *)
Definition take_rows (n : Z) (l : list Todo) : list Todo :=
  if 0 <=? n then firstn (Z.to_nat n) l
  else skipn (List.length l - Z.to_nat (- n))%nat l.

(** [prisma.todo.findMany({ where })]. *)
Definition findMany (where_ : Todo -> bool) : M (list Todo) :=
  call (fun t => (Ok (filter where_ (rows t)), t)).

(** [take] is a 64-bit integer: the client refuses [NaN], an infinity and
    an integer that does not fit. *)
Definition Int64 (n : Num) : option Z :=
  match n with
  | Fin z => if (- 2 ^ 63 <? z) && (z <? 2 ^ 63) then Some z else None
  | _ => None
  end.

(** [prisma.todo.findMany({ where, take })]. *)
Definition findManyTake (where_ : Todo -> bool) (take : Num) : M (list Todo) :=
  call (fun t =>
    match Int64 take with
    | Some n => (Ok (take_rows n (filter where_ (rows t))), t)
    | None => (Throw ValidationError, t)
    end).

(** [prisma.todo.findFirst({ where })] and [findUnique]: the row or null. *)
Definition findFirst (where_ : Todo -> bool) : M (option Todo) :=
  call (fun t => (Ok (find where_ (rows t)), t)).

Definition findUnique (where_ : Todo -> bool) : M (option Todo) :=
  call (fun t => (Ok (find where_ (rows t)), t)).

(** A string PostgreSQL stores in a text column: one without the code
    unit 0. *)
Definition text (s : string) : bool := negb (occurs Ascii.zero s).

(** The first timestamp PostgreSQL stores: the start of the year 4713 BC
    (Julian day 0), in milliseconds of the epoch. The last [Date], in the
    year 275760, is within its range. *)
Definition min_timestamp : Z := -210866803200000.

(** A [Date] as the value of a DateTime column: the client refuses an
    Invalid Date, the database a date before its range. *)
Definition timestamp (d : option Z) : option Z :=
  match d with
  | Some t => if min_timestamp <=? t then Some t else None
  | None => None
  end.

(** [prisma.todo.create({ data })]: the row gets the next id. *)
Definition create (data : Todo) : M Todo :=
  call (fun t =>
    let r := set_id (nextId t) data in
    (Ok r, {| rows := rows t ++ [r]; nextId := S (nextId t) |})).

(** [prisma.todo.update({ where, data })]: throws when no row matches. *)
Definition update (where_ : Todo -> bool) (data : Todo -> Todo) : M Todo :=
  call (fun t =>
    match update_first where_ data (rows t) with
    | Some (r, l) => (Ok r, {| rows := l; nextId := nextId t |})
    | None => (Throw RecordNotFound, t)
    end).

(** [prisma.todo.delete({ where })]: throws when no row matches. *)
Definition delete (where_ : Todo -> bool) : M unit :=
  call (fun t =>
    match remove_first where_ (rows t) with
    | Some l => (Ok tt, {| rows := l; nextId := nextId t |})
    | None => (Throw RecordNotFound, t)
    end).

(** [prisma.todo.deleteMany({ where })]: removes every match, never throws
    for want of one. *)
Definition deleteMany (where_ : Todo -> bool) : M unit :=
  call (fun t =>
    (Ok tt, {| rows := filter (fun r => negb (where_ r)) (rows t);
               nextId := nextId t |})).

End Prisma.

Import Prisma.

Notation "x <- c ;; k" := (bind c (fun x => k))
  (at level 61, c at next level, right associativity).
Notation "c ;;; k" := (bind c (fun _ => k))
  (at level 61, right associativity).

(** ** The handler *)

Module Api.

(** [req.query]: [q_completed] is the parameter [completed] when it is a
    string, [q_limit] is [String(limit)] when [limit] is there. *)
Record Query := { q_completed : option string; q_limit : option string }.

(** A field of the decoded JSON body: missing ([undefined]), of another
    type than the one the schema and the handler test for, or a value of
    that type. *)
Inductive Field (A : Type) := Missing | Mistyped | Given (a : A).
Arguments Missing {A}.
Arguments Mistyped {A}.
Arguments Given {A} a.

(** A [dueDate] string, by what [new Date(dueDate)] reads from it. *)
Inductive DateString :=
  | NoText           (* the empty string *)
  | Unreadable       (* Invalid Date *)
  | Reads (t : Z).   (* the time value *)

(** [req.body], decoded field by field; a body that is no object reads as
    one without fields. [b_id] is [Missing] for an absent or falsy id
    ([null], [false], [0], the empty string), [Mistyped] for a truthy one
    that is no string or is a string the database does not take (it holds
    the code unit 0), and [Given i] for the string that names record [i];
    [b_notes = Given None] is an explicit [null] (elsewhere [null] is
    [Mistyped]); [b_tags] is an array, its elements that are no strings
    being [None]; [b_position] is an integer. *)
Record Body := {
  b_id : Field nat;
  b_title : Field string;
  b_notes : Field (option string);
  b_dueDate : Field DateString;
  b_recurrence : Field string;
  b_isTemplate : Field bool;
  b_timeOfDay : Field string;
  b_tags : Field (list (option string));
  b_completed : Field bool;
  b_position : Field Z
}.

Record Request := {
  session : option nat;      (* session?.user?.id *)
  method : string;
  query : Query;
  body : Body
}.

Inductive Json :=
  | JTodos (todos : list Todo)
  | JTodo (todo : Todo)
  | JMessage (message : string)
  | JError (error : string).

Record Response := { status : Z; allow : list string; json : Json }.

Definition respond (code : Z) (j : Json) : Response :=
  {| status := code; allow := []; json := j |}.

(** The result of [todoSchema.safeParse] when it succeeds: the fields of
    [parsed.data] the handler reads. *)
Record TodoInput := {
  i_title : string;
  i_notes : option string;
  i_dueDate : option DateString;
  i_recurrence : option Recurrence;
  i_timeOfDay : option string;
  i_tags : option (list string);
  i_completed : option bool
}.

Definition as_Recurrence (s : string) : option Recurrence :=
  if String.eqb s "NONE" then Some NONE
  else if String.eqb s "DAILY" then Some DAILY
  else None.

(** [.optional()] on a field of the schema: [undefined] passes as it is,
    a value of another type is an issue ([None]). *)
Definition optional {A} (f : Field A) : option (option A) :=
  match f with
  | Missing => Some None
  | Given a => Some (Some a)
  | Mistyped => None
  end.

(** [z.string().optional()] on [notes]: [null] is no string. *)
Definition optional_notes (f : Field (option string)) : option (option string) :=
  match f with
  | Missing => Some None
  | Given (Some s) => Some (Some s)
  | _ => None
  end.

(** [z.enum(['NONE', 'DAILY']).default('NONE').optional()]: [undefined]
    passes as it is. *)
Definition optional_recurrence (f : Field string) : option (option Recurrence) :=
  match f with
  | Missing => Some None
  | Given s => option_map Some (as_Recurrence s)
  | Mistyped => None
  end.

(** An array all of whose elements are strings. *)
Fixpoint strings (l : list (option string)) : option (list string) :=
  match l with
  | [] => Some []
  | Some s :: l' => option_map (cons s) (strings l')
  | None :: _ => None
  end.

(** [z.array(z.string()).default([]).optional()]. *)
Definition optional_tags (f : Field (list (option string))) : option (option (list string)) :=
  match f with
  | Missing => Some None
  | Given l => option_map Some (strings l)
  | Mistyped => None
  end.

(** [todoSchema.safeParse(req.body)]: a title of at least one character,
    and every other field of the schema either missing or of its type. *)
Definition todoSchema_safeParse (b : Body) : option TodoInput :=
  match b_title b with
  | Given t =>
      if (1 <=? String.length t)%nat then
        match optional_notes (b_notes b), optional (b_dueDate b),
              optional_recurrence (b_recurrence b), optional (b_isTemplate b),
              optional (b_timeOfDay b), optional_tags (b_tags b),
              optional (b_completed b), optional (b_position b) with
        | Some n, Some d, Some rc, Some _, Some tod, Some tg, Some c, Some _ =>
            Some {| i_title := t;
                    i_notes := n;
                    i_dueDate := d;
                    i_recurrence := rc;
                    i_timeOfDay := tod;
                    i_tags := tg;
                    i_completed := c |}
        | _, _, _, _, _, _, _, _ => None
        end
      else None
  | _ => None
  end.

Definition is_DAILY (r : Recurrence) : bool :=
  match r with DAILY => true | NONE => false end.

Definition eqb_id (a : option nat) (b : nat) : bool :=
  match a with Some x => Nat.eqb x b | None => false end.

(** [dueAt: { gte: lo, lte: hi }]; a null [dueAt] never matches. *)
Definition between (d : option Z) (lo hi : Z) : bool :=
  match d with Some t => (lo <=? t) && (t <=? hi) | None => false end.

(** A [Date] handed to the client for a DateTime column: the call it is
    part of throws when the date cannot be stored. *)
Definition DateTime (d : option Z) : M Z :=
  match timestamp d with Some t => ret t | None => throw ValidationError end.

(** Strings of the request handed to the client for text columns: the
    call they are part of throws when one of them cannot be stored. (The
    strings the materializer copies from a stored row are stored ones.) *)
Definition Text (l : list string) : M unit :=
  if forallb text l then ret tt else throw ValidationError.

Definition nullable (x : option string) : list string :=
  match x with Some s => [s] | None => [] end.

(** [for (const x of l) { await body(x) }]. *)
Fixpoint forEach {A} (l : list A) (body_ : A -> M unit) : M unit :=
  match l with
  | [] => ret tt
  | x :: l' => body_ x ;;; forEach l' body_
  end.

(** The numbers of the sort comparator: a time value or [Infinity]. *)
Definition time_or_Infinity (d : option Z) : Num :=
  match d with Some t => Fin t | None => PosInf end.

(** The comparator handed to [todos.sort]. *)
Definition comparator (a b : Todo) : Num :=
  Js.sub (time_or_Infinity (dueAt a)) (time_or_Infinity (dueAt b)).

(** [Array.prototype.sort] puts [b] before [a] only when the comparator is
    positive on [(a, b)]; a [NaN] counts as zero. *)
Definition positive (n : Num) : bool :=
  match n with
  | Fin z => 0 <? z
  | PosInf => true
  | NegInf | NaN => false
  end.

Fixpoint insert (cmp : Todo -> Todo -> Num) (x : Todo) (l : list Todo) : list Todo :=
  match l with
  | [] => [x]
  | y :: l' => if positive (cmp x y) then y :: insert cmp x l' else x :: l
  end.

(** The stable sort of the array. *)
Definition sort (cmp : Todo -> Todo -> Num) (l : list Todo) : list Todo :=
  fold_right (insert cmp) [] l.

(** The body of the reconciliation loop of GET: today's instance of one
    template, created when it is missing. *)
Definition ensure_instance (userId_ : nat) (startOfDay endOfDay : Z) (tpl : Todo) : M unit :=
  exists_ <- findFirst (fun r =>
    Nat.eqb (userId r) userId_ && negb (isTemplate r) &&
    eqb_id (templateId r) (id tpl) && between (dueAt r) startOfDay endOfDay) ;;
  match exists_ with
  | Some _ => ret tt
  | None =>
      let '(hh, mm) := Js.split_time (Js.or_str (timeOfDay tpl) "09:00") in
      dueAt_ <- DateTime (Js.setHours startOfDay (Js.or_num hh 9) (Js.or_num mm 0)) ;;
      create {| id := 0%nat;
                userId := userId_;
                title := title tpl;
                notes := notes tpl;
                tags := tags tpl;
                completed := false;
                dueAt := Some dueAt_;
                timeOfDay := None;
                recurrence := NONE;
                isTemplate := false;
                templateId := Some (id tpl) |} ;;;
      ret tt
  end.

(** The reconciliation pass of GET over the daily templates of the user. *)
Definition materialize (userId_ : nat) (now : Z) : M unit :=
  templates <- findMany (fun r =>
    Nat.eqb (userId r) userId_ && isTemplate r && is_DAILY (recurrence r)) ;;
  let startOfDay := Js.startOfDay now in
  let endOfDay := Js.endOfDay now in
  forEach templates (ensure_instance userId_ startOfDay endOfDay).

Definition handle_GET (userId_ : nat) (now : Z) (q : Query) : M Response :=
  materialize userId_ now ;;;
  let where_ := fun r =>
    Nat.eqb (userId r) userId_ && negb (isTemplate r) &&
    match q_completed q with
    | Some c => Bool.eqb (completed r) (String.eqb c "true")
    | None => true
    end in
  let limit := match q_limit q with Some l => l | None => "200" end in
  todos <- findManyTake where_ (Js.parseInt limit) ;;
  ret (respond 200 (JTodos (sort comparator todos))).

Definition handle_POST (userId_ : nat) (now : Z) (b : Body) : M Response :=
  match todoSchema_safeParse b with
  | None => ret (respond 400 (JError "Invalid input"))
  | Some data =>
      let isTemplate_ :=
        match i_recurrence data with Some DAILY => true | _ => false end ||
        match b_isTemplate b with Given true => true | _ => false end in
      if isTemplate_ then
        let base :=
          match i_dueDate data with
          | Some (Reads t) => Some t
          | Some Unreadable => None
          | _ => Some now
          end in
        let hh := Js.padStart2 (Js.String_of_num (option_map Js.getHours base)) in
        let mm := Js.padStart2 (Js.String_of_num (option_map Js.getMinutes base)) in
        Text (i_title data :: nullable (i_notes data) ++
              match i_tags data with Some l => l | None => [] end) ;;;
        todo <- create {| id := 0%nat;
                          userId := userId_;
                          title := i_title data;
                          notes := i_notes data;
                          tags := match i_tags data with Some l => l | None => [] end;
                          completed := false;
                          dueAt := None;
                          timeOfDay := Some (hh ++ ":" ++ mm);
                          recurrence := DAILY;
                          isTemplate := true;
                          templateId := None |} ;;
        ret (respond 201 (JTodo todo))
      else
        let timeStr := Js.or_str (i_timeOfDay data) (Js.timeString5 now) in
        let '(hh, mm) := Js.split_time timeStr in
        dueAt_ <- DateTime (Js.setHours now (Js.or_num hh (Js.getHours now))
                                            (Js.or_num mm (Js.getMinutes now))) ;;
        Text (timeStr :: i_title data :: nullable (i_notes data) ++
              match i_tags data with Some l => l | None => [] end) ;;;
        todo <- create {| id := 0%nat;
                          userId := userId_;
                          title := i_title data;
                          notes := i_notes data;
                          tags := match i_tags data with Some l => l | None => [] end;
                          completed := match i_completed data with Some c => c | None => false end;
                          dueAt := Some dueAt_;
                          timeOfDay := Some timeStr;
                          recurrence := NONE;
                          isTemplate := false;
                          templateId := None |} ;;
        ret (respond 201 (JTodo todo))
  end.

(** [typeof x === 'string'], [typeof x === 'boolean'], [Array.isArray(x)]
    and, for [notes], a string or [null]: the value when the test holds. *)
Definition typed {A} (f : Field A) : option A :=
  match f with Given a => Some a | _ => None end.

(** The [updates] object PUT builds from the body. *)
Record Updates := {
  u_title : option string;
  u_notes : option (option string);
  u_tags : option (list (option string));
  u_completed : option bool;
  u_timeOfDay : option string;
  u_dueAt : option (option Z);
  u_recurrence : option string;
  u_isTemplate : option bool
}.

Definition build_updates (now : Z) (rest : Body) : Updates :=
  {| u_title := typed (b_title rest);
     u_notes := typed (b_notes rest);
     u_tags := typed (b_tags rest);
     u_completed := typed (b_completed rest);
     u_timeOfDay := typed (b_timeOfDay rest);
     u_dueAt :=
       match typed (b_timeOfDay rest) with
       | Some s =>
           let '(hh, mm) := Js.split_time s in
           Some (Js.setHours now (Js.or_num hh 0) (Js.or_num mm 0))
       | None => None
       end;
     u_recurrence := typed (b_recurrence rest);
     u_isTemplate := typed (b_isTemplate rest) |}.

Definition or_else {A} (x : option A) (d : A) : A :=
  match x with Some a => a | None => d end.

(** The strings of [updates] that go into text columns. *)
Definition update_texts (u : Updates) : list string :=
  nullable (u_title u) ++
  match u_notes u with Some (Some n) => [n] | _ => [] end ++
  match option_map strings (u_tags u) with Some (Some l) => l | _ => [] end ++
  nullable (u_timeOfDay u).

(** [data: updates] as the client applies it to a row; [None] when the
    data is refused (a string or a date that cannot be stored, a recurrence
    that is no enum name, tags that are not all strings). *)
Definition apply_updates (u : Updates) : option (Todo -> Todo) :=
  match forallb text (update_texts u),
        option_map timestamp (u_dueAt u),
        option_map as_Recurrence (u_recurrence u),
        option_map strings (u_tags u) with
  | false, _, _, _ => None
  | _, Some None, _, _ => None
  | _, _, Some None, _ => None
  | _, _, _, Some None => None
  | _, d, rc, tg =>
      Some (fun r =>
        {| id := id r;
           userId := userId r;
           title := or_else (u_title u) (title r);
           notes := or_else (u_notes u) (notes r);
           tags := match tg with Some (Some l) => l | _ => tags r end;
           completed := or_else (u_completed u) (completed r);
           dueAt := match d with Some t => t | None => dueAt r end;
           timeOfDay := match u_timeOfDay u with Some s => Some s | None => timeOfDay r end;
           recurrence := match rc with Some (Some x) => x | _ => recurrence r end;
           isTemplate := or_else (u_isTemplate u) (isTemplate r);
           templateId := templateId r |})
  end.

(** An id that is no string is refused by the client when the call is
    made, in PUT and in DELETE. *)
Definition handle_PUT (userId_ : nat) (now : Z) (b : Body) : M Response :=
  match b_id b with
  | Missing => ret (respond 400 (JError "id is required"))
  | Mistyped => throw ValidationError
  | Given id_ =>
      let updates := build_updates now b in
      match apply_updates updates with
      | None => throw ValidationError
      | Some data =>
          todo <- update (fun r => Nat.eqb (id r) id_ && Nat.eqb (userId r) userId_) data ;;
          ret (respond 200 (JTodo todo))
      end
  end.

Definition handle_DELETE (userId_ : nat) (b : Body) : M Response :=
  match b_id b with
  | Missing => ret (respond 400 (JError "id is required"))
  | Mistyped => throw ValidationError
  | Given id_ =>
      todo <- findUnique (fun r => Nat.eqb (id r) id_ && Nat.eqb (userId r) userId_) ;;
      match todo with
      | None => ret (respond 404 (JError "Todo not found"))
      | Some todo =>
          match templateId todo with
          | Some tid =>
              delete (fun r => Nat.eqb (id r) tid && Nat.eqb (userId r) userId_) ;;;
              deleteMany (fun r => eqb_id (templateId r) tid && Nat.eqb (userId r) userId_) ;;;
              ret (respond 200 (JMessage "Deleted"))
          | None =>
              if isTemplate todo then
                deleteMany (fun r =>
                  (Nat.eqb (id r) id_ || eqb_id (templateId r) id_) &&
                  Nat.eqb (userId r) userId_) ;;;
                ret (respond 200 (JMessage "Deleted"))
              else
                delete (fun r => Nat.eqb (id r) id_ && Nat.eqb (userId r) userId_) ;;;
                ret (respond 200 (JMessage "Deleted"))
          end
      end
  end.

(** The body of the [try] block. *)
Definition dispatch (now : Z) (req : Request) : M Response :=
  match session req with
  | None => ret (respond 401 (JError "Unauthorized"))
  | Some userId_ =>
      if String.eqb (method req) "GET" then handle_GET userId_ now (query req)
      else if String.eqb (method req) "POST" then handle_POST userId_ now (body req)
      else if String.eqb (method req) "PUT" then handle_PUT userId_ now (body req)
      else if String.eqb (method req) "DELETE" then handle_DELETE userId_ (body req)
      else
        ret {| status := 405;
               allow := ["GET"; "POST"; "PUT"; "DELETE"];
               json := JError ("Method " ++ method req ++ " not allowed") |}
  end.

(** [handler(req, res)] at clock reading [now]: the response it sends and
    the world it leaves; whatever is thrown becomes a 500. *)
Definition handler (now : Z) (req : Request) (w : World) : Response * World :=
  match dispatch now req w with
  | (Ok res, w') => (res, w')
  | (Throw _, w') => (respond 500 (JError "Internal server error"), w')
  end.

(** A run of requests, each at its own clock reading. *)
Fixpoint serve (reqs : list (Z * Request)) (w : World) : list Response * World :=
  match reqs with
  | [] => ([], w)
  | (now, req) :: reqs' =>
      let '(res, w1) := handler now req w in
      let '(out, w2) := serve reqs' w1 in
      (res :: out, w2)
  end.

End Api.

Import Api.

(** ** Notions used in the statements *)

(** The database answers every call of the request. *)
Definition reliable (w : World) : Prop := forallb negb (faults w) = true.

(** Ids are unique and below the generator: what every table reached from
    the empty one satisfies. *)
Definition wf (t : Table) : Prop :=
  NoDup (map id (rows t)) /\ Forall (fun r => (id r < nextId t)%nat) (rows t).

(** The caller's record with a given id, as every where-clause
    [{ id, userId }] selects it. *)
Definition lookup (u i : nat) (t : Table) : option Todo :=
  find (fun r => Nat.eqb (id r) i && Nat.eqb (userId r) u) (rows t).

(** The rows left when user [u]'s record [t] and all of [u]'s records that
    name [t] as their template are removed. *)
Definition cascade (u t : nat) (l : list Todo) : list Todo :=
  filter (fun x =>
    negb ((Nat.eqb (id x) t || eqb_id (templateId x) t) && Nat.eqb (userId x) u)) l.

(** The rows left when the record with id [i] is removed. *)
Definition without (i : nat) (l : list Todo) : list Todo :=
  filter (fun x => negb (Nat.eqb (id x) i)) l.

(** An active daily template of user [u]. *)
Definition daily_template (u : nat) (r : Todo) : bool :=
  Nat.eqb (userId r) u && isTemplate r && is_DAILY (recurrence r).

(** A generated instance of template [t] of user [u] that is due within the
    day of [now]. *)
Definition instance_today (u t : nat) (now : Z) (r : Todo) : bool :=
  Nat.eqb (userId r) u && negb (isTemplate r) && eqb_id (templateId r) t &&
  between (dueAt r) (Js.startOfDay now) (Js.endOfDay now).


(** Hour and minute the materializer sets for a template's [timeOfDay]. *)
Definition due_hm (tod : option string) : Num * Num :=
  let '(hh, mm) := Js.split_time (Js.or_str tod "09:00") in
  (Js.or_num hh 9, Js.or_num mm 0).

(** The due time the materializer computes for a template falls between
    00:00 and 23:59 of the day: the time [setHours] makes of the hour and
    the minute is one of the day. *)
Definition due_within_day (tpl : Todo) : bool :=
  let '(h, m) := due_hm (timeOfDay tpl) in
  match Js.MakeTime h m (Fin 0) (Fin 0) with
  | Fin t => (0 <=? t) && (t <? Js.msPerDay)
  | _ => false
  end.

(** A reading of the system clock: from 1970 to the end of the year 9999. *)
Definition clock (now : Z) : Prop := 0 <= now < 253402300800000.

(** The row the materializer stores for template [tpl] of user [u], due at
    [d], under id [n]. *)
Definition instance_for (n u : nat) (tpl : Todo) (d : Z) : Todo :=
  {| id := n; userId := u; title := title tpl; notes := notes tpl;
     tags := tags tpl; completed := false; dueAt := Some d; timeOfDay := None;
     recurrence := NONE; isTemplate := false; templateId := Some (id tpl) |}.

(** A listing request of user [u] on the day of [now]. *)
Definition listing_on (u : nat) (now : Z) (nr : Z * Request) : Prop :=
  session (snd nr) = Some u /\ method (snd nr) = "GET" /\
  Js.startOfDay (fst nr) = Js.startOfDay now /\ clock (fst nr).

(** The text HH:MM of an hour and a minute, two digits each. *)
Definition hhmm (h m : Z) : string :=
  Js.padStart2 (Js.String_of_num (Some h)) ++ ":" ++
  Js.padStart2 (Js.String_of_num (Some m)).

(** The two shape invariants of the data model (section 3). *)
Definition shape (r : Todo) : bool :=
  implb (isTemplate r)
        (is_DAILY (recurrence r) && match templateId r with None => true | Some _ => false end)
  &&
  implb (match templateId r with Some _ => true | None => false end)
        (negb (isTemplate r) && negb (is_DAILY (recurrence r))).

(** A request that is not an update carrying a [recurrence] string or an
    [isTemplate] boolean. *)
Definition plain (req : Request) : bool :=
  negb (String.eqb (method req) "PUT") ||
  (match b_recurrence (body req) with Given _ => false | _ => true end &&
   match b_isTemplate (body req) with Given _ => false | _ => true end).

(** The rows of user [b]. *)
Definition owned (b : nat) (l : list Todo) : list Todo :=
  filter (fun r => Nat.eqb (userId r) b) l.

(** Every record a response carries belongs to user [a]. *)
Definition only_of (a : nat) (res : Response) : Prop :=
  match json res with
  | JTodos l => Forall (fun r => userId r = a) l
  | JTodo r => userId r = a
  | _ => True
  end.

(** The full-timestamp order the comparator induces, a missing [dueAt]
    being later than any time. *)
Definition due_le (a b : Todo) : Prop :=
  match dueAt a, dueAt b with
  | Some x, Some y => x <= y
  | _, None => True
  | None, Some _ => False
  end.

(** Time of day of a record, in minutes after midnight. *)
Definition minute_of_day (r : Todo) : option Z :=
  option_map (fun t => 60 * Js.getHours t + Js.getMinutes t) (dueAt r).

(** The world after one answered call that leaves table [t]. *)
Definition next (w : World) (t : Table) : World :=
  {| db := t; faults := tl (faults w) |}.

(** A computation keeps a property of the table, whether it returns or
    throws and whatever the script of outages. *)
Definition preserves {A} (P : Table -> Prop) (c : M A) : Prop :=
  forall w r w', c w = (r, w') -> P (db w) -> P (db w').

(** Requests and worlds for the concrete scenarios. *)
Definition no_query : Query := {| q_completed := None; q_limit := None |}.

Definition no_body : Body :=
  {| b_id := Missing; b_title := Missing; b_notes := Missing; b_dueDate := Missing;
     b_recurrence := Missing; b_isTemplate := Missing; b_timeOfDay := Missing;
     b_tags := Missing; b_completed := Missing; b_position := Missing |}.

(** A field that is sent or not. *)
Definition field {A} (x : option A) : Field A :=
  match x with Some a => Given a | None => Missing end.

Definition request (u : nat) (m : string) (b : Body) : Request :=
  {| session := Some u; method := m; query := no_query; body := b |}.

Definition with_id (i : nat) : Body :=
  {| b_id := Given i; b_title := Missing; b_notes := Missing; b_dueDate := Missing;
     b_recurrence := Missing; b_isTemplate := Missing; b_timeOfDay := Missing;
     b_tags := Missing; b_completed := Missing; b_position := Missing |}.

(** POST body: a title, an optional recurrence, an optional time of day. *)
Definition new_todo (t : string) (rc tod : option string) : Body :=
  {| b_id := Missing; b_title := Given t; b_notes := Missing; b_dueDate := Missing;
     b_recurrence := field rc; b_isTemplate := Missing; b_timeOfDay := field tod;
     b_tags := Missing; b_completed := Missing; b_position := Missing |}.

(** PUT bodies: a new time of day; the template flag. *)
Definition set_time (i : nat) (tod : string) : Body :=
  {| b_id := Given i; b_title := Missing; b_notes := Missing; b_dueDate := Missing;
     b_recurrence := Missing; b_isTemplate := Missing; b_timeOfDay := Given tod;
     b_tags := Missing; b_completed := Missing; b_position := Missing |}.

Definition set_template (i : nat) (flag : bool) : Body :=
  {| b_id := Given i; b_title := Missing; b_notes := Missing; b_dueDate := Missing;
     b_recurrence := Missing; b_isTemplate := Given flag; b_timeOfDay := Missing;
     b_tags := Missing; b_completed := Missing; b_position := Missing |}.

Definition empty_world : World :=
  {| db := {| rows := []; nextId := 1 |}; faults := [] |}.

(** A day, and a time on it. *)
Definition day0 : Z := 20000 * Js.msPerDay.

Definition at_ (d h m : Z) : Z := d + h * Js.msPerHour + m * Js.msPerMinute.

(** User 1 creates the daily task Stretch at 14:37 and lists the day:
    the table holds template 1 and its instance 2. *)
Definition series_world : World :=
  snd (serve [ (at_ day0 14 37, request 1 "POST" (new_todo "Stretch" (Some "DAILY") (Some "07:30")));
               (at_ day0 14 38, request 1 "GET" no_body) ]
             empty_world).

(** Then record 1 is turned into a plain record by an update and deleted:
    instance 2 stays behind, naming a template that is gone. *)
Definition orphan_world : World :=
  snd (serve [ (at_ day0 14 39, request 1 "PUT" (set_template 1 false));
               (at_ day0 14 40, request 1 "DELETE" (with_id 1)) ]
             series_world).

(** The table of [series_world] with the third database call of the next
    request failing. *)
Definition series_world_failing : World :=
  {| db := db series_world; faults := [false; false; true] |}.


(** User 2 owns record 1. *)
Definition neighbour_world : World :=
  snd (serve [ (at_ day0 14 37, request 2 "POST" (new_todo "Call home" None (Some "18:30"))) ]
             empty_world).

Definition set_completed (i : nat) (c : bool) : Body :=
  {| b_id := Given i; b_title := Missing; b_notes := Missing; b_dueDate := Missing;
     b_recurrence := Missing; b_isTemplate := Missing; b_timeOfDay := Missing;
     b_tags := Missing; b_completed := Given c; b_position := Missing |}.

(** User 1 noted a task for 23:15 late on the day before [day0] and one for
    09:20 on [day0]. *)
Definition two_days_world : World :=
  snd (serve [ (at_ (day0 - Js.msPerDay) 22 10, request 1 "POST" (new_todo "Night walk" None (Some "23:15")));
               (at_ day0 8 5, request 1 "POST" (new_todo "Morning run" None (Some "09:20"))) ]
             empty_world).

(** The handler reads HH:MM back as the hour and minute it was made of,
    the materializer with 9 for hour 0; and HH:MM is a text the database
    stores. *)
Definition hhmm_check (h m : nat) : bool :=
  match Js.split_time (hhmm (Z.of_nat h) (Z.of_nat m)),
        due_hm (Some (hhmm (Z.of_nat h) (Z.of_nat m))) with
  | (Fin a, Fin b), (Fin c, Fin d) =>
      (a =? Z.of_nat h) && (b =? Z.of_nat m) &&
      (c =? if Z.of_nat h =? 0 then 9 else Z.of_nat h) && (d =? Z.of_nat m) &&
      text (hhmm (Z.of_nat h) (Z.of_nat m))
  | _, _ => false
  end.

(** The fields a generated instance takes from its template. *)
Definition copies (tpl r : Todo) : Prop :=
  userId r = userId tpl /\ title r = title tpl /\ notes r = notes tpl /\
  tags r = tags tpl /\ recurrence r = NONE /\ isTemplate r = false /\
  templateId r = Some (id tpl).

(** A due date on the calendar day of [now], at [h] hours [m] minutes. *)
Definition on_day_at (now h m : Z) (due : option Z) : Prop :=
  exists d, due = Some d /\ Js.startOfDay d = Js.startOfDay now /\
  Js.getHours d = h /\ Js.getMinutes d = m.

(** The due date of the instance generated at [now] from a template with
    time of day [tod]: what [setHours] makes of midnight of the day, the
    hour and the minute read from [tod] part by part; today at 09:00 for an
    absent or empty [tod]; today at HH:MM for a well-formed HH:MM from
    01:00 on, and today at 09:MM for 00:MM. *)
Definition due_rule (now : Z) (tod : option string) (due : option Z) : Prop :=
  due = Js.setHours (Js.startOfDay now) (fst (due_hm tod)) (snd (due_hm tod)) /\
  (tod = None \/ tod = Some "" -> on_day_at now 9 0 due) /\
  (forall h m, 0 <= h <= 23 -> 0 <= m <= 59 -> tod = Some (hhmm h m) ->
     on_day_at now (if h =? 0 then 9 else h) m due).

(** User 1 has created the daily task Stretch at 14:37. *)
Definition template_world : World :=
  snd (serve [ (at_ day0 14 37, request 1 "POST" (new_todo "Stretch" (Some "DAILY") None)) ]
             empty_world).

(** There, the database answers the four calls of the first listing and
    fails from then on. *)
Definition template_world_failing : World :=
  {| db := db template_world; faults := [false; false; false; false; true; true; true] |}.

Definition stretch_template : Todo :=
  {| id := 1; userId := 1; title := "Stretch"; notes := None; tags := [];
     completed := false; dueAt := None; timeOfDay := Some "14:37";
     recurrence := DAILY; isTemplate := true; templateId := None |}.

(** User 1 creates the daily task Night shift half an hour after midnight. *)
Definition night_template_world : World :=
  snd (serve [ (at_ day0 0 30, request 1 "POST" (new_todo "Night shift" (Some "DAILY") None)) ]
             empty_world).

(** The time of day of the template is then set to 24:00 by an update. *)
Definition late_template_world : World :=
  snd (serve [ (at_ day0 14 38, request 1 "PUT" (set_time 1 "24:00")) ] template_world).

(** Two more updates and listings: the time of day becomes 07:xx. *)
Definition odd_time_world : World :=
  snd (serve [ (at_ day0 15 0, request 1 "GET" no_body);
               (at_ day0 15 1, request 1 "PUT" (set_time 1 "07:xx"));
               (at_ day0 15 2, request 1 "GET" no_body) ]
             late_template_world).

Definition listing (u : nat) (h m : Z) : Z * Request :=
  (at_ day0 h m, request u "GET" no_body).

Definition stretch_instance : Todo :=
  {| id := 2; userId := 1; title := "Stretch"; notes := None; tags := [];
     completed := false; dueAt := Some (at_ day0 14 37); timeOfDay := None;
     recurrence := NONE; isTemplate := false; templateId := Some 1%nat |}.

(** ** The to-do page (src/pages/todo.tsx), caller of the handler *)

Module Page.

(** [s.trimEnd()]. *)
Fixpoint trim_end (s : string) : string :=
  match s with
  | EmptyString => EmptyString
  | String c r =>
      match trim_end r with
      | EmptyString => if Js.is_white_space c then EmptyString else String c EmptyString
      | r' => String c r'
      end
  end.

(** [s.trim()]. *)
Definition trim (s : string) : string := trim_end (Js.trim_start s).

(** [s.split(sep)] for a one-character separator. *)
Fixpoint split (sep : ascii) (s : string) : list string :=
  match s with
  | EmptyString => [EmptyString]
  | String c r =>
      if Ascii.eqb c sep then EmptyString :: split sep r
      else
        match split sep r with
        | h :: t => String c h :: t
        | [] => [String c EmptyString]
        end
  end.

(** [Boolean] as the filter of an array of strings: the non-empty ones. *)
Definition truthy (s : string) : bool :=
  match s with EmptyString => false | _ => true end.

(** [draft.tags ? draft.tags.split(',').map(s => s.trim()).filter(Boolean) : []]. *)
Definition tags_of (text : string) : list string :=
  if truthy text then filter truthy (map trim (split ","%char text)) else [].

(** [todo.tags.join(', ')]. *)
Definition join_tags (l : list string) : string := String.concat ", " l.

(** The state of the dialog. *)
Record Draft := {
  d_title : string;
  d_notes : string;
  d_timeOfDay : string;
  d_recurrence : Recurrence;
  d_tags : string
}.

Definition name_of (r : Recurrence) : string :=
  match r with NONE => "NONE" | DAILY => "DAILY" end.

(** The payload of [createMutation]; an [undefined] field is absent from
    the JSON body. *)
Definition create_payload (d : Draft) : Body :=
  {| b_id := Missing;
     b_title := Given (trim (d_title d));
     b_notes := if truthy (trim (d_notes d)) then Given (Some (trim (d_notes d))) else Missing;
     b_dueDate := Missing;
     b_recurrence := Given (name_of (d_recurrence d));
     b_isTemplate := Missing;
     b_timeOfDay := Given (d_timeOfDay d);
     b_tags := Given (map Some (tags_of (d_tags d)));
     b_completed := Missing;
     b_position := Missing |}.

(** The payload the dialog hands to [updateMutation] when editing. *)
Definition update_payload (editingTodo : Todo) (d : Draft) : Body :=
  {| b_id := Given (id editingTodo);
     b_title := Given (trim (d_title d));
     b_notes := if truthy (trim (d_notes d)) then Given (Some (trim (d_notes d))) else Given None;
     b_dueDate := Missing;
     b_recurrence := Given (name_of (d_recurrence d));
     b_isTemplate := Missing;
     b_timeOfDay := Given (d_timeOfDay d);
     b_tags := Given (map Some (tags_of (d_tags d)));
     b_completed := Missing;
     b_position := Missing |}.

(** The click on Add / Update: nothing is sent for a blank title. *)
Definition save (editingTodo : option Todo) (d : Draft) : option (string * Body) :=
  if truthy (trim (d_title d)) then
    match editingTodo with
    | Some t => Some ("PUT", update_payload t d)
    | None => Some ("POST", create_payload d)
    end
  else None.

(** [toggleCompleted(todo)]. *)
Definition toggleCompleted (todo : Todo) : string * Body :=
  ("PUT",
   {| b_id := Given (id todo); b_title := Missing; b_notes := Missing;
      b_dueDate := Missing; b_recurrence := Missing; b_isTemplate := Missing;
      b_timeOfDay := Missing; b_tags := Missing;
      b_completed := Given (negb (completed todo)); b_position := Missing |}).

(** [startEdit(todo)], at browser clock [now]: the draft the dialog opens
    with. *)
Definition startEdit (now : Z) (todo : Todo) : Draft :=
  {| d_title := title todo;
     d_notes := Js.or_str (notes todo) "";
     d_timeOfDay := Js.or_str (timeOfDay todo) (Js.timeString5 now);
     d_recurrence := recurrence todo;
     d_tags := join_tags (tags todo) |}.

(** The four lists of the page, from the fetched [todos] at browser clock
    [now]. *)
Definition active (todos : list Todo) : list Todo :=
  sort comparator (filter (fun t => negb (completed t)) todos).

Definition pending (now : Z) (todos : list Todo) : list Todo :=
  filter (fun t => match dueAt t with None => false | Some d => d <? now end)
         (active todos).

Definition upcoming (now : Z) (todos : list Todo) : list Todo :=
  filter (fun t => match dueAt t with None => true | Some d => now <=? d end)
         (active todos).

Definition completed_ (todos : list Todo) : list Todo :=
  filter (fun t => completed t) todos.

End Page.

(** ** The dashboard (the page with [queryKey: ['todos','dashboard']]),
    another caller of the handler *)

Module Dashboard.

(** [axios.get('/api/todo?completed=false')]. *)
Definition params : Query := {| q_completed := Some "false"; q_limit := None |}.

Definition fetch (u : nat) : Request :=
  {| session := Some u; method := "GET"; query := params; body := no_body |}.

(** [(todos || []).slice(0, 100)]: the records the card renders. *)
Definition shown (todos : list Todo) : list Todo := firstn 100 todos.

End Dashboard.

(** ** Further notions used in the statements *)

(** Template [tpl] of user [u] has an instance due on the day of [now]
    among the rows [l]. *)
Definition covered (u : nat) (now : Z) (l : list Todo) (tpl : Todo) : bool :=
  existsb (instance_today u (id tpl) now) l.

(** A tag as the dialog produces it: not empty, no comma, no white space at
    either end. *)
Definition clean_tag (t : string) : Prop :=
  t <> "" /\ Page.split ","%char t = [t] /\ Page.trim t = t.

(** The record [r] with the fields of an update [f] applied in place of the
    row with id [i]. *)
Definition replaced (i : nat) (f : Todo -> Todo) (l : list Todo) : list Todo :=
  map (fun x => if Nat.eqb (id x) i then f x else x) l.

(** What an update never touches in a row. *)
Definition identity (x : Todo) : nat * nat * option nat :=
  (id x, userId x, templateId x).

(** The row [r] after the update that [toggleCompleted t] sends. *)
Definition toggled (t r : Todo) : Todo :=
  {| id := id r; userId := userId r; title := title r; notes := notes r;
     tags := tags r; completed := negb (completed t); dueAt := dueAt r;
     timeOfDay := timeOfDay r; recurrence := recurrence r;
     isTemplate := isTemplate r; templateId := templateId r |}.

(** The title, the notes and the tags of a valid create request are
    strings the database stores. *)
Definition input_text (data : TodoInput) : bool :=
  forallb text (i_title data :: nullable (i_notes data) ++
                match i_tags data with Some l => l | None => [] end).

(** Some field of the schema has a value of another type than its own
    ([null] for [notes] is one). *)
Definition mistyped {A} (f : Field A) : bool :=
  match f with Mistyped => true | _ => false end.

Definition ill_typed (b : Body) : bool :=
  mistyped (b_title b) || mistyped (b_notes b) ||
  match b_notes b with Given None => true | _ => false end ||
  mistyped (b_dueDate b) || mistyped (b_recurrence b) || mistyped (b_isTemplate b) ||
  mistyped (b_timeOfDay b) || mistyped (b_tags b) || mistyped (b_completed b) ||
  mistyped (b_position b).

(** A create request whose [completed] is the text true, not the boolean. *)
Definition quoted_flag : Body :=
  {| b_id := Missing; b_title := Given "Buy milk"; b_notes := Missing;
     b_dueDate := Missing; b_recurrence := Missing; b_isTemplate := Missing;
     b_timeOfDay := Missing; b_tags := Missing; b_completed := Mistyped;
     b_position := Missing |}.

(** The recurrence, the tags, the title and the notes of an update, when
    it carries them, are such as the client and the database store: the
    recurrence is NONE or DAILY, the tags are strings, and no string holds
    the code unit 0. *)
Definition storable (b : Body) : bool :=
  match b_recurrence b with
  | Given s => match as_Recurrence s with Some _ => true | None => false end
  | _ => true
  end &&
  match b_tags b with
  | Given l => match strings l with Some tg => forallb text tg | None => false end
  | _ => true
  end &&
  match b_title b with Given s => text s | _ => true end &&
  match b_notes b with Given (Some n) => text n | _ => true end.

(** No text of the draft holds the code unit 0. *)
Definition draft_text (d : Page.Draft) : bool :=
  text (Page.d_title d) && text (Page.d_notes d) && text (Page.d_tags d).

(** The draft of the dialog that moves the task Stretch to midnight. *)
Definition midnight_draft : Page.Draft :=
  {| Page.d_title := "Stretch"; Page.d_notes := ""; Page.d_timeOfDay := "00:00";
     Page.d_recurrence := NONE; Page.d_tags := "health, morning" |}.

(** The body of a request of the page, sent by user [u]. *)
Definition sent (u : nat) (mb : string * Body) : Request :=
  request u (fst mb) (snd mb).

(** * Properties *)

(** ** The primitives on a few inputs *)

Example parseInt_two_digits : Js.parseInt "07" = Fin 7.
Proof. reflexivity. Qed.

Example parseInt_prefix : Js.parseInt " 12px" = Fin 12.
Proof. reflexivity. Qed.

Example parseInt_hex : Js.parseInt "0x1F" = Fin 31.
Proof. reflexivity. Qed.

Example parseInt_NaN : Js.parseInt "xx" = NaN.
Proof. reflexivity. Qed.

(** A leading no-break space is skipped like any white space. *)
Example parseInt_nbsp : Js.parseInt (String (ascii_of_nat 160) "24") = Fin 24.
Proof. reflexivity. Qed.

(** Beyond 2^53 the digits are read to the nearest double. *)
Example parseInt_rounds : Js.parseInt "9007199254740993" = Fin 9007199254740992.
Proof. vm_compute. reflexivity. Qed.

Example number_tie_to_even :
  Js.number (2 ^ 53 + 3) = Fin (2 ^ 53 + 4) /\ Js.number (- (2 ^ 53 + 1)) = Fin (- 2 ^ 53).
Proof. vm_compute. split; reflexivity. Qed.

Example number_overflows :
  Js.number (2 ^ 1024 - 2 ^ 970) = PosInf /\
  Js.number (2 ^ 1024 - 2 ^ 970 - 1) = Fin (2 ^ 1024 - 2 ^ 971).
Proof. vm_compute. split; reflexivity. Qed.

Example split_time_0730 : Js.split_time "07:30" = (Fin 7, Fin 30).
Proof. reflexivity. Qed.

Example split_time_no_colon : Js.split_time "7" = (Fin 7, NaN).
Proof. reflexivity. Qed.

Example or_num_zero : Js.or_num (Fin 0) 9 = Fin 9.
Proof. reflexivity. Qed.

Example timeString5_pads : Js.timeString5 (at_ day0 7 5 + 12) = "07:05".
Proof. vm_compute. reflexivity. Qed.

Example setHours_carries :
  Js.setHours (at_ day0 15 0) (Fin 24) (Fin 0) = Some (day0 + Js.msPerDay).
Proof. vm_compute. reflexivity. Qed.

(** Hours and minutes that cancel over the integers do not over the
    doubles: the date falls on the day before. *)
Example setHours_rounds :
  9007199254740993 * Js.msPerHour + -540431955284459580 * Js.msPerMinute = 0 /\
  Js.setHours (at_ day0 15 0) (Js.parseInt "9007199254740993")
                              (Js.parseInt "-540431955284459580")
    = Some (day0 - 4194304).
Proof. vm_compute. split; reflexivity. Qed.

Example trim_nbsp :
  Page.trim (String (ascii_of_nat 160) "Stretch ") = "Stretch".
Proof. reflexivity. Qed.

(** ** Numbers *)

Lemma number_exact z : Z.abs z < 2 ^ 53 -> Js.number z = Fin z.
Proof.
  intros H. unfold Js.number. apply Z.ltb_lt in H. rewrite H. reflexivity.
Qed.

(** Rounding keeps the sign. *)
Lemma number_sign z :
  match Js.number z with
  | Fin v => (0 < v <-> 0 < z) /\ (v < 0 <-> z < 0)
  | PosInf => 0 < z
  | NegInf => z < 0
  | NaN => False
  end.
Proof.
  unfold Js.number. destruct (Z.ltb_spec (Z.abs z) (2 ^ 53)) as [H|H]; [tauto|].
  set (a := Z.abs z) in *. set (e := Z.log2 a - 52).
  set (q := a / 2 ^ e). set (r := a mod 2 ^ e).
  set (q' := if (2 ^ (e - 1) <? r) || ((r =? 2 ^ (e - 1)) && Z.odd q) then q + 1 else q).
  assert (Ha : 0 < a) by (assert (0 < 2 ^ 53) by (apply Z.pow_pos_nonneg; lia); lia).
  assert (He : 0 <= e).
  { unfold e. assert (53 <= Z.log2 a); [|lia].
    apply Z.log2_le_pow2; [exact Ha | exact H]. }
  assert (Hp : 0 < 2 ^ e) by (apply Z.pow_pos_nonneg; lia).
  assert (Hq : 0 < q).
  { unfold q. apply Z.div_str_pos. split; [exact Hp|].
    apply Z.le_trans with (2 ^ Z.log2 a).
    - apply Z.pow_le_mono_r; lia.
    - apply Z.log2_spec. exact Ha. }
  assert (Hq' : 0 < q') by (unfold q'; destruct (_ || _); lia).
  assert (Hv : 0 < q' * 2 ^ e) by (apply Z.mul_pos_pos; assumption).
  assert (Hz : z <> 0) by (unfold a in Ha; lia).
  destruct (2 ^ 1024 <=? q' * 2 ^ e).
  - destruct (Z.ltb_spec z 0); lia.
  - destruct (Z.sgn_spec z) as [[? ->] | [[? ->] | [? ->]]]; lia.
Qed.

(** ** The monad and the client calls *)

Section Calls.

Context {A : Type}.

Lemma call_fault (op : Table -> Result A * Table) w fs :
  faults w = true :: fs ->
  call op w = (Throw Unreachable, {| db := db w; faults := fs |}).
Proof. intros H. unfold call. rewrite H. reflexivity. Qed.

Lemma call_answered (op : Table -> Result A * Table) w :
  (forall fs, faults w <> true :: fs) ->
  call op w = (fst (op (db w)), next w (snd (op (db w)))).
Proof.
  intros H. unfold call, next.
  destruct (faults w) as [|[] fs] eqn:E.
  - destruct (op (db w)); reflexivity.
  - exfalso. apply (H fs). reflexivity.
  - destruct (op (db w)); reflexivity.
Qed.

Lemma call_cases (op : Table -> Result A * Table) w :
  (exists fs, faults w = true :: fs /\
     call op w = (Throw Unreachable, {| db := db w; faults := fs |})) \/
  call op w = (fst (op (db w)), next w (snd (op (db w)))).
Proof.
  destruct (faults w) as [|[] fs] eqn:E.
  - right. apply call_answered. rewrite E. discriminate.
  - left. exists fs. split; [reflexivity | apply call_fault; assumption].
  - right. apply call_answered. rewrite E. discriminate.
Qed.

End Calls.

Lemma reliable_no_fault w fs : reliable w -> faults w <> true :: fs.
Proof.
  unfold reliable. intros H E. rewrite E in H. simpl in H. discriminate.
Qed.

Lemma reliable_next w t : reliable w -> reliable (next w t).
Proof.
  unfold reliable, next. simpl. destruct (faults w) as [|b fs]; simpl; auto.
  intros H. apply andb_true_iff in H. tauto.
Qed.

Lemma call_reliable {A} (op : Table -> Result A * Table) w :
  reliable w -> call op w = (fst (op (db w)), next w (snd (op (db w)))).
Proof. intros H. apply call_answered. intros fs. apply reliable_no_fault, H. Qed.

Lemma dispatch_method now req u m :
  session req = Some u -> method req = m ->
  dispatch now req =
    if String.eqb m "GET" then handle_GET u now (query req)
    else if String.eqb m "POST" then handle_POST u now (body req)
    else if String.eqb m "PUT" then handle_PUT u now (body req)
    else if String.eqb m "DELETE" then handle_DELETE u (body req)
    else ret {| status := 405; allow := ["GET"; "POST"; "PUT"; "DELETE"];
                json := JError ("Method " ++ m ++ " not allowed") |}.
Proof. intros Hs Hm. unfold dispatch. rewrite Hs, Hm. reflexivity. Qed.

(** ** Lists of rows *)

Lemma find_none_remove_first p l : find p l = None -> remove_first p l = None.
Proof.
  induction l as [|r l IH]; simpl; [reflexivity|].
  destruct (p r); [discriminate|]. intros H. rewrite (IH H). reflexivity.
Qed.

Lemma find_none_update_first p f l : find p l = None -> update_first p f l = None.
Proof.
  induction l as [|r l IH]; simpl; [reflexivity|].
  destruct (p r); [discriminate|]. intros H. rewrite (IH H). reflexivity.
Qed.

(** ** C10: deleting an instance whose template is gone *)

(** C10. A delete request that names a generated instance of the caller
    (templateId set) whose template record the caller no longer has is
    answered 500 and leaves the table as it was, whichever calls the
    database answers: the instance cannot be removed this way. *)
Theorem C10_orphan_delete_fails now req w u i r t :
  session req = Some u ->
  method req = "DELETE" ->
  b_id (body req) = Given i ->
  lookup u i (db w) = Some r ->
  templateId r = Some t ->
  lookup u t (db w) = None ->
  status (fst (handler now req w)) = 500 /\
  db (snd (handler now req w)) = db w /\
  In r (rows (db (snd (handler now req w)))).
Proof.
  intros Hs Hm Hid Hr Ht Hnone.
  assert (Hin : In r (rows (db w))).
  { unfold lookup in Hr. apply find_some in Hr. tauto. }
  unfold handler. rewrite (dispatch_method now req u "DELETE" Hs Hm). simpl.
  unfold handle_DELETE. rewrite Hid. unfold bind, findUnique.
  destruct (call_cases (fun t0 => (Ok (find (fun r0 => Nat.eqb (id r0) i && Nat.eqb (userId r0) u) (rows t0)), t0)) w)
    as [(fs & _ & E) | E]; rewrite E; simpl.
  - auto.
  - unfold lookup in Hr. rewrite Hr, Ht. unfold delete.
    destruct (call_cases (fun t0 =>
        match remove_first (fun r0 => Nat.eqb (id r0) t && Nat.eqb (userId r0) u) (rows t0) with
        | Some l => (Ok tt, {| rows := l; nextId := nextId t0 |})
        | None => (Throw RecordNotFound, t0)
        end) (next w (db w)))
      as [(fs & _ & E2) | E2]; rewrite E2; simpl.
    + auto.
    + unfold lookup in Hnone. rewrite (find_none_remove_first _ _ Hnone). simpl. auto.
Qed.

(** ** Removing rows of a table with unique ids *)

Lemma NoDup_id_eq (l : list Todo) x y :
  NoDup (map id l) -> In x l -> In y l -> id x = id y -> x = y.
Proof.
  induction l as [|r l IH]; simpl; [tauto|].
  intros Hnd Hx Hy E. inversion Hnd as [|? ? Hnot Hnd']; subst.
  destruct Hx as [Hx|Hx], Hy as [Hy|Hy]; subst.
  - reflexivity.
  - exfalso. apply Hnot. rewrite E. apply in_map. assumption.
  - exfalso. apply Hnot. rewrite <- E. apply in_map. assumption.
  - apply IH; assumption.
Qed.

Lemma filter_id (p : Todo -> bool) l :
  (forall x, In x l -> p x = true) -> filter p l = l.
Proof.
  induction l as [|r l IH]; simpl; intros H; [reflexivity|].
  rewrite (H r (or_introl eq_refl)). f_equal. apply IH. intros x Hx. apply H. tauto.
Qed.

Lemma filter_twice (p q : Todo -> bool) l :
  filter q (filter p l) = filter (fun x => p x && q x) l.
Proof.
  induction l as [|r l IH]; simpl; [reflexivity|].
  destruct (p r); simpl; [destruct (q r)|]; rewrite IH; reflexivity.
Qed.

Lemma lookup_spec u i t r :
  lookup u i t = Some r -> In r (rows t) /\ id r = i /\ userId r = u.
Proof.
  unfold lookup. intros H. apply find_some in H. destruct H as [Hin Hp].
  apply andb_true_iff in Hp. destruct Hp as [H1 H2].
  apply Nat.eqb_eq in H1. apply Nat.eqb_eq in H2. auto.
Qed.

(** With unique ids, the caller's record [i] is the only row with id [i]. *)
Lemma owner_unique u i t r x :
  wf t -> lookup u i t = Some r -> In x (rows t) -> id x = i -> x = r.
Proof.
  intros [Hnd _] Hr Hx E. apply lookup_spec in Hr. destruct Hr as (Hin & Hi & _).
  apply (NoDup_id_eq (rows t)); auto. congruence.
Qed.

Lemma remove_first_without u i t r :
  wf t -> lookup u i t = Some r ->
  remove_first (fun x => Nat.eqb (id x) i && Nat.eqb (userId x) u) (rows t)
    = Some (without i (rows t)).
Proof.
  intros Hwf Hr.
  assert (Hown : forall x, In x (rows t) -> id x = i -> x = r)
    by (intros; eapply owner_unique; eauto).
  destruct Hwf as [Hnd _]. unfold lookup in Hr. unfold without.
  induction (rows t) as [|y l IH]; simpl in *; [discriminate|].
  inversion Hnd as [|? ? Hnot Hnd']; subst.
  destruct (Nat.eqb (id y) i && Nat.eqb (userId y) u) eqn:Ep.
  - apply andb_true_iff in Ep. destruct Ep as [Ei _]. rewrite Ei. simpl.
    apply Nat.eqb_eq in Ei. f_equal. symmetry. apply filter_id.
    intros x Hx. apply negb_true_iff, Nat.eqb_neq. intros Hxi.
    apply Hnot. rewrite Ei, <- Hxi. apply in_map. assumption.
  - assert (Eid : Nat.eqb (id y) i = false).
    { apply Nat.eqb_neq. intros Hyi.
      assert (y = r) by (apply Hown; auto). subst y.
      apply find_some in Hr. destruct Hr as [_ Hp]. congruence. }
    rewrite Eid. simpl. rewrite IH; auto.
Qed.

Lemma cascade_after_without u t tb r :
  wf tb -> lookup u t tb = Some r ->
  filter (fun x => negb (eqb_id (templateId x) t && Nat.eqb (userId x) u))
         (without t (rows tb))
  = cascade u t (rows tb).
Proof.
  intros Hwf Hr. unfold without, cascade. rewrite filter_twice.
  apply filter_ext_in. intros x Hx.
  destruct (Nat.eqb (id x) t) eqn:Ei; simpl; [|reflexivity].
  apply Nat.eqb_eq in Ei.
  assert (x = r) by (eapply owner_unique; eauto). subst x.
  apply lookup_spec in Hr. destruct Hr as (_ & _ & Hu).
  rewrite Hu, Nat.eqb_refl. destruct (eqb_id (templateId r) t); reflexivity.
Qed.

(** ** C3 and C4: the cascade of DELETE *)

(** The table DELETE leaves when every call is answered. *)
Lemma delete_answered now req w u i r :
  session req = Some u ->
  method req = "DELETE" ->
  b_id (body req) = Given i ->
  reliable w ->
  wf (db w) ->
  lookup u i (db w) = Some r ->
  (forall t, templateId r = Some t -> lookup u t (db w) <> None) ->
  status (fst (handler now req w)) = 200 /\
  nextId (db (snd (handler now req w))) = nextId (db w) /\
  rows (db (snd (handler now req w))) =
    match templateId r with
    | Some t => cascade u t (rows (db w))
    | None =>
        if isTemplate r then cascade u i (rows (db w))
        else without i (rows (db w))
    end.
Proof.
  intros Hs Hm Hid Hrel Hwf Hr Htpl.
  unfold handler. rewrite (dispatch_method now req u "DELETE" Hs Hm). simpl.
  unfold handle_DELETE. rewrite Hid. unfold bind, findUnique.
  rewrite (call_reliable _ w Hrel). simpl.
  fold (lookup u i (db w)). rewrite Hr.
  pose proof (reliable_next w (db w) Hrel) as Hrel1.
  destruct (templateId r) as [t|] eqn:Et.
  - destruct (lookup u t (db w)) as [tpl|] eqn:Etpl; [|exfalso; eapply Htpl; eauto].
    unfold delete. rewrite (call_reliable _ _ Hrel1). simpl.
    rewrite (remove_first_without u t (db w) tpl Hwf Etpl). simpl.
    unfold deleteMany. rewrite call_reliable by (apply reliable_next; assumption).
    simpl. rewrite (cascade_after_without u t (db w) tpl Hwf Etpl). auto.
  - destruct (isTemplate r).
    + unfold deleteMany. rewrite (call_reliable _ _ Hrel1). simpl. auto.
    + unfold delete. rewrite (call_reliable _ _ Hrel1). simpl.
      rewrite (remove_first_without u i (db w) r Hwf Hr). simpl. auto.
Qed.

(** C3 (as amended). A delete request on the caller's record R, every call
    answered: if R.templateId is set and the caller still has the template
    record, the template and all of the caller's records with that
    templateId (R among them) are removed; if R.templateId is null and R is
    a template, R and all of the caller's records whose templateId is R's id
    are removed; otherwise only R is removed. Deleting a template and
    deleting one of its instances therefore leave the same rows. *)
Theorem C3_delete_cascade now req w u i r :
  session req = Some u ->
  method req = "DELETE" ->
  b_id (body req) = Given i ->
  reliable w ->
  wf (db w) ->
  lookup u i (db w) = Some r ->
  (forall t, templateId r = Some t -> lookup u t (db w) <> None) ->
  status (fst (handler now req w)) = 200 /\
  rows (db (snd (handler now req w))) =
    match templateId r with
    | Some t => cascade u t (rows (db w))
    | None =>
        if isTemplate r then cascade u i (rows (db w))
        else without i (rows (db w))
    end /\
  ~ In r (rows (db (snd (handler now req w)))).
Proof.
  intros Hs Hm Hid Hrel Hwf Hr Htpl.
  destruct (delete_answered now req w u i r Hs Hm Hid Hrel Hwf Hr Htpl) as (H200 & _ & Hrows).
  split; [assumption|]. split; [assumption|].
  rewrite Hrows. apply lookup_spec in Hr. destruct Hr as (_ & Hi & Hu).
  destruct (templateId r) as [t|] eqn:Et; [|destruct (isTemplate r)];
    unfold cascade, without; intros Hin; apply filter_In in Hin; destruct Hin as [_ Hp];
    rewrite ?Et, ?Hi, ?Hu in Hp; simpl in Hp; rewrite ?Nat.eqb_refl in Hp;
    simpl in Hp; try discriminate.
  rewrite orb_true_r in Hp. discriminate.
Qed.

Lemma C3_delete_cascade_witness :
  status (fst (handler (at_ day0 15 0) (request 1 "DELETE" (with_id 2)) series_world)) = 200 /\
  rows (db (snd (handler (at_ day0 15 0) (request 1 "DELETE" (with_id 2)) series_world))) =
    cascade 1 1 (rows (db series_world)) /\
  ~ In stretch_instance
       (rows (db (snd (handler (at_ day0 15 0) (request 1 "DELETE" (with_id 2)) series_world)))).
Proof.
  apply (C3_delete_cascade (at_ day0 15 0) (request 1 "DELETE" (with_id 2))
           series_world 1%nat 2%nat stretch_instance).
  - reflexivity.
  - reflexivity.
  - reflexivity.
  - reflexivity.
  - split.
    + vm_compute. repeat constructor; simpl; intuition discriminate.
    + vm_compute. repeat constructor.
  - reflexivity.
  - intros t Ht. injection Ht as <-. vm_compute. discriminate.
Defined.

(** Cascade symmetry: deleting template T and deleting an instance of T
    leave the same table. *)
Lemma delete_cascade_symmetry now1 now2 reqT reqI w u T I :
  session reqT = Some u -> method reqT = "DELETE" -> b_id (body reqT) = Given (id T) ->
  session reqI = Some u -> method reqI = "DELETE" -> b_id (body reqI) = Given (id I) ->
  reliable w -> wf (db w) ->
  lookup u (id T) (db w) = Some T -> templateId T = None -> isTemplate T = true ->
  lookup u (id I) (db w) = Some I -> templateId I = Some (id T) ->
  db (snd (handler now1 reqT w)) = db (snd (handler now2 reqI w)).
Proof.
  intros Hs1 Hm1 Hi1 Hs2 Hm2 Hi2 Hrel Hwf HT HTt HTi HI HIt.
  destruct (delete_answered now1 reqT w u (id T) T Hs1 Hm1 Hi1 Hrel Hwf HT) as (_ & Hn1 & Hr1).
  { intros t Ht. congruence. }
  destruct (delete_answered now2 reqI w u (id I) I Hs2 Hm2 Hi2 Hrel Hwf HI) as (_ & Hn2 & Hr2).
  { intros t Ht. assert (t = id T) by congruence. subst t. congruence. }
  rewrite HTt, HTi in Hr1. rewrite HIt in Hr2.
  destruct (db (snd (handler now1 reqT w))), (db (snd (handler now2 reqI w))).
  simpl in *. congruence.
Qed.

(** C3 as stated fails: in the table where record 1 was made a plain record
    and deleted, instance 2 of the caller still has templateId 1, and the
    delete request on it removes nothing, instance 2 included. *)
Lemma C3_counterexample :
  option_map templateId (lookup 1 2 (db orphan_world)) = Some (Some 1%nat) /\
  status (fst (handler (at_ day0 15 0) (request 1 "DELETE" (with_id 2)) orphan_world)) = 500 /\
  lookup 1 2 (db (snd (handler (at_ day0 15 0) (request 1 "DELETE" (with_id 2)) orphan_world)))
    = Some stretch_instance.
Proof. vm_compute. repeat split; reflexivity. Qed.

Lemma C10_orphan_delete_fails_witness :
  status (fst (handler (at_ day0 15 0) (request 1 "DELETE" (with_id 2)) orphan_world)) = 500 /\
  db (snd (handler (at_ day0 15 0) (request 1 "DELETE" (with_id 2)) orphan_world)) = db orphan_world /\
  In stretch_instance
     (rows (db (snd (handler (at_ day0 15 0) (request 1 "DELETE" (with_id 2)) orphan_world)))).
Proof.
  apply (C10_orphan_delete_fails (at_ day0 15 0) (request 1 "DELETE" (with_id 2))
           orphan_world 1%nat 2%nat stretch_instance 1%nat); reflexivity.
Defined.

(** C4 (as amended). A delete request on the caller's record R whose
    database call fails is answered 500. When the lookup or the first
    removal fails, the table is unchanged. When R is a generated instance,
    the template is removed first and the removal of the instances is a
    second call: if that one fails, the template stays removed and R and
    the other instances stay stored. The removals for a template and for a
    one-off record are one call each. *)
Theorem C4_delete_failures now req w u i r :
  session req = Some u ->
  method req = "DELETE" ->
  b_id (body req) = Given i ->
  wf (db w) ->
  lookup u i (db w) = Some r ->
  (forall t, templateId r = Some t -> lookup u t (db w) <> None) ->
  match faults w with
  | true :: _ =>
      status (fst (handler now req w)) = 500 /\ db (snd (handler now req w)) = db w
  | _ :: true :: _ =>
      status (fst (handler now req w)) = 500 /\ db (snd (handler now req w)) = db w
  | _ :: _ :: true :: _ =>
      match templateId r with
      | Some t =>
          status (fst (handler now req w)) = 500 /\
          rows (db (snd (handler now req w))) = without t (rows (db w))
      | None => status (fst (handler now req w)) = 200
      end
  | _ => status (fst (handler now req w)) = 200
  end.
Proof.
  intros Hs Hm Hid Hwf Hr Htpl.
  assert (Hgo : forall fs, forallb negb fs = true ->
            status (fst (handler now req {| db := db w; faults := fs |})) = 200).
  { intros fs Hfs.
    apply (delete_answered now req {| db := db w; faults := fs |} u i r); auto. }
  assert (Hrm : forall t tpl, lookup u t (db w) = Some tpl ->
            remove_first (fun x => Nat.eqb (id x) t && Nat.eqb (userId x) u) (rows (db w))
            = Some (without t (rows (db w)))).
  { intros t tpl E. eapply remove_first_without; eauto. }
  unfold handler in *. rewrite (dispatch_method now req u "DELETE" Hs Hm) in *.
  simpl in *. unfold handle_DELETE in *. rewrite Hid in *.
  unfold lookup in Hr.
  destruct w as [tb fs]. simpl in *.
  destruct fs as [|b1 fs].
  { apply (Hgo []). reflexivity. }
  destruct b1.
  { unfold bind, findUnique, call. simpl. auto. }
  destruct fs as [|b2 fs].
  { apply (Hgo [false]). reflexivity. }
  destruct b2.
  { unfold bind, findUnique, call. simpl. rewrite Hr.
    destruct (templateId r); [|destruct (isTemplate r)]; unfold delete, deleteMany, call; simpl; auto. }
  destruct fs as [|b3 fs].
  { apply (Hgo [false; false]). reflexivity. }
  destruct b3.
  - destruct (templateId r) as [t|] eqn:Et.
    + destruct (lookup u t tb) as [tpl|] eqn:Etpl; [|exfalso; eapply Htpl; eauto].
      unfold bind, findUnique, call. simpl. rewrite Hr, Et.
      unfold delete, call. simpl. rewrite (Hrm t tpl Etpl). simpl.
      unfold deleteMany, call. simpl. auto.
    + unfold bind, findUnique, call. simpl. rewrite Hr, Et.
      destruct (isTemplate r); unfold delete, deleteMany, call; simpl.
      * reflexivity.
      * rewrite (Hrm i r Hr). reflexivity.
  - destruct (templateId r) as [t|] eqn:Et.
    + destruct (lookup u t tb) as [tpl|] eqn:Etpl; [|exfalso; eapply Htpl; eauto].
      unfold bind, findUnique, call. simpl. rewrite Hr, Et.
      unfold delete, call. simpl. rewrite (Hrm t tpl Etpl). simpl.
      unfold deleteMany, call. simpl. auto.
    + unfold bind, findUnique, call. simpl. rewrite Hr, Et.
      destruct (isTemplate r); unfold delete, deleteMany, call; simpl.
      * reflexivity.
      * rewrite (Hrm i r Hr). reflexivity.
Qed.

Lemma C4_delete_failures_witness :
  status (fst (handler (at_ day0 15 0) (request 1 "DELETE" (with_id 2)) series_world_failing)) = 500 /\
  rows (db (snd (handler (at_ day0 15 0) (request 1 "DELETE" (with_id 2)) series_world_failing)))
    = without 1 (rows (db series_world_failing)).
Proof.
  apply (C4_delete_failures (at_ day0 15 0) (request 1 "DELETE" (with_id 2))
           series_world_failing 1%nat 2%nat stretch_instance).
  - reflexivity.
  - reflexivity.
  - reflexivity.
  - split.
    + vm_compute. repeat constructor; simpl; intuition discriminate.
    + vm_compute. repeat constructor.
  - reflexivity.
  - intros t Ht. injection Ht as <-. vm_compute. discriminate.
Defined.

(** C4 as stated fails: the caller deletes instance 2 of template 1 and the
    second removal fails; the request is answered 500, yet the template is
    gone and the instance is still stored, naming it. *)
Lemma C4_counterexample :
  map id (rows (db series_world_failing)) = [1%nat; 2%nat] /\
  status (fst (handler (at_ day0 15 0) (request 1 "DELETE" (with_id 2)) series_world_failing)) = 500 /\
  rows (db (snd (handler (at_ day0 15 0) (request 1 "DELETE" (with_id 2)) series_world_failing)))
    = [stretch_instance] /\
  templateId stretch_instance = Some 1%nat.
Proof. vm_compute. repeat split; reflexivity. Qed.

(** ** Properties kept by every call *)

Section Preservation.

Variable P : Table -> Prop.

Lemma preserves_ret {A} (a : A) : preserves P (ret a).
Proof. intros w r w' E HP. unfold ret in E. congruence. Qed.

Lemma preserves_throw {A} e : preserves P (@throw A e).
Proof. intros w r w' E HP. unfold throw in E. congruence. Qed.

Lemma preserves_bind {A B} (c : M A) (k : A -> M B) :
  preserves P c -> (forall a, preserves P (k a)) -> preserves P (bind c k).
Proof.
  intros Hc Hk w r w' E HP. unfold bind in E.
  destruct (c w) as [[a|e] w1] eqn:Ec.
  - eapply Hk; eauto.
  - inversion E; subst. eapply Hc; eauto.
Qed.

Lemma preserves_call {A} (op : Table -> Result A * Table) :
  (forall t, P t -> P (snd (op t))) -> preserves P (call op).
Proof.
  intros Hop w r w' E HP.
  destruct (call_cases op w) as [(fs & _ & E1) | E1]; rewrite E1 in E;
    inversion E; subst; simpl; auto.
Qed.

Lemma preserves_forEach {A} (l : list A) (body_ : A -> M unit) :
  (forall x, preserves P (body_ x)) -> preserves P (forEach l body_).
Proof.
  intros Hb. induction l as [|x l IH]; simpl.
  - apply preserves_ret.
  - apply preserves_bind; auto.
Qed.

Lemma preserves_findMany p : preserves P (findMany p).
Proof. apply preserves_call. auto. Qed.

Lemma preserves_findManyTake p n : preserves P (findManyTake p n).
Proof. apply preserves_call. intros t Ht. destruct (Int64 n); auto. Qed.

Lemma preserves_findFirst p : preserves P (findFirst p).
Proof. apply preserves_call. auto. Qed.

Lemma preserves_findUnique p : preserves P (findUnique p).
Proof. apply preserves_call. auto. Qed.

Lemma preserves_DateTime d : preserves P (DateTime d).
Proof.
  unfold DateTime. destruct (timestamp d); [apply preserves_ret | apply preserves_throw].
Qed.

Lemma preserves_Text l : preserves P (Text l).
Proof.
  unfold Text. destruct (forallb text l); [apply preserves_ret | apply preserves_throw].
Qed.

Lemma preserves_handler now req w :
  preserves P (dispatch now req) -> P (db w) -> P (db (snd (handler now req w))).
Proof.
  intros H HP. unfold handler.
  destruct (dispatch now req w) as [[res|e] w'] eqn:E; simpl; eapply H; eauto.
Qed.

End Preservation.

(** The shape of the handler, call by call: what remains are its writes. *)
Ltac through_handler :=
  repeat first
    [ apply preserves_ret
    | apply preserves_throw
    | apply preserves_findMany
    | apply preserves_findManyTake
    | apply preserves_findFirst
    | apply preserves_findUnique
    | apply preserves_DateTime
    | apply preserves_Text
    | apply preserves_forEach; intros ?
    | apply preserves_bind; [|intros ?]
    | match goal with
      | |- preserves _ (match ?x with _ => _ end) => destruct x eqn:?
      | |- preserves _ (let '(_, _) := ?x in _) => destruct x eqn:?
      end ].

(** *** A property of every row *)

Section RowWise.

Variable Q : Todo -> Prop.

Let all_rows (t : Table) : Prop := Forall Q (rows t).

Lemma rows_create data :
  (forall n, Q (set_id n data)) -> preserves all_rows (create data).
Proof.
  intros H. apply preserves_call. intros t Ht. simpl.
  apply Forall_app. split; [assumption|]. constructor; auto.
Qed.

Lemma update_first_Forall p f l r l' :
  (forall x, Q x -> p x = true -> Q (f x)) ->
  Forall Q l -> update_first p f l = Some (r, l') -> Forall Q l'.
Proof.
  intros Hf. revert r l'. induction l as [|y l IH]; simpl; intros r l' Hl E; [discriminate|].
  inversion Hl; subst.
  destruct (p y) eqn:Ep.
  - inversion E; subst. constructor; auto.
  - destruct (update_first p f l) as [[r0 l0]|]; [|discriminate].
    inversion E; subst. constructor; eauto.
Qed.

Lemma rows_update p f :
  (forall x, Q x -> p x = true -> Q (f x)) -> preserves all_rows (update p f).
Proof.
  intros H. apply preserves_call. intros t Ht.
  destruct (update_first p f (rows t)) as [[r l]|] eqn:E; simpl; [|assumption].
  eapply update_first_Forall; eauto.
Qed.

Lemma remove_first_Forall p l l' :
  Forall Q l -> remove_first p l = Some l' -> Forall Q l'.
Proof.
  revert l'. induction l as [|y l IH]; simpl; intros l' Hl E; [discriminate|].
  inversion Hl; subst.
  destruct (p y).
  - inversion E; subst. assumption.
  - destruct (remove_first p l); [|discriminate]. inversion E; subst. constructor; auto.
Qed.

Lemma rows_delete p : preserves all_rows (delete p).
Proof.
  apply preserves_call. intros t Ht.
  destruct (remove_first p (rows t)) eqn:E; simpl; [|assumption].
  eapply remove_first_Forall; eauto.
Qed.

Lemma rows_deleteMany p : preserves all_rows (deleteMany p).
Proof.
  apply preserves_call. intros t Ht. unfold all_rows in *. simpl.
  rewrite Forall_forall in *. intros x Hx. apply filter_In in Hx. apply Ht, Hx.
Qed.

End RowWise.

(** ** C5: the shape invariants *)

Lemma shape_set_id n r : shape (set_id n r) = shape r.
Proof. reflexivity. Qed.

Lemma apply_updates_plain u f r :
  u_recurrence u = None -> u_isTemplate u = None ->
  apply_updates u = Some f -> shape (f r) = shape r.
Proof.
  intros Hr Hi E. unfold apply_updates in E. rewrite Hr in E. cbn [option_map] in E.
  destruct (forallb text (update_texts u)); [|discriminate].
  destruct (option_map timestamp (u_dueAt u)) as [[d|]|];
    destruct (option_map strings (u_tags u)) as [[l|]|];
    inversion E; subst; unfold shape; simpl; rewrite Hi; reflexivity.
Qed.

(** One request that is not an update of [recurrence] or [isTemplate] keeps
    the shape invariants on every row, whatever the database does. *)
Lemma shape_step now req :
  plain req = true ->
  preserves (fun t => Forall (fun r => shape r = true) (rows t)) (dispatch now req).
Proof.
  intros Hplain. unfold dispatch.
  destruct (session req) as [u|]; [|apply preserves_ret].
  destruct (String.eqb (method req) "GET") eqn:EG.
  { unfold handle_GET, materialize, ensure_instance. through_handler.
    apply rows_create. intros n. reflexivity. }
  destruct (String.eqb (method req) "POST") eqn:EP.
  { unfold handle_POST. through_handler; apply rows_create; intros n; reflexivity. }
  destruct (String.eqb (method req) "PUT") eqn:EU.
  { unfold plain in Hplain. rewrite EU in Hplain. simpl in Hplain.
    apply andb_true_iff in Hplain. destruct Hplain as [H1 H2].
    unfold handle_PUT. through_handler.
    apply rows_update. intros x Hx _.
    erewrite apply_updates_plain; eauto; unfold build_updates; simpl.
    - destruct (b_recurrence (body req)); [reflexivity | reflexivity | discriminate].
    - destruct (b_isTemplate (body req)); [reflexivity | reflexivity | discriminate]. }
  destruct (String.eqb (method req) "DELETE") eqn:ED.
  { unfold handle_DELETE. through_handler;
      first [apply rows_delete | apply rows_deleteMany]. }
  apply preserves_ret.
Qed.

(** C5 (as amended). Starting from a table whose rows satisfy both shape
    invariants (isTemplate implies recurrence DAILY and no templateId; a
    templateId implies isTemplate false and recurrence NONE), every run of
    list, create and delete requests, and of update requests that carry
    neither [recurrence] nor [isTemplate], leaves a table whose rows all
    satisfy them. *)
Theorem C5_shape_invariant reqs w :
  Forall (fun r => shape r = true) (rows (db w)) ->
  forallb (fun nr => plain (snd nr)) reqs = true ->
  Forall (fun r => shape r = true) (rows (db (snd (serve reqs w)))).
Proof.
  revert w. induction reqs as [|[now req] reqs IH]; simpl; intros w Hw Hp; [assumption|].
  apply andb_true_iff in Hp. destruct Hp as [Hp1 Hp2].
  pose proof (preserves_handler _ now req w (shape_step now req Hp1) Hw) as H1.
  destruct (handler now req w) as [res w1]. simpl in H1.
  specialize (IH w1 H1 Hp2). destruct (serve reqs w1) as [out w2]. assumption.
Qed.

Lemma C5_shape_invariant_witness :
  Forall (fun r => shape r = true)
    (rows (db (snd (serve
       [ (at_ day0 15 0, request 1 "PUT" (set_completed 2 true));
         (at_ day0 15 1, request 1 "POST" (new_todo "Buy milk" None (Some "18:30")));
         (at_ day0 15 2, request 1 "POST" (new_todo "Read" (Some "DAILY") None));
         (at_ day0 15 3, request 1 "GET" no_body);
         (at_ day0 15 4, request 1 "DELETE" (with_id 3)) ]
       series_world)))).
Proof.
  apply (C5_shape_invariant
    [ (at_ day0 15 0, request 1 "PUT" (set_completed 2 true));
      (at_ day0 15 1, request 1 "POST" (new_todo "Buy milk" None (Some "18:30")));
      (at_ day0 15 2, request 1 "POST" (new_todo "Read" (Some "DAILY") None));
      (at_ day0 15 3, request 1 "GET" no_body);
      (at_ day0 15 4, request 1 "DELETE" (with_id 3)) ] series_world).
  - change (rows (db series_world)) with [stretch_template; stretch_instance].
    repeat constructor.
  - reflexivity.
Defined.

(** The run of the scenario starts from the template Stretch and its
    instance and ends with four records: the two, the instance completed,
    and the template Read with the instance generated from it. *)
Example shape_scenario :
  map id (rows (db series_world)) = [1%nat; 2%nat] /\
  map (fun r => (id r, isTemplate r, recurrence r, templateId r, completed r))
      (rows (db (snd (serve
         [ (at_ day0 15 0, request 1 "PUT" (set_completed 2 true));
           (at_ day0 15 1, request 1 "POST" (new_todo "Buy milk" None (Some "18:30")));
           (at_ day0 15 2, request 1 "POST" (new_todo "Read" (Some "DAILY") None));
           (at_ day0 15 3, request 1 "GET" no_body);
           (at_ day0 15 4, request 1 "DELETE" (with_id 3)) ]
         series_world))))
  = [ (1%nat, true, DAILY, None, false);
      (2%nat, false, NONE, Some 1%nat, true);
      (4%nat, true, DAILY, None, false);
      (5%nat, false, NONE, Some 4%nat, false) ].
Proof. vm_compute. split; reflexivity. Qed.

(** C5 as stated fails: an update may set [isTemplate] on a one-off record,
    which leaves a record with isTemplate true and recurrence NONE. *)
Lemma C5_counterexample :
  let w := snd (serve
     [ (at_ day0 14 37, request 1 "POST" (new_todo "Buy milk" None (Some "18:30")));
       (at_ day0 14 38, request 1 "PUT" (set_template 1 true)) ] empty_world) in
  option_map isTemplate (lookup 1 1 (db w)) = Some true /\
  option_map recurrence (lookup 1 1 (db w)) = Some NONE /\
  option_map shape (lookup 1 1 (db w)) = Some false.
Proof. vm_compute. repeat split; reflexivity. Qed.

(** ** Unique ids are kept *)

Lemma update_first_map {B} (g : Todo -> B) p f l r l' :
  (forall x, g (f x) = g x) ->
  update_first p f l = Some (r, l') -> map g l' = map g l.
Proof.
  intros Hg. revert r l'. induction l as [|y l IH]; simpl; intros r l' E; [discriminate|].
  destruct (p y).
  - inversion E; subst. simpl. rewrite Hg. reflexivity.
  - destruct (update_first p f l) as [[r0 l0]|]; [|discriminate].
    inversion E; subst. simpl. f_equal. eapply IH. reflexivity.
Qed.

Lemma remove_first_incl p l l' :
  remove_first p l = Some l' -> forall x, In x l' -> In x l.
Proof.
  revert l'. induction l as [|y l IH]; simpl; intros l' E x Hx; [discriminate|].
  destruct (p y).
  - inversion E; subst. auto.
  - destruct (remove_first p l) as [l0|]; [|discriminate]. inversion E; subst.
    destruct Hx as [Hx|Hx]; [auto | right; eapply IH; eauto].
Qed.

Lemma remove_first_NoDup p l l' :
  remove_first p l = Some l' -> NoDup (map id l) -> NoDup (map id l').
Proof.
  revert l'. induction l as [|y l IH]; simpl; intros l' E Hnd; [discriminate|].
  inversion Hnd as [|? ? Hnot Hnd']; subst.
  destruct (p y).
  - inversion E; subst. assumption.
  - destruct (remove_first p l) as [l0|] eqn:E0; [|discriminate]. inversion E; subst.
    simpl. constructor; [|apply IH; auto].
    intros Hin. apply Hnot. apply in_map_iff in Hin. destruct Hin as (x & Hx & Hin).
    rewrite <- Hx. apply in_map. eapply remove_first_incl; eauto.
Qed.

Lemma filter_NoDup (p : Todo -> bool) l :
  NoDup (map id l) -> NoDup (map id (filter p l)).
Proof.
  induction l as [|y l IH]; simpl; intros Hnd; [constructor|].
  inversion Hnd as [|? ? Hnot Hnd']; subst.
  destruct (p y); simpl; [|auto]. constructor; [|auto].
  intros Hin. apply Hnot. apply in_map_iff in Hin. destruct Hin as (x & Hx & Hin).
  rewrite <- Hx. apply in_map. apply filter_In in Hin. tauto.
Qed.

Lemma apply_updates_keeps u f r :
  apply_updates u = Some f ->
  id (f r) = id r /\ userId (f r) = userId r /\ templateId (f r) = templateId r.
Proof.
  unfold apply_updates. intros E.
  destruct (forallb text (update_texts u)); [|discriminate].
  destruct (option_map timestamp (u_dueAt u)) as [[d|]|];
    destruct (option_map as_Recurrence (u_recurrence u)) as [[rc|]|];
    destruct (option_map strings (u_tags u)) as [[l|]|];
    inversion E; subst; simpl; auto.
Qed.

Lemma NoDup_snoc (l : list nat) a : NoDup l -> ~ In a l -> NoDup (l ++ [a]).
Proof.
  induction l as [|y l IH]; simpl; intros Hnd Hnot.
  - constructor; [tauto | constructor].
  - inversion Hnd; subst. constructor.
    + rewrite in_app_iff. simpl. intuition.
    + apply IH; tauto.
Qed.

Lemma wf_create data : preserves wf (create data).
Proof.
  apply preserves_call. intros t [Hnd Hlt]. split; simpl.
  - rewrite map_app. simpl. apply NoDup_snoc; [assumption|].
    intros Hin. apply in_map_iff in Hin. destruct Hin as (x & Hx & Hin).
    rewrite Forall_forall in Hlt. specialize (Hlt x Hin). lia.
  - apply Forall_app. split.
    + eapply Forall_impl; [|exact Hlt]. simpl. intros. lia.
    + constructor; [simpl; lia | constructor].
Qed.

Lemma wf_update p f :
  (forall x, id (f x) = id x) -> preserves wf (update p f).
Proof.
  intros Hf. apply preserves_call. intros t [Hnd Hlt].
  destruct (update_first p f (rows t)) as [[r l]|] eqn:E; simpl; [|split; assumption].
  split; simpl.
  - rewrite (update_first_map id p f _ _ _ Hf E). assumption.
  - eapply update_first_Forall; [|exact Hlt|exact E].
    intros x Hx _. simpl. rewrite Hf. exact Hx.
Qed.

Lemma wf_delete p : preserves wf (delete p).
Proof.
  apply preserves_call. intros t [Hnd Hlt].
  destruct (remove_first p (rows t)) as [l|] eqn:E; simpl; [|split; assumption].
  split; simpl.
  - eapply remove_first_NoDup; eauto.
  - eapply remove_first_Forall; eauto.
Qed.

Lemma wf_deleteMany p : preserves wf (deleteMany p).
Proof.
  apply preserves_call. intros t [Hnd Hlt]. split; simpl.
  - apply filter_NoDup. assumption.
  - rewrite Forall_forall in *. intros x Hx. apply filter_In in Hx. apply Hlt, Hx.
Qed.

(** Every request keeps the ids unique and below the generator. *)
Lemma wf_step now req : preserves wf (dispatch now req).
Proof.
  unfold dispatch.
  destruct (session req) as [u|]; [|apply preserves_ret].
  destruct (String.eqb (method req) "GET").
  { unfold handle_GET, materialize, ensure_instance. through_handler. apply wf_create. }
  destruct (String.eqb (method req) "POST").
  { unfold handle_POST. through_handler; apply wf_create. }
  destruct (String.eqb (method req) "PUT").
  { unfold handle_PUT. through_handler. apply wf_update.
    intros x. eapply apply_updates_keeps; eauto. }
  destruct (String.eqb (method req) "DELETE").
  { unfold handle_DELETE. through_handler;
      first [apply wf_delete | apply wf_deleteMany]. }
  apply preserves_ret.
Qed.

Lemma wf_handler now req w : wf (db w) -> wf (db (snd (handler now req w))).
Proof. apply preserves_handler, wf_step. Qed.

Lemma wf_serve reqs w : wf (db w) -> wf (db (snd (serve reqs w))).
Proof.
  revert w. induction reqs as [|[now req] reqs IH]; simpl; intros w Hw; [assumption|].
  pose proof (wf_handler now req w Hw) as H1.
  destruct (handler now req w) as [res w1]. simpl in H1.
  specialize (IH w1 H1). destruct (serve reqs w1) as [out w2]. assumption.
Qed.

Lemma wf_empty : wf (db empty_world).
Proof. split; simpl; constructor. Qed.

(** ** C9: what a request can touch *)

Section Isolation.

Variables a b : nat.
Hypothesis a_not_b : a <> b.

Let others (L : list Todo) (t : Table) : Prop := owned b (rows t) = L.

Lemma others_create L data : userId data = a -> preserves (others L) (create data).
Proof.
  intros Hd. apply preserves_call. intros t Ht. unfold others, owned in *. simpl.
  rewrite filter_app. simpl. rewrite Hd.
  destruct (Nat.eqb a b) eqn:E; [apply Nat.eqb_eq in E; contradiction|].
  rewrite app_nil_r. assumption.
Qed.

Lemma update_first_owned p f l r l' :
  (forall x, p x = true -> userId x = a) -> (forall x, userId (f x) = userId x) ->
  update_first p f l = Some (r, l') -> owned b l' = owned b l.
Proof.
  intros Hp Hf. revert r l'. induction l as [|y l IH]; simpl; intros r l' E; [discriminate|].
  destruct (p y) eqn:Ep.
  - inversion E; subst. simpl. rewrite Hf, (Hp y Ep).
    destruct (Nat.eqb a b) eqn:Eab; [apply Nat.eqb_eq in Eab; contradiction | reflexivity].
  - destruct (update_first p f l) as [[r0 l0]|]; [|discriminate].
    inversion E; subst. simpl. erewrite IH by reflexivity. reflexivity.
Qed.

Lemma others_update L p f :
  (forall x, p x = true -> userId x = a) -> (forall x, userId (f x) = userId x) ->
  preserves (others L) (update p f).
Proof.
  intros Hp Hf. apply preserves_call. intros t Ht. unfold others in *.
  destruct (update_first p f (rows t)) as [[r l]|] eqn:E; simpl; [|assumption].
  rewrite <- Ht. eapply update_first_owned; eauto.
Qed.

Lemma remove_first_owned p l l' :
  (forall x, p x = true -> userId x = a) ->
  remove_first p l = Some l' -> owned b l' = owned b l.
Proof.
  intros Hp. revert l'. induction l as [|y l IH]; simpl; intros l' E; [discriminate|].
  destruct (p y) eqn:Ep.
  - inversion E; subst. rewrite (Hp y Ep).
    destruct (Nat.eqb a b) eqn:Eab; [apply Nat.eqb_eq in Eab; contradiction | reflexivity].
  - destruct (remove_first p l) as [l0|]; [|discriminate].
    inversion E; subst. simpl. erewrite IH by reflexivity. reflexivity.
Qed.

Lemma others_delete L p :
  (forall x, p x = true -> userId x = a) -> preserves (others L) (delete p).
Proof.
  intros Hp. apply preserves_call. intros t Ht. unfold others in *.
  destruct (remove_first p (rows t)) as [l|] eqn:E; simpl; [|assumption].
  rewrite <- Ht. eapply remove_first_owned; eauto.
Qed.

Lemma others_deleteMany L p :
  (forall x, p x = true -> userId x = a) -> preserves (others L) (deleteMany p).
Proof.
  intros Hp. apply preserves_call. intros t Ht. unfold others, owned in *. simpl.
  rewrite <- Ht. rewrite filter_twice.
  apply filter_ext. intros x. destruct (p x) eqn:Ep; simpl; [|reflexivity].
  rewrite (Hp x Ep).
  destruct (Nat.eqb a b) eqn:Eab; [apply Nat.eqb_eq in Eab; contradiction | reflexivity].
Qed.

Lemma where_user (c : bool) (x : Todo) : c && Nat.eqb (userId x) a = true -> userId x = a.
Proof. intros H. apply andb_true_iff in H. apply Nat.eqb_eq. tauto. Qed.

(** A request of [a] leaves the rows of every other user as they are,
    whatever id it names and whatever the database does. *)
Lemma isolation_step now req L :
  session req = Some a -> preserves (others L) (dispatch now req).
Proof.
  intros Hs. unfold dispatch. rewrite Hs.
  destruct (String.eqb (method req) "GET").
  { unfold handle_GET, materialize, ensure_instance. through_handler. apply others_create. reflexivity. }
  destruct (String.eqb (method req) "POST").
  { unfold handle_POST. through_handler; apply others_create; reflexivity. }
  destruct (String.eqb (method req) "PUT").
  { unfold handle_PUT. through_handler. apply others_update.
    - intros x. apply where_user.
    - intros x. eapply apply_updates_keeps; eauto. }
  destruct (String.eqb (method req) "DELETE").
  { unfold handle_DELETE. through_handler;
      first [apply others_delete | apply others_deleteMany]; intros x; apply where_user. }
  apply preserves_ret.
Qed.

Lemma isolation_store now req w :
  session req = Some a ->
  owned b (rows (db (snd (handler now req w)))) = owned b (rows (db w)).
Proof.
  intros Hs.
  apply (preserves_handler (others (owned b (rows (db w)))) now req w).
  - apply isolation_step. assumption.
  - reflexivity.
Qed.

End Isolation.

(** ** The sort of the listing *)

Lemma insert_In cmp x l y : In y (insert cmp x l) <-> y = x \/ In y l.
Proof.
  induction l as [|z l IH]; simpl.
  - intuition.
  - destruct (positive (cmp x z)); simpl; rewrite ?IH; intuition.
Qed.

Lemma sort_In cmp l y : In y (sort cmp l) <-> In y l.
Proof.
  induction l as [|z l IH]; simpl; [tauto|].
  rewrite insert_In, IH. intuition.
Qed.

Lemma due_le_trans a b c : due_le a b -> due_le b c -> due_le a c.
Proof.
  unfold due_le. destruct (dueAt a), (dueAt b), (dueAt c); try tauto. lia.
Qed.

(** The comparator is positive when the difference is, rounded or not. *)
Lemma positive_number z : positive (Js.number z) = (0 <? z).
Proof.
  pose proof (number_sign z) as H. destruct (Js.number z) as [v| | |]; simpl.
  - destruct H as [H _]. destruct (Z.ltb_spec 0 v), (Z.ltb_spec 0 z); try reflexivity; lia.
  - symmetry. apply Z.ltb_lt. exact H.
  - symmetry. apply Z.ltb_ge. lia.
  - contradiction.
Qed.

Lemma not_positive_due_le a b : positive (comparator a b) = false -> due_le a b.
Proof.
  unfold comparator, due_le.
  destruct (dueAt a), (dueAt b); cbn [time_or_Infinity Js.sub positive];
    try tauto; try discriminate.
  rewrite positive_number. intros H. apply Z.ltb_ge in H. lia.
Qed.

Lemma positive_due_le a b : positive (comparator a b) = true -> due_le b a.
Proof.
  unfold comparator, due_le.
  destruct (dueAt a), (dueAt b); cbn [time_or_Infinity Js.sub positive];
    try tauto; try discriminate.
  rewrite positive_number. intros H. apply Z.ltb_lt in H. lia.
Qed.

Lemma insert_sorted x l :
  StronglySorted due_le l -> StronglySorted due_le (insert comparator x l).
Proof.
  induction l as [|z l IH]; simpl; intros Hs.
  - constructor; constructor.
  - inversion Hs as [|? ? Hs' Hall]; subst.
    destruct (positive (comparator x z)) eqn:E.
    + constructor; [auto|].
      rewrite Forall_forall. intros y Hy. apply insert_In in Hy. destruct Hy as [->|Hy].
      * apply positive_due_le. assumption.
      * rewrite Forall_forall in Hall. auto.
    + constructor; [assumption|].
      apply not_positive_due_le in E. constructor; [assumption|].
      eapply Forall_impl; [|exact Hall]. intros y Hy. eapply due_le_trans; eauto.
Qed.

(** The sorted array is in full-timestamp order, records without a due
    date last. *)
Lemma sort_sorted l : StronglySorted due_le (sort comparator l).
Proof.
  induction l as [|z l IH]; simpl; [constructor | apply insert_sorted, IH].
Qed.

(** ** What a response carries *)

Lemma bind_Ok {A B} (c : M A) (k : A -> M B) w r w' :
  bind c k w = (Ok r, w') -> exists a w1, c w = (Ok a, w1) /\ k a w1 = (Ok r, w').
Proof.
  unfold bind. destruct (c w) as [[a|e] w1]; intros E; [eauto | discriminate].
Qed.

Lemma Text_Ok l w r w' : Text l w = (Ok r, w') -> forallb text l = true /\ w' = w.
Proof.
  unfold Text. destruct (forallb text l); [|discriminate].
  unfold ret. intros E. inversion E. auto.
Qed.

Lemma call_Ok {A} (op : Table -> Result A * Table) w a w' :
  call op w = (Ok a, w') -> fst (op (db w)) = Ok a.
Proof.
  intros E. destruct (call_cases op w) as [(fs & _ & E1) | E1]; rewrite E1 in E;
    inversion E; subst; auto.
Qed.

Lemma take_rows_incl n l x : In x (take_rows n l) -> In x l.
Proof.
  unfold take_rows. destruct (0 <=? n); intros H.
  - rewrite <- (firstn_skipn (Z.to_nat n) l). apply in_or_app. left. assumption.
  - rewrite <- (firstn_skipn (List.length l - Z.to_nat (- n)) l).
    apply in_or_app. right. assumption.
Qed.

Lemma update_first_result p f l r l' :
  update_first p f l = Some (r, l') -> exists x, In x l /\ p x = true /\ r = f x.
Proof.
  revert r l'. induction l as [|y l IH]; simpl; intros r l' E; [discriminate|].
  destruct (p y) eqn:Ep.
  - inversion E; subst. exists y. auto.
  - destruct (update_first p f l) as [[r0 l0]|] eqn:E0; [|discriminate].
    inversion E; subst. destruct (IH _ _ eq_refl) as (x & Hx & Hpx & Hr). exists x. auto.
Qed.

(** The records in a response to [a] are records of [a]. *)
Lemma isolation_results now req w a :
  session req = Some a -> only_of a (fst (handler now req w)).
Proof.
  intros Hs. unfold handler.
  destruct (dispatch now req w) as [[res|e] w'] eqn:E; simpl; [|exact I].
  unfold dispatch in E. rewrite Hs in E.
  destruct (String.eqb (method req) "GET").
  { unfold handle_GET in E. apply bind_Ok in E. destruct E as (_ & w1 & _ & E).
    apply bind_Ok in E. destruct E as (todos & w2 & E1 & E2).
    unfold ret in E2. inversion E2; subst. unfold only_of. simpl.
    apply call_Ok in E1. destruct (Int64 _) as [n|]; simpl in E1; [|discriminate].
    inversion E1; subst. rewrite Forall_forall. intros x Hx.
    apply sort_In, take_rows_incl, filter_In in Hx. destruct Hx as [_ Hx].
    apply andb_true_iff in Hx. destruct Hx as [Hx _].
    apply andb_true_iff in Hx. destruct Hx as [Hx _]. apply Nat.eqb_eq. assumption. }
  destruct (String.eqb (method req) "POST").
  { unfold handle_POST in E.
    destruct (todoSchema_safeParse (body req)) as [data|].
    2:{ unfold ret in E. inversion E; subst. exact I. }
    destruct (_ || _).
    - apply bind_Ok in E. destruct E as (ut & wt & Et & E).
      apply bind_Ok in E. destruct E as (todo & w1 & E1 & E2).
      unfold ret in E2. inversion E2; subst. apply call_Ok in E1. simpl in E1.
      inversion E1; subst. reflexivity.
    - destruct (Js.split_time _) as [hh mm].
      apply bind_Ok in E. destruct E as (d & w0 & _ & E).
      apply bind_Ok in E. destruct E as (ut & wt & Et & E).
      apply bind_Ok in E. destruct E as (todo & w1 & E1 & E2).
      unfold ret in E2. inversion E2; subst. apply call_Ok in E1. simpl in E1.
      inversion E1; subst. reflexivity. }
  destruct (String.eqb (method req) "PUT").
  { unfold handle_PUT in E.
    destruct (b_id (body req)) as [| |i];
      [unfold ret in E; inversion E; subst; exact I | unfold throw in E; discriminate |].
    destruct (apply_updates _) as [f|] eqn:Ef; [|discriminate].
    apply bind_Ok in E. destruct E as (todo & w1 & E1 & E2).
    unfold ret in E2. inversion E2; subst. apply call_Ok in E1.
    destruct (update_first _ f (rows (db w))) as [[r l]|] eqn:Eu; simpl in E1; [|discriminate].
    inversion E1; subst. apply update_first_result in Eu.
    destruct Eu as (x & _ & Hp & ->). unfold only_of. simpl.
    destruct (apply_updates_keeps _ f x Ef) as (_ & -> & _).
    apply andb_true_iff in Hp. apply Nat.eqb_eq. tauto. }
  destruct (String.eqb (method req) "DELETE").
  { unfold handle_DELETE in E.
    destruct (b_id (body req)) as [| |i];
      [unfold ret in E; inversion E; subst; exact I | unfold throw in E; discriminate |].
    apply bind_Ok in E. destruct E as ([todo|] & w1 & _ & E).
    2:{ unfold ret in E. inversion E; subst. exact I. }
    destruct (templateId todo); [|destruct (isTemplate todo)].
    - apply bind_Ok in E. destruct E as (_ & w2 & _ & E).
      apply bind_Ok in E. destruct E as (_ & w3 & _ & E).
      unfold ret in E. inversion E; subst. exact I.
    - apply bind_Ok in E. destruct E as (_ & w2 & _ & E).
      unfold ret in E. inversion E; subst. exact I.
    - apply bind_Ok in E. destruct E as (_ & w2 & _ & E).
      unfold ret in E. inversion E; subst. exact I. }
  unfold ret in E. inversion E; subst. exact I.
Qed.

(** Every listing is in full-timestamp order. *)
Lemma listing_sorted now req w l :
  json (fst (handler now req w)) = JTodos l -> StronglySorted due_le l.
Proof.
  unfold handler.
  destruct (dispatch now req w) as [[res|e] w'] eqn:E; simpl; [|discriminate].
  intros Hj. unfold dispatch in E.
  destruct (session req) as [u|].
  2:{ unfold ret in E. inversion E; subst. discriminate. }
  destruct (String.eqb (method req) "GET").
  { unfold handle_GET in E. apply bind_Ok in E. destruct E as (_ & w1 & _ & E).
    apply bind_Ok in E. destruct E as (todos & w2 & E1 & E2).
    unfold ret in E2. inversion E2; subst. simpl in Hj. inversion Hj; subst.
    apply sort_sorted. }
  destruct (String.eqb (method req) "POST").
  { unfold handle_POST in E.
    destruct (todoSchema_safeParse (body req)) as [data|].
    2:{ unfold ret in E. inversion E; subst. discriminate. }
    destruct (_ || _).
    - apply bind_Ok in E. destruct E as (ut & wt & Et & E).
      apply bind_Ok in E. destruct E as (todo & w1 & E1 & E2).
      unfold ret in E2. inversion E2; subst. discriminate.
    - destruct (Js.split_time _) as [hh mm].
      apply bind_Ok in E. destruct E as (d & w0 & _ & E).
      apply bind_Ok in E. destruct E as (ut & wt & Et & E).
      apply bind_Ok in E. destruct E as (todo & w1 & E1 & E2).
      unfold ret in E2. inversion E2; subst. discriminate. }
  destruct (String.eqb (method req) "PUT").
  { unfold handle_PUT in E.
    destruct (b_id (body req)) as [| |i];
      [unfold ret in E; inversion E; subst; discriminate | unfold throw in E; discriminate |].
    destruct (apply_updates _) as [f|] eqn:Ef; [|discriminate].
    apply bind_Ok in E. destruct E as (todo & w1 & E1 & E2).
    unfold ret in E2. inversion E2; subst. discriminate. }
  destruct (String.eqb (method req) "DELETE").
  { unfold handle_DELETE in E.
    destruct (b_id (body req)) as [| |i];
      [unfold ret in E; inversion E; subst; discriminate | unfold throw in E; discriminate |].
    apply bind_Ok in E. destruct E as ([todo|] & w1 & _ & E).
    2:{ unfold ret in E. inversion E; subst. discriminate. }
    destruct (templateId todo); [|destruct (isTemplate todo)].
    - apply bind_Ok in E. destruct E as (_ & w2 & _ & E).
      apply bind_Ok in E. destruct E as (_ & w3 & _ & E).
      unfold ret in E. inversion E; subst. discriminate.
    - apply bind_Ok in E. destruct E as (_ & w2 & _ & E).
      unfold ret in E. inversion E; subst. discriminate.
    - apply bind_Ok in E. destruct E as (_ & w2 & _ & E).
      unfold ret in E. inversion E; subst. discriminate. }
  unfold ret in E. inversion E; subst. discriminate.
Qed.

(** ** C9: a record id of another user *)

(** An update that names a record the caller does not have is answered 500
    and changes nothing, whatever the database does. *)
Lemma update_missing now req w a i :
  session req = Some a -> method req = "PUT" -> b_id (body req) = Given i ->
  lookup a i (db w) = None ->
  status (fst (handler now req w)) = 500 /\ db (snd (handler now req w)) = db w.
Proof.
  intros Hs Hm Hid Hnone. unfold handler.
  rewrite (dispatch_method now req a "PUT" Hs Hm). simpl.
  unfold handle_PUT. rewrite Hid.
  destruct (apply_updates _) as [f|]; [|simpl; auto].
  unfold bind, update.
  match goal with |- context [call ?op w] =>
    destruct (call_cases op w) as [(fs & _ & E) | E]; rewrite E; simpl end.
  - auto.
  - unfold lookup in Hnone. rewrite (find_none_update_first _ f _ Hnone). simpl. auto.
Qed.

(** A delete that names a record the caller does not have is answered 404
    when the lookup is answered, and changes nothing. *)
Lemma delete_missing now req w a i :
  session req = Some a -> method req = "DELETE" -> b_id (body req) = Given i ->
  reliable w -> lookup a i (db w) = None ->
  status (fst (handler now req w)) = 404 /\ db (snd (handler now req w)) = db w.
Proof.
  intros Hs Hm Hid Hrel Hnone. unfold handler.
  rewrite (dispatch_method now req a "DELETE" Hs Hm). simpl.
  unfold handle_DELETE. rewrite Hid. unfold bind, findUnique.
  rewrite (call_reliable _ w Hrel). simpl.
  fold (lookup a i (db w)). rewrite Hnone. simpl. auto.
Qed.

(** C9. User 2 owns record 1. User 1 names it in an update: the table is
    unchanged and the response carries no record, but the request is
    answered 500 Internal server error; the delete of the same id is
    answered 404. *)
Theorem C9_update_foreign_record :
  lookup 2 1 (db neighbour_world) <> None /\
  status (fst (handler (at_ day0 15 0) (request 1 "PUT" (set_completed 1 true)) neighbour_world)) = 500 /\
  json (fst (handler (at_ day0 15 0) (request 1 "PUT" (set_completed 1 true)) neighbour_world))
    = JError "Internal server error" /\
  db (snd (handler (at_ day0 15 0) (request 1 "PUT" (set_completed 1 true)) neighbour_world))
    = db neighbour_world /\
  status (fst (handler (at_ day0 15 0) (request 1 "DELETE" (with_id 1)) neighbour_world)) = 404.
Proof. vm_compute. repeat split; try reflexivity. discriminate. Qed.

(** ** C6: the order of the listing *)

(** C6. With a task due yesterday at 23:15 and a task due today at 09:20,
    the listing returns yesterday's task first: the order is that of the
    full timestamps, not that of the times of day. *)
Theorem C6_listing_order_is_full_timestamp :
  match json (fst (handler (at_ day0 8 6) (request 1 "GET" no_body) two_days_world)) with
  | JTodos l =>
      map title l = ["Night walk"; "Morning run"] /\
      map minute_of_day l = [Some (23 * 60 + 15); Some (9 * 60 + 20)] /\
      map dueAt l = [Some (at_ (day0 - Js.msPerDay) 23 15); Some (at_ day0 9 20)]
  | _ => False
  end.
Proof. vm_compute. repeat split; reflexivity. Qed.

(** ** C7: a failure during reconciliation *)

(** Nothing in the listing catches what the loop throws. *)
Lemma listing_aborts now req w u e w1 :
  session req = Some u ->
  method req = "GET" ->
  materialize u now w = (Throw e, w1) ->
  handler now req w = (respond 500 (JError "Internal server error"), w1).
Proof.
  intros Hs Hm E. unfold handler.
  rewrite (dispatch_method now req u "GET" Hs Hm). simpl.
  unfold handle_GET, bind. rewrite E. reflexivity.
Qed.


(** ** C8: the due time of a one-off record *)

(** C8. A one-off record created at 14:37 with timeOfDay 18:00 is due at
    18:37, and one created with 00:30 is due at 14:30: a zero minute or
    hour is replaced by the current one. *)
Theorem C8_zero_hour_or_minute_is_replaced :
  match json (fst (handler (at_ day0 14 37)
                     (request 1 "POST" (new_todo "Buy milk" None (Some "18:00"))) empty_world)),
        json (fst (handler (at_ day0 14 37)
                     (request 1 "POST" (new_todo "Night shift" None (Some "00:30"))) empty_world))
  with
  | JTodo r, JTodo r' =>
      timeOfDay r = Some "18:00" /\ dueAt r = Some (at_ day0 18 37) /\
      timeOfDay r' = Some "00:30" /\ dueAt r' = Some (at_ day0 14 30)
  | _, _ => False
  end.
Proof. vm_compute. repeat split; reflexivity. Qed.

(** ** Dates *)

Lemma startOfDay_le now : Js.startOfDay now <= now < Js.startOfDay now + Js.msPerDay.
Proof.
  unfold Js.startOfDay, Js.msPerDay.
  pose proof (Z.mod_pos_bound now 86400000 ltac:(lia)).
  pose proof (Z.div_mod now 86400000 ltac:(lia)). lia.
Qed.

Lemma startOfDay_plus d t :
  0 <= t < Js.msPerDay -> Js.startOfDay (Js.startOfDay d + t) = Js.startOfDay d.
Proof.
  unfold Js.startOfDay, Js.msPerDay. intros Ht. f_equal.
  rewrite Z.mul_comm, Z.div_add_l by lia. rewrite (Z.div_small t) by lia. lia.
Qed.

Lemma startOfDay_idem d : Js.startOfDay (Js.startOfDay d) = Js.startOfDay d.
Proof.
  pose proof (startOfDay_plus d 0) as H. rewrite Z.add_0_r in H. apply H.
  unfold Js.msPerDay. lia.
Qed.

Lemma startOfDay_clock d : clock d -> 0 <= Js.startOfDay d <= d.
Proof.
  intros [H0 _]. pose proof (startOfDay_le d) as H. split; [|lia].
  unfold Js.startOfDay, Js.msPerDay. apply Z.mul_nonneg_nonneg; [lia|].
  apply Z.div_pos; lia.
Qed.

Lemma Day_startOfDay d : Js.Day d * Js.msPerDay = Js.startOfDay d.
Proof. unfold Js.Day, Js.startOfDay. apply Z.mul_comm. Qed.

(** [setHours] looks at the day of the date only. *)
Lemma setHours_startOfDay d h m : Js.setHours (Js.startOfDay d) h m = Js.setHours d h m.
Proof.
  unfold Js.setHours. replace (Js.Day (Js.startOfDay d)) with (Js.Day d); [reflexivity|].
  unfold Js.Day, Js.startOfDay. rewrite Z.mul_comm, Z.div_mul; [reflexivity|].
  unfold Js.msPerDay. lia.
Qed.

(** Hours and minutes of ordinary size make the time one expects. *)
Lemma MakeTime_exact h m :
  Z.abs h <= 1000000000 -> Z.abs m <= 1000000000 ->
  Js.MakeTime (Fin h) (Fin m) (Fin 0) (Fin 0)
  = Fin (h * Js.msPerHour + m * Js.msPerMinute).
Proof.
  intros Hh Hm. unfold Js.MakeTime, Js.msPerHour, Js.msPerMinute, Js.msPerSecond.
  rewrite (number_exact (h * 3600000)) by (change (2 ^ 53) with 9007199254740992; lia).
  rewrite (number_exact (m * 60000)) by (change (2 ^ 53) with 9007199254740992; lia).
  change (Js.number (0 * 1000)) with (Fin 0). unfold Js.add.
  rewrite (number_exact (h * 3600000 + m * 60000))
    by (change (2 ^ 53) with 9007199254740992; lia).
  rewrite (number_exact (h * 3600000 + m * 60000 + 0))
    by (change (2 ^ 53) with 9007199254740992; lia).
  rewrite (number_exact (h * 3600000 + m * 60000 + 0 + 0))
    by (change (2 ^ 53) with 9007199254740992; lia).
  f_equal. lia.
Qed.

(** A time within the day, set on a day of the clock, is a date of that
    day that the database stores. *)
Lemma setHours_time d h m t :
  clock d -> Js.MakeTime h m (Fin 0) (Fin 0) = Fin t -> 0 <= t < Js.msPerDay ->
  Js.setHours d h m = Some (Js.startOfDay d + t) /\
  timestamp (Some (Js.startOfDay d + t)) = Some (Js.startOfDay d + t) /\
  between (Some (Js.startOfDay d + t)) (Js.startOfDay d) (Js.endOfDay d) = true.
Proof.
  intros Hc Ht Hday. pose proof (startOfDay_clock d Hc) as Hs.
  unfold clock in Hc. unfold Js.msPerDay in Hday. split; [|split].
  - unfold Js.setHours, Js.MakeDate. rewrite Ht, Day_startOfDay.
    rewrite (number_exact (Js.startOfDay d))
      by (change (2 ^ 53) with 9007199254740992; lia).
    unfold Js.add. rewrite (number_exact (Js.startOfDay d + t))
      by (change (2 ^ 53) with 9007199254740992; lia).
    unfold Js.TimeClip.
    destruct (Z.leb_spec (Z.abs (Js.startOfDay d + t)) 8640000000000000);
      [reflexivity | lia].
  - unfold timestamp, min_timestamp.
    destruct (Z.leb_spec (-210866803200000) (Js.startOfDay d + t)); [reflexivity | lia].
  - unfold between, Js.endOfDay, Js.msPerHour, Js.msPerMinute.
    apply andb_true_iff. split; apply Z.leb_le; lia.
Qed.

Lemma setHours_within d h m :
  clock d -> Z.abs h <= 1000000000 -> Z.abs m <= 1000000000 ->
  0 <= 60 * h + m < 1440 ->
  Js.setHours d (Fin h) (Fin m) = Some (at_ (Js.startOfDay d) h m) /\
  timestamp (Some (at_ (Js.startOfDay d) h m)) = Some (at_ (Js.startOfDay d) h m) /\
  between (Some (at_ (Js.startOfDay d) h m)) (Js.startOfDay d) (Js.endOfDay d) = true.
Proof.
  intros Hc Hh Hm Hhm.
  replace (at_ (Js.startOfDay d) h m)
    with (Js.startOfDay d + (h * Js.msPerHour + m * Js.msPerMinute))
    by (unfold at_; lia).
  apply setHours_time; [exact Hc | apply MakeTime_exact; assumption |].
  unfold Js.msPerHour, Js.msPerMinute, Js.msPerDay. lia.
Qed.

(** The instance of a template whose time of day gives a due time within
    the day is due on the day of the clock, and the database stores it. *)
Lemma due_today now tpl :
  clock now -> due_within_day tpl = true ->
  exists d,
    timestamp (Js.setHours (Js.startOfDay now) (fst (due_hm (timeOfDay tpl)))
                           (snd (due_hm (timeOfDay tpl)))) = Some d /\
    between (Some d) (Js.startOfDay now) (Js.endOfDay now) = true.
Proof.
  intros Hc Hdue. unfold due_within_day in Hdue.
  destruct (due_hm (timeOfDay tpl)) as [h m]. cbn [fst snd].
  destruct (Js.MakeTime h m (Fin 0) (Fin 0)) as [t| | |] eqn:Et; try discriminate.
  apply andb_true_iff in Hdue. destruct Hdue as [H1 H2].
  apply Z.leb_le in H1. apply Z.ltb_lt in H2.
  destruct (setHours_time now h m t Hc Et (conj H1 H2)) as (Eset & Ets & Hb).
  exists (Js.startOfDay now + t). rewrite setHours_startOfDay, Eset. auto.
Qed.

(** ** C1: materialization is idempotent *)

Section LoopBody.

Variables (u : nat) (now : Z) (tpl : Todo) (w : World).

Hypothesis answered : forall fs, faults w <> true :: fs.

(** The due date of the instance, when it is one the database stores. *)
Let due : option Z :=
  timestamp (Js.setHours (Js.startOfDay now) (fst (due_hm (timeOfDay tpl)))
                         (snd (due_hm (timeOfDay tpl)))).

Lemma ensure_found x :
  find (instance_today u (id tpl) now) (rows (db w)) = Some x ->
  ensure_instance u (Js.startOfDay now) (Js.endOfDay now) tpl w = (Ok tt, next w (db w)).
Proof.
  intros E. unfold ensure_instance, bind, findFirst.
  rewrite (call_answered _ w answered). cbn [fst snd].
  fold (instance_today u (id tpl) now). rewrite E. reflexivity.
Qed.


Lemma ensure_created d :
  find (instance_today u (id tpl) now) (rows (db w)) = None ->
  due = Some d ->
  (forall fs, tl (faults w) <> true :: fs) ->
  ensure_instance u (Js.startOfDay now) (Js.endOfDay now) tpl w
    = (Ok tt,
       next (next w (db w))
            {| rows := rows (db w) ++ [instance_for (nextId (db w)) u tpl d];
               nextId := S (nextId (db w)) |}).
Proof.
  intros E Ed Hans. unfold ensure_instance, bind, findFirst.
  rewrite (call_answered _ w answered). cbn [fst snd].
  fold (instance_today u (id tpl) now). rewrite E.
  unfold due, due_hm in Ed. destruct (Js.split_time _) as [hh mm]. cbn [fst snd] in Ed.
  unfold DateTime. rewrite Ed. cbn [ret]. unfold create.
  rewrite call_answered by exact Hans. reflexivity.
Qed.


End LoopBody.


Lemma get_after_materialize now req w u w1 :
  session req = Some u -> method req = "GET" ->
  materialize u now w = (Ok tt, w1) -> reliable w1 ->
  reliable (snd (handler now req w)) /\ db (snd (handler now req w)) = db w1.
Proof.
  intros Hs Hm E Hrel. unfold handler.
  rewrite (dispatch_method now req u "GET" Hs Hm). simpl.
  unfold handle_GET, bind. rewrite E.
  unfold findManyTake. rewrite (call_reliable _ w1 Hrel).
  destruct (Int64 _); simpl; split; auto using reliable_next.
Qed.


Lemma instance_today_same_day u t n now r :
  Js.startOfDay n = Js.startOfDay now ->
  instance_today u t n r = instance_today u t now r.
Proof. unfold instance_today, Js.endOfDay. intros ->. reflexivity. Qed.









(** The condition on the time of day is that of the code: a time of day
    that starts with a no-break space, or whose numbers are beyond 2^53, is
    read as the code reads it. *)
Example due_within_day_as_the_code_reads :
  due_within_day (Prisma.Build_Todo 1 1 "" None [] false None
                    (Some (String (ascii_of_nat 160) "24:00")) DAILY true None) = false /\
  due_within_day (Prisma.Build_Todo 1 1 "" None [] false None
                    (Some "9007199254740993:-540431955284459580") DAILY true None) = false /\
  due_within_day (Prisma.Build_Todo 1 1 "" None [] false None
                    (Some (String (ascii_of_nat 160) "23:59")) DAILY true None) = true.
Proof. vm_compute. repeat split; reflexivity. Qed.

(** ** Times of day *)

Lemma hhmm_check_all :
  forallb (fun h => forallb (hhmm_check h) (seq 0 60)) (seq 0 24) = true.
Proof. vm_compute. reflexivity. Qed.

Lemma hhmm_checked h m :
  0 <= h <= 23 -> 0 <= m <= 59 ->
  hhmm_check (Z.to_nat h) (Z.to_nat m) = true.
Proof.
  intros Hh Hm. pose proof hhmm_check_all as H.
  rewrite forallb_forall in H.
  specialize (H (Z.to_nat h) ltac:(apply in_seq; lia)).
  rewrite forallb_forall in H. apply H. apply in_seq. lia.
Qed.

Lemma split_time_hhmm h m :
  0 <= h <= 23 -> 0 <= m <= 59 -> Js.split_time (hhmm h m) = (Fin h, Fin m).
Proof.
  intros Hh Hm. pose proof (hhmm_checked h m Hh Hm) as H.
  unfold hhmm_check in H. rewrite !Z2Nat.id in H by lia.
  destruct (Js.split_time (hhmm h m)) as [[a| | |] [b| | |]]; try discriminate.
  destruct (due_hm _) as [[c| | |] [d| | |]]; try discriminate.
  repeat (apply andb_true_iff in H; destruct H as [H ?]).
  apply Z.eqb_eq in H. subst a.
  match goal with E : (b =? m) = true |- _ => apply Z.eqb_eq in E; subst b end.
  reflexivity.
Qed.

Lemma due_hm_hhmm h m :
  0 <= h <= 23 -> 0 <= m <= 59 ->
  due_hm (Some (hhmm h m)) = (Fin (if h =? 0 then 9 else h), Fin m).
Proof.
  intros Hh Hm. pose proof (hhmm_checked h m Hh Hm) as H.
  unfold hhmm_check in H. rewrite !Z2Nat.id in H by lia.
  destruct (Js.split_time (hhmm h m)) as [[a| | |] [b| | |]]; try discriminate.
  destruct (due_hm _) as [[c| | |] [d| | |]]; try discriminate.
  repeat (apply andb_true_iff in H; destruct H as [H ?]).
  repeat match goal with E : (_ =? _) = true |- _ => apply Z.eqb_eq in E end.
  congruence.
Qed.

Lemma text_hhmm h m : 0 <= h <= 23 -> 0 <= m <= 59 -> text (hhmm h m) = true.
Proof.
  intros Hh Hm. pose proof (hhmm_checked h m Hh Hm) as H.
  unfold hhmm_check in H. rewrite !Z2Nat.id in H by lia.
  destruct (Js.split_time (hhmm h m)) as [[a| | |] [b| | |]]; try discriminate.
  destruct (due_hm _) as [[c| | |] [d| | |]]; try discriminate.
  apply andb_true_iff in H. apply H.
Qed.

Lemma Text_texts l w : forallb text l = true -> Text l w = (Ok tt, w).
Proof. intros H. unfold Text. rewrite H. reflexivity. Qed.

(** An absent time of day and every well-formed HH:MM give a due time
    within the day. *)
Lemma wellformed_due_within_day tpl :
  timeOfDay tpl = None \/
  (exists h m, 0 <= h <= 23 /\ 0 <= m <= 59 /\ timeOfDay tpl = Some (hhmm h m)) ->
  due_within_day tpl = true.
Proof.
  unfold due_within_day. intros [E | (h & m & Hh & Hm & E)]; rewrite E.
  - reflexivity.
  - rewrite (due_hm_hhmm h m Hh Hm).
    rewrite MakeTime_exact by (destruct (Z.eqb_spec h 0); lia).
    unfold Js.msPerHour, Js.msPerMinute, Js.msPerDay.
    apply andb_true_iff. split; [apply Z.leb_le | apply Z.ltb_lt];
      destruct (Z.eqb_spec h 0); lia.
Qed.

Lemma at_startOfDay d h m :
  0 <= h <= 23 -> 0 <= m <= 59 ->
  Js.startOfDay (at_ (Js.startOfDay d) h m) = Js.startOfDay d /\
  Js.getHours (at_ (Js.startOfDay d) h m) = h /\
  Js.getMinutes (at_ (Js.startOfDay d) h m) = m.
Proof.
  intros Hh Hm. unfold at_. repeat split.
  - rewrite <- Z.add_assoc. apply startOfDay_plus.
    unfold Js.msPerDay, Js.msPerHour, Js.msPerMinute. lia.
  - unfold Js.getHours, Js.startOfDay, Js.msPerDay, Js.msPerHour, Js.msPerMinute.
    set (q := d / 86400000).
    replace ((86400000 * q + h * 3600000 + m * 60000) mod 86400000)
      with (h * 3600000 + m * 60000).
    + symmetry. apply (Z.div_unique _ _ h (m * 60000)); lia.
    + apply (Z.mod_unique _ _ q); lia.
  - unfold Js.getMinutes, Js.startOfDay, Js.msPerDay, Js.msPerHour, Js.msPerMinute.
    set (q := d / 86400000).
    replace ((86400000 * q + h * 3600000 + m * 60000) mod 3600000)
      with (m * 60000).
    + symmetry. apply (Z.div_unique _ _ m 0); lia.
    + apply (Z.mod_unique _ _ (24 * q + h)); lia.
Qed.

(** ** C2: the instance generated from a template *)

Lemma timestamp_Some d t : timestamp d = Some t -> d = Some t.
Proof.
  unfold timestamp. destruct d as [x|]; [|discriminate].
  destruct (min_timestamp <=? x); [tauto | discriminate].
Qed.

Lemma due_rule_set now tod :
  clock now ->
  due_rule now tod
    (Js.setHours (Js.startOfDay now) (fst (due_hm tod)) (snd (due_hm tod))).
Proof.
  intros Hc. split; [reflexivity|]. split.
  - assert (E9 : due_hm None = (Fin 9, Fin 0)) by reflexivity.
    assert (E9' : due_hm (Some "") = (Fin 9, Fin 0)) by reflexivity.
    intros [E | E]; rewrite E, ?E9, ?E9'; cbn [fst snd];
      rewrite setHours_startOfDay;
      destruct (setHours_within now 9 0 Hc) as (-> & _); try lia;
      exists (at_ (Js.startOfDay now) 9 0); (split; [reflexivity|]);
      apply at_startOfDay; lia.
  - intros h m Hh Hm E. rewrite E. rewrite due_hm_hhmm by lia. cbn [fst snd].
    rewrite setHours_startOfDay.
    assert (Hh' : 1 <= (if h =? 0 then 9 else h) <= 23)
      by (destruct (Z.eqb_spec h 0); lia).
    destruct (setHours_within now (if h =? 0 then 9 else h) m Hc) as (-> & _); try lia.
    exists (at_ (Js.startOfDay now) (if h =? 0 then 9 else h) m). split; [reflexivity|].
    apply at_startOfDay; lia.
Qed.

Section Generated.

Variables (u : nat) (now : Z) (rows0 : list Todo).

Hypothesis clock_now : clock now.

(** A row generated at [now] from one of the daily templates of [u]. *)
Let generated (r : Todo) : Prop :=
  exists tpl, In tpl rows0 /\ daily_template u tpl = true /\
              copies tpl r /\ due_rule now (timeOfDay tpl) (dueAt r).

(** The table is the initial one followed by generated rows. *)
Let extended (t : Table) : Prop :=
  exists news, rows t = (rows0 ++ news)%list /\ Forall generated news.

Lemma extended_ensure tpl w r w' :
  In tpl rows0 -> daily_template u tpl = true ->
  ensure_instance u (Js.startOfDay now) (Js.endOfDay now) tpl w = (r, w') ->
  extended (db w) -> extended (db w').
Proof.
  intros Hin Hd E HP. unfold ensure_instance, bind, findFirst in E.
  match type of E with context [call ?op w] =>
    destruct (call_cases op w) as [(fs & _ & E1) | E1]; rewrite E1 in E; clear E1 end.
  { inversion E; subst. exact HP. }
  cbn [fst snd] in E.
  destruct (find _ (rows (db w))) as [x|].
  { unfold ret in E. inversion E; subst. exact HP. }
  destruct (Js.split_time (Js.or_str (timeOfDay tpl) "09:00")) as [hh mm] eqn:Esplit.
  unfold DateTime in E.
  destruct (timestamp (Js.setHours (Js.startOfDay now) (Js.or_num hh 9) (Js.or_num mm 0)))
    as [d|] eqn:Ed.
  2:{ unfold throw in E. inversion E; subst. exact HP. }
  cbn [ret] in E. unfold create in E.
  match type of E with context [call ?op ?w1] =>
    destruct (call_cases op w1) as [(fs & _ & E1) | E1]; rewrite E1 in E; clear E1 end.
  { inversion E; subst. exact HP. }
  cbn [fst snd] in E. unfold ret in E. inversion E; subst. cbn [db next rows].
  destruct HP as (news & Hrows & Hnews).
  exists (news ++ [instance_for (nextId (db w)) u tpl d])%list. split.
  - rewrite Hrows, <- app_assoc. reflexivity.
  - apply Forall_app. split; [assumption|]. constructor; [|constructor].
    exists tpl. split; [assumption|]. split; [assumption|]. split.
    + unfold copies. cbn [instance_for userId title notes tags recurrence isTemplate templateId].
      unfold daily_template in Hd. apply andb_true_iff in Hd. destruct Hd as [Hd _].
      apply andb_true_iff in Hd. destruct Hd as [Hd _]. apply Nat.eqb_eq in Hd.
      repeat split; auto.
    + cbn [instance_for dueAt]. apply timestamp_Some in Ed. rewrite <- Ed.
      replace (Js.or_num hh 9) with (fst (due_hm (timeOfDay tpl)))
        by (unfold due_hm; rewrite Esplit; reflexivity).
      replace (Js.or_num mm 0) with (snd (due_hm (timeOfDay tpl)))
        by (unfold due_hm; rewrite Esplit; reflexivity).
      apply due_rule_set. exact clock_now.
Qed.

Lemma extended_forEach l w r w' :
  Forall (fun tpl => In tpl rows0 /\ daily_template u tpl = true) l ->
  forEach l (ensure_instance u (Js.startOfDay now) (Js.endOfDay now)) w = (r, w') ->
  extended (db w) -> extended (db w').
Proof.
  revert w r w'. induction l as [|tpl l IH]; simpl; intros w r w' Hl E HP.
  - unfold ret in E. inversion E; subst. exact HP.
  - inversion Hl as [|? ? [Hin Hd] Hl']; subst. unfold bind in E.
    destruct (ensure_instance _ _ _ tpl w) as [[[]|e] w1] eqn:E1.
    + eapply IH; eauto. eapply extended_ensure; eauto.
    + inversion E; subst. eapply extended_ensure; eauto.
Qed.

Lemma extended_materialize w r w' :
  rows (db w) = rows0 ->
  materialize u now w = (r, w') -> extended (db w').
Proof.
  intros H0 E. unfold materialize, bind, findMany in E.
  assert (HP : extended (db w)).
  { exists []. rewrite app_nil_r. split; [assumption | constructor]. }
  match type of E with context [call ?op w] =>
    destruct (call_cases op w) as [(fs & _ & E1) | E1]; rewrite E1 in E; clear E1 end.
  { inversion E; subst. exact HP. }
  cbn [fst snd] in E. eapply extended_forEach; [|exact E|exact HP].
  rewrite Forall_forall. intros tpl Htpl. apply filter_In in Htpl.
  rewrite <- H0. exact Htpl.
Qed.

End Generated.

(** Whatever a listing adds to the table is appended to it, and every row
    it appends is generated from a daily template of the caller, whatever
    the database does. *)
Lemma generated_rows now req w u :
  session req = Some u ->
  method req = "GET" ->
  clock now ->
  exists news,
    rows (db (snd (handler now req w))) = (rows (db w) ++ news)%list /\
    Forall (fun r => exists tpl,
              In tpl (rows (db w)) /\ daily_template u tpl = true /\
              copies tpl r /\ due_rule now (timeOfDay tpl) (dueAt r)) news.
Proof.
  intros Hs Hm Hc.
  destruct (materialize u now w) as [[[]|e] w1] eqn:E.
  - pose proof (extended_materialize u now (rows (db w)) Hc w _ _ eq_refl E) as HP.
    unfold handler. rewrite (dispatch_method now req u "GET" Hs Hm).
    change (String.eqb "GET" "GET") with true. cbv iota.
    unfold handle_GET, bind. rewrite E. unfold findManyTake.
    match goal with |- context [call ?op w1] =>
      destruct (call_cases op w1) as [(fs & _ & E1) | E1]; rewrite E1; clear E1 end.
    + exact HP.
    + destruct (Int64 _); exact HP.
  - rewrite (listing_aborts now req w u e w1 Hs Hm E).
    exact (extended_materialize u now (rows (db w)) Hc w _ _ eq_refl E).
Qed.

(** The listing of the scenario does generate the instance, due today at
    the time of day of the template. *)
Example generated_stretch :
  rows (db (snd (handler (at_ day0 15 0) (request 1 "GET" no_body) template_world)))
  = [stretch_template; stretch_instance].
Proof. vm_compute. reflexivity. Qed.

(** C2. User 1 creates a daily task half an hour after midnight: the
    template has the time of day 00:30. The instance the next listing
    generates from it copies the template and is due on that day, but at
    09:30: the materializer reads the hour 00 as no hour and puts 9. *)
Theorem C2_hour_zero_is_read_as_nine :
  map timeOfDay (rows (db night_template_world)) = [Some "00:30"] /\
  match rows (db (snd (handler (at_ day0 0 31) (request 1 "GET" no_body)
                         night_template_world))) with
  | [tpl; r] =>
      daily_template 1 tpl = true /\ timeOfDay tpl = Some "00:30" /\
      copies tpl r /\
      dueAt r = Some (at_ day0 9 30) /\ minute_of_day r = Some (9 * 60 + 30)
  | _ => False
  end.
Proof. vm_compute. repeat split; reflexivity. Qed.

(** Further departures from the same claim: from a template with time of
    day 24:00 the materializer generates an instance due at midnight of the
    next day, not on today's date; from one with the malformed 07:xx it
    generates an instance due today at 07:00, not at 09:00. *)
Example generated_out_of_range :
  option_map timeOfDay (lookup 1 1 (db late_template_world)) = Some (Some "24:00") /\
  option_map dueAt
    (lookup 1 2 (db (snd (handler (at_ day0 15 0) (request 1 "GET" no_body) late_template_world))))
    = Some (Some (day0 + Js.msPerDay)) /\
  Js.startOfDay (day0 + Js.msPerDay) <> Js.startOfDay (at_ day0 15 0) /\
  option_map timeOfDay (lookup 1 1 (db odd_time_world)) = Some (Some "07:xx") /\
  option_map templateId (lookup 1 3 (db odd_time_world)) = Some (Some 1%nat) /\
  option_map dueAt (lookup 1 3 (db odd_time_world)) = Some (Some (at_ day0 7 0)).
Proof. vm_compute. repeat split; try reflexivity. discriminate. Qed.

(** ** C7: a failed creation *)




(** ** C8: what create stores *)

Lemma hhmm_not_empty h m : 0 <= h <= 23 -> 0 <= m <= 59 -> hhmm h m <> "".
Proof.
  intros Hh Hm E. pose proof (split_time_hhmm h m Hh Hm) as H.
  rewrite E in H. discriminate.
Qed.

Lemma or_str_hhmm h m d :
  0 <= h <= 23 -> 0 <= m <= 59 -> Js.or_str (Some (hhmm h m)) d = hhmm h m.
Proof.
  intros Hh Hm. pose proof (hhmm_not_empty h m Hh Hm) as H.
  unfold Js.or_str. destruct (hhmm h m); [contradiction | reflexivity].
Qed.

(** What the schema makes of a body with a title, a recurrence and a time
    of day. *)
Lemma safeParse_new_todo t rc tod :
  t <> "" ->
  todoSchema_safeParse (new_todo t rc tod) =
    match rc with
    | Some s =>
        option_map (fun r =>
          {| i_title := t; i_notes := None; i_dueDate := None; i_recurrence := Some r;
             i_timeOfDay := tod; i_tags := None; i_completed := None |})
          (as_Recurrence s)
    | None =>
        Some {| i_title := t; i_notes := None; i_dueDate := None; i_recurrence := None;
                i_timeOfDay := tod; i_tags := None; i_completed := None |}
    end.
Proof.
  intros Ht. destruct t as [|c t]; [contradiction|].
  unfold todoSchema_safeParse, new_todo.
  cbn [b_title b_notes b_dueDate b_recurrence b_isTemplate b_timeOfDay b_tags
       b_completed b_position optional optional_notes optional_tags field].
  change (1 <=? String.length (String c t))%nat with true. cbv iota.
  destruct rc as [s|], tod as [x|]; cbn [field optional optional_recurrence option_map];
    try reflexivity; destruct (as_Recurrence s); reflexivity.
Qed.

(** A one-off record with a time of day HH:MM whose hour and minute are
    both non-zero is due today at that time. *)
Lemma post_oneoff_due now w u t h m :
  reliable w -> clock now -> t <> "" -> text t = true ->
  1 <= h <= 23 -> 1 <= m <= 59 ->
  exists r,
    fst (handler now (request u "POST" (new_todo t None (Some (hhmm h m)))) w)
      = respond 201 (JTodo r) /\
    recurrence r = NONE /\ isTemplate r = false /\ templateId r = None /\
    timeOfDay r = Some (hhmm h m) /\
    dueAt r = Some (at_ (Js.startOfDay now) h m).
Proof.
  intros Hrel Hclock Ht Htext Hh Hm.
  unfold handler, dispatch, request. cbn [session method body].
  change (String.eqb "POST" "GET") with false.
  change (String.eqb "POST" "POST") with true. cbv iota.
  unfold handle_POST. rewrite (safeParse_new_todo t None _ Ht).
  cbn [i_recurrence i_timeOfDay i_title i_notes i_tags i_completed new_todo b_isTemplate orb].
  rewrite or_str_hhmm by lia. rewrite split_time_hhmm by lia.
  unfold Js.or_num.
  destruct (Z.eqb_spec h 0); [lia|]. destruct (Z.eqb_spec m 0); [lia|].
  destruct (setHours_within now h m Hclock) as (Eset & Ets & _); try lia.
  unfold bind, DateTime. rewrite Eset, Ets. cbn [ret nullable app].
  rewrite Text_texts by (cbn [forallb]; rewrite text_hhmm, Htext by lia; reflexivity).
  unfold create. rewrite (call_reliable _ w Hrel). cbn [fst snd].
  eexists. split; [reflexivity|]. repeat split.
Qed.

(** A create request with recurrence DAILY stores a template: isTemplate
    true, recurrence DAILY, no dueAt, no templateId, and the time of day of
    the clock when no due date is supplied. *)
Lemma post_template now w u t tod :
  reliable w -> t <> "" -> text t = true ->
  exists r,
    fst (handler now (request u "POST" (new_todo t (Some "DAILY") tod)) w)
      = respond 201 (JTodo r) /\
    recurrence r = DAILY /\ isTemplate r = true /\ templateId r = None /\
    dueAt r = None /\
    timeOfDay r = Some (hhmm (Js.getHours now) (Js.getMinutes now)).
Proof.
  intros Hrel Ht Htext.
  unfold handler, dispatch, request. cbn [session method body].
  change (String.eqb "POST" "GET") with false.
  change (String.eqb "POST" "POST") with true. cbv iota.
  unfold handle_POST. rewrite (safeParse_new_todo t (Some "DAILY") _ Ht).
  change (as_Recurrence "DAILY") with (Some DAILY).
  cbn [option_map i_recurrence i_timeOfDay i_title i_notes i_tags i_completed i_dueDate orb
       nullable app].
  unfold bind. rewrite Text_texts by (cbn [forallb]; rewrite Htext; reflexivity).
  unfold create. rewrite (call_reliable _ w Hrel). cbn [fst snd].
  eexists. split; [reflexivity|]. repeat split.
Qed.

(** * Further properties of the handler *)

(** ** Requests the handler turns down *)

Lemma read_keeps_table {A} (c : M A) w r w' :
  preserves (fun t => t = db w) c -> c w = (r, w') -> db w' = db w.
Proof. intros H E. exact (H w r w' E eq_refl). Qed.

(** A response that is not a 200 or a 201 comes with the table as it was,
    unless something was thrown. *)
Lemma dispatch_outcome now req w res w' :
  dispatch now req w = (Ok res, w') ->
  status res = 200 \/ status res = 201 \/ db w' = db w.
Proof.
  intros E. unfold dispatch in E.
  destruct (session req) as [u|].
  2:{ unfold ret in E. inversion E; subst. auto. }
  destruct (String.eqb (method req) "GET").
  { unfold handle_GET in E. apply bind_Ok in E. destruct E as (_ & w1 & _ & E).
    apply bind_Ok in E. destruct E as (todos & w2 & _ & E2).
    unfold ret in E2. inversion E2; subst. auto. }
  destruct (String.eqb (method req) "POST").
  { unfold handle_POST in E.
    destruct (todoSchema_safeParse (body req)) as [data|].
    2:{ unfold ret in E. inversion E; subst. auto. }
    destruct (_ || _).
    - apply bind_Ok in E. destruct E as (ut & wt & Et & E).
      apply bind_Ok in E. destruct E as (todo & w1 & _ & E2).
      unfold ret in E2. inversion E2; subst. auto.
    - destruct (Js.split_time _) as [hh mm].
      apply bind_Ok in E. destruct E as (d & w0 & _ & E).
      apply bind_Ok in E. destruct E as (ut & wt & Et & E).
      apply bind_Ok in E. destruct E as (todo & w1 & _ & E2).
      unfold ret in E2. inversion E2; subst. auto. }
  destruct (String.eqb (method req) "PUT").
  { unfold handle_PUT in E.
    destruct (b_id (body req)) as [| |i];
      [unfold ret in E; inversion E; subst; auto | unfold throw in E; discriminate |].
    destruct (apply_updates _) as [f|]; [|discriminate].
    apply bind_Ok in E. destruct E as (todo & w1 & _ & E2).
    unfold ret in E2. inversion E2; subst. auto. }
  destruct (String.eqb (method req) "DELETE").
  { unfold handle_DELETE in E.
    destruct (b_id (body req)) as [| |i];
      [unfold ret in E; inversion E; subst; auto | unfold throw in E; discriminate |].
    apply bind_Ok in E. destruct E as ([todo|] & w1 & E1 & E).
    2:{ unfold ret in E. inversion E; subst. right. right.
        eapply read_keeps_table; [apply preserves_findUnique | exact E1]. }
    destruct (templateId todo); [|destruct (isTemplate todo)].
    - apply bind_Ok in E. destruct E as (_ & w2 & _ & E).
      apply bind_Ok in E. destruct E as (_ & w3 & _ & E).
      unfold ret in E. inversion E; subst. auto.
    - apply bind_Ok in E. destruct E as (_ & w2 & _ & E).
      unfold ret in E. inversion E; subst. auto.
    - apply bind_Ok in E. destruct E as (_ & w2 & _ & E).
      unfold ret in E. inversion E; subst. auto. }
  unfold ret in E. inversion E; subst. auto.
Qed.

(** X1. A request answered 400, 401, 404 or 405 has written nothing: the
    table is the one before the request, whatever the method, the body and
    the script of outages. *)
Theorem X1_refused_request_writes_nothing now req w :
  In (status (fst (handler now req w))) [400; 401; 404; 405] ->
  db (snd (handler now req w)) = db w.
Proof.
  unfold handler.
  destruct (dispatch now req w) as [[res|e] w'] eqn:E; simpl.
  - intros H. destruct (dispatch_outcome now req w res w' E) as [H2 | [H2 | H2]];
      [rewrite H2 in H | rewrite H2 in H | exact H2];
      repeat (destruct H as [H|H]; [discriminate|]); contradiction.
  - intros H. repeat (destruct H as [H|H]; [discriminate|]). contradiction.
Qed.

Lemma X1_refused_request_writes_nothing_witness :
  db (snd (handler (at_ day0 15 0) (request 1 "PUT" no_body) series_world)) = db series_world.
Proof.
  apply (X1_refused_request_writes_nothing (at_ day0 15 0) (request 1 "PUT" no_body) series_world).
  vm_compute. auto.
Defined.

(** ** What a listing returns *)

Lemma sort_length cmp l : List.length (sort cmp l) = List.length l.
Proof.
  induction l as [|z l IH]; simpl; [reflexivity|].
  assert (H : forall x m, List.length (insert cmp x m) = S (List.length m)).
  { intros x m. induction m as [|y m IHm]; simpl; [reflexivity|].
    destruct (positive (cmp x y)); simpl; rewrite ?IHm; reflexivity. }
  rewrite H, IH. reflexivity.
Qed.

Lemma take_rows_length n l : (List.length (take_rows n l) <= Z.abs_nat n)%nat.
Proof.
  unfold take_rows. destruct (Z.leb_spec 0 n).
  - rewrite length_firstn. rewrite Zabs2Nat.abs_nat_nonneg by lia. lia.
  - rewrite length_skipn.
    replace (Z.abs_nat n) with (Z.to_nat (- n)) by lia. lia.
Qed.

(** The listing of a successful GET, traced back to the table. *)
Lemma listing_origin now req w u l :
  session req = Some u -> method req = "GET" ->
  json (fst (handler now req w)) = JTodos l ->
  exists n,
    Int64 (Js.parseInt (match q_limit (query req) with Some s => s | None => "200" end))
      = Some n /\
    l = sort comparator
          (take_rows n
             (filter (fun r =>
                Nat.eqb (userId r) u && negb (isTemplate r) &&
                match q_completed (query req) with
                | Some c => Bool.eqb (completed r) (String.eqb c "true")
                | None => true
                end)
                (rows (db (snd (handler now req w)))))).
Proof.
  intros Hs Hm. unfold handler.
  rewrite (dispatch_method now req u "GET" Hs Hm).
  change (String.eqb "GET" "GET") with true. cbv iota.
  destruct (handle_GET u now (query req) w) as [[res|e] w'] eqn:E; simpl; [|discriminate].
  intros Hj. unfold handle_GET in E.
  apply bind_Ok in E. destruct E as (_ & w1 & _ & E).
  apply bind_Ok in E. destruct E as (todos & w2 & E1 & E2).
  unfold ret in E2. inversion E2; subst. simpl in Hj. inversion Hj; subst. clear Hj E2.
  unfold findManyTake in E1.
  match type of E1 with call ?op w1 = _ =>
    destruct (call_cases op w1) as [(fs & _ & E3) | E3]; rewrite E3 in E1; clear E3 end;
    [discriminate|].
  destruct (Int64 _) as [n|]; simpl in E1; [|discriminate].
  inversion E1; subst. exists n. split; reflexivity.
Qed.

(** X2. A listing contains only records that are stored when the request
    ends, belong to the caller and are no templates; with a [completed]
    query parameter it contains only completed records when the parameter
    is the text true, and only uncompleted ones for any other text. *)
Theorem X2_listing_content now req w u l :
  session req = Some u -> method req = "GET" ->
  json (fst (handler now req w)) = JTodos l ->
  Forall (fun r =>
    In r (rows (db (snd (handler now req w)))) /\
    userId r = u /\ isTemplate r = false /\
    match q_completed (query req) with
    | Some c => completed r = String.eqb c "true"
    | None => True
    end) l.
Proof.
  intros Hs Hm Hj.
  destruct (listing_origin now req w u l Hs Hm Hj) as (n & _ & ->).
  rewrite Forall_forall. intros r Hr.
  apply sort_In, take_rows_incl, filter_In in Hr. destruct Hr as [Hin Hp].
  apply andb_true_iff in Hp. destruct Hp as [Hp Hc].
  apply andb_true_iff in Hp. destruct Hp as [Hu Ht].
  apply Nat.eqb_eq in Hu. apply negb_true_iff in Ht.
  repeat split; auto.
  destruct (q_completed (query req)); [|exact I].
  apply Bool.eqb_prop in Hc. exact Hc.
Qed.

Lemma X2_listing_content_witness :
  Forall (fun r =>
    In r (rows (db (snd (handler (at_ day0 15 0)
            {| session := Some 1%nat; method := "GET";
               query := {| q_completed := Some "false"; q_limit := None |};
               body := no_body |} series_world)))) /\
    userId r = 1%nat /\ isTemplate r = false /\ completed r = String.eqb "false" "true")
    [stretch_instance].
Proof.
  apply (X2_listing_content (at_ day0 15 0)
           {| session := Some 1%nat; method := "GET";
              query := {| q_completed := Some "false"; q_limit := None |};
              body := no_body |} series_world 1%nat [stretch_instance]);
    reflexivity.
Defined.

(** X3. A listing has at most as many records as the [limit] parameter
    says (its absolute value, the parameter being read as [parseInt] reads
    it), 200 when the parameter is absent; a limit that reads as no number,
    or as one that does not fit in 64 bits, yields no listing. *)
Theorem X3_listing_length now req w u l :
  session req = Some u -> method req = "GET" ->
  json (fst (handler now req w)) = JTodos l ->
  match Js.parseInt (match q_limit (query req) with Some s => s | None => "200" end) with
  | Fin n => (List.length l <= Z.abs_nat n)%nat /\ Z.abs n < 2 ^ 63
  | _ => False
  end.
Proof.
  intros Hs Hm Hj.
  destruct (listing_origin now req w u l Hs Hm Hj) as (n & En & ->).
  destruct (Js.parseInt _) as [z| | |]; try discriminate.
  unfold Int64 in En.
  destruct (Z.ltb_spec (- 2 ^ 63) z), (Z.ltb_spec z (2 ^ 63)); try discriminate.
  inversion En; subst. split; [rewrite sort_length; apply take_rows_length | lia].
Qed.

Lemma X3_listing_length_witness :
  (List.length [stretch_instance] <= Z.abs_nat 5)%nat /\ Z.abs 5 < 2 ^ 63.
Proof.
  apply (X3_listing_length (at_ day0 15 0)
           {| session := Some 1%nat; method := "GET";
              query := {| q_completed := None;
                          q_limit := Some (String (ascii_of_nat 160) "5") |};
              body := no_body |}
           series_world 1%nat [stretch_instance]); reflexivity.
Defined.

(** X4. A listing is in ascending order of the full due timestamp, and
    every record without a due date comes after every record with one. *)
Theorem X4_listing_sorted now req w l :
  json (fst (handler now req w)) = JTodos l ->
  StronglySorted due_le l.
Proof. apply listing_sorted. Qed.

Lemma X4_listing_sorted_witness :
  StronglySorted due_le
    (sort comparator (filter (fun r => negb (isTemplate r)) (rows (db two_days_world)))).
Proof.
  apply (X4_listing_sorted (at_ day0 8 6) (request 1 "GET" no_body) two_days_world).
  vm_compute. reflexivity.
Defined.

(** ** Other users *)

(** X5. Whatever a user requests, with whatever record id and whatever the
    database does, the rows of every other user are after the request what
    they were before it. *)
Theorem X5_other_users_rows_untouched now req w a b :
  session req = Some a -> a <> b ->
  owned b (rows (db (snd (handler now req w)))) = owned b (rows (db w)).
Proof. intros Hs Hab. apply (isolation_store a b Hab now req w Hs). Qed.

Lemma X5_other_users_rows_untouched_witness :
  owned 2 (rows (db (snd (handler (at_ day0 15 0) (request 1 "DELETE" (with_id 1)) neighbour_world))))
  = owned 2 (rows (db neighbour_world)).
Proof.
  apply (X5_other_users_rows_untouched (at_ day0 15 0) (request 1 "DELETE" (with_id 1))
           neighbour_world 1%nat 2%nat).
  - reflexivity.
  - discriminate.
Defined.

(** X6. Every record a response carries (the listing of GET, the record of
    POST and of PUT) belongs to the caller. *)
Theorem X6_responses_carry_own_records now req w a :
  session req = Some a -> only_of a (fst (handler now req w)).
Proof. apply isolation_results. Qed.

Lemma X6_responses_carry_own_records_witness :
  only_of 1 (fst (handler (at_ day0 15 0) (request 1 "GET" no_body) series_world)).
Proof.
  apply (X6_responses_carry_own_records (at_ day0 15 0) (request 1 "GET" no_body)
           series_world 1%nat).
  reflexivity.
Defined.

(** ** More on DELETE *)

(** X7. Cascade symmetry: with every call answered, deleting a template
    and deleting any one of its generated instances leave the same table. *)
Theorem X7_delete_template_or_instance now1 now2 reqT reqI w u T I :
  session reqT = Some u -> method reqT = "DELETE" -> b_id (body reqT) = Given (id T) ->
  session reqI = Some u -> method reqI = "DELETE" -> b_id (body reqI) = Given (id I) ->
  reliable w -> wf (db w) ->
  lookup u (id T) (db w) = Some T -> templateId T = None -> isTemplate T = true ->
  lookup u (id I) (db w) = Some I -> templateId I = Some (id T) ->
  db (snd (handler now1 reqT w)) = db (snd (handler now2 reqI w)).
Proof. apply delete_cascade_symmetry. Qed.

Lemma X7_delete_template_or_instance_witness :
  db (snd (handler (at_ day0 15 0) (request 1 "DELETE" (with_id 1)) series_world))
  = db (snd (handler (at_ day0 16 0) (request 1 "DELETE" (with_id 2)) series_world)).
Proof.
  apply (X7_delete_template_or_instance (at_ day0 15 0) (at_ day0 16 0)
           (request 1 "DELETE" (with_id 1)) (request 1 "DELETE" (with_id 2))
           series_world 1%nat stretch_template stretch_instance);
    try reflexivity.
  split.
  - vm_compute. repeat constructor; simpl; intuition discriminate.
  - vm_compute. repeat constructor.
Defined.

(** X8. A delete request that names an id under which the caller has no
    record is answered 404 Todo not found as soon as the lookup is
    answered, and removes nothing. *)
Theorem X8_delete_unknown_id now req w a i :
  session req = Some a -> method req = "DELETE" -> b_id (body req) = Given i ->
  (forall fs, faults w <> true :: fs) ->
  lookup a i (db w) = None ->
  fst (handler now req w) = respond 404 (JError "Todo not found") /\
  db (snd (handler now req w)) = db w.
Proof.
  intros Hs Hm Hid Hans Hnone. unfold handler.
  rewrite (dispatch_method now req a "DELETE" Hs Hm). simpl.
  unfold handle_DELETE. rewrite Hid. unfold bind, findUnique.
  rewrite (call_answered _ w Hans). simpl.
  fold (lookup a i (db w)). rewrite Hnone. simpl. auto.
Qed.

Lemma X8_delete_unknown_id_witness :
  fst (handler (at_ day0 15 0) (request 1 "DELETE" (with_id 1)) neighbour_world)
    = respond 404 (JError "Todo not found") /\
  db (snd (handler (at_ day0 15 0) (request 1 "DELETE" (with_id 1)) neighbour_world))
    = db neighbour_world.
Proof.
  apply (X8_delete_unknown_id (at_ day0 15 0) (request 1 "DELETE" (with_id 1))
           neighbour_world 1%nat 1%nat); try reflexivity.
  intros fs. discriminate.
Defined.

(** ** The reconciliation pass over any number of templates *)

Lemma forEach_reconciled u now l w r w' :
  Forall (fun tpl => find (instance_today u (id tpl) now) (rows (db w)) <> None) l ->
  forEach l (ensure_instance u (Js.startOfDay now) (Js.endOfDay now)) w = (r, w') ->
  db w' = db w.
Proof.
  revert w r w'. induction l as [|tpl l IH]; simpl; intros w r w' Hl E.
  - unfold ret in E. inversion E; subst. reflexivity.
  - inversion Hl as [|? ? Htpl Hl']; subst. unfold bind in E.
    destruct (find (instance_today u (id tpl) now) (rows (db w))) as [x|] eqn:Ex;
      [|contradiction].
    destruct (faults w) as [|[] fs] eqn:Ef.
    + rewrite (ensure_found u now tpl w) with (x := x) in E;
        [|intros fs; rewrite Ef; discriminate | exact Ex].
      apply IH in E; [exact E | exact Hl'].
    + unfold ensure_instance, bind, findFirst in E.
      rewrite (call_fault _ w fs Ef) in E. inversion E; subst. reflexivity.
    + rewrite (ensure_found u now tpl w) with (x := x) in E;
        [|intros fs0; rewrite Ef; discriminate | exact Ex].
      apply IH in E; [exact E | exact Hl'].
Qed.

Lemma materialize_reconciled u now w r w' :
  Forall (fun tpl => daily_template u tpl = true ->
                     covered u now (rows (db w)) tpl = true) (rows (db w)) ->
  materialize u now w = (r, w') -> db w' = db w.
Proof.
  intros Hcov E. unfold materialize, bind, findMany in E.
  match type of E with context [call ?op w] =>
    destruct (call_cases op w) as [(fs & _ & E1) | E1]; rewrite E1 in E; clear E1 end.
  { inversion E; subst. reflexivity. }
  cbn [fst snd] in E. apply forEach_reconciled in E; [exact E|].
  rewrite Forall_forall in *. intros tpl Htpl. apply filter_In in Htpl.
  destruct Htpl as [Hin Hd]. specialize (Hcov tpl Hin Hd).
  unfold covered in Hcov. apply existsb_exists in Hcov. destruct Hcov as (x & Hx & Hpx).
  simpl. intros Hnone. rewrite (find_none _ _ Hnone x Hx) in Hpx. discriminate.
Qed.

Lemma get_keeps_db_of_materialize now req w u :
  session req = Some u -> method req = "GET" ->
  db (snd (handler now req w)) = db (snd (materialize u now w)).
Proof.
  intros Hs Hm.
  destruct (materialize u now w) as [[[]|e] w1] eqn:E.
  - unfold handler. rewrite (dispatch_method now req u "GET" Hs Hm).
    change (String.eqb "GET" "GET") with true. cbv iota.
    unfold handle_GET, bind. rewrite E. unfold findManyTake.
    match goal with |- context [call ?op w1] =>
      destruct (call_cases op w1) as [(fs & _ & E1) | E1]; rewrite E1; clear E1 end.
    + reflexivity.
    + destruct (Int64 _); reflexivity.
  - rewrite (listing_aborts now req w u e w1 Hs Hm E). reflexivity.
Qed.

(** X9. When every daily template of the caller already has an instance
    due today, a listing writes nothing: the table is unchanged, whatever
    the query parameters and the script of outages. *)
Theorem X9_listing_of_reconciled_table_is_read_only now req w u :
  session req = Some u -> method req = "GET" ->
  Forall (fun tpl => daily_template u tpl = true ->
                     covered u now (rows (db w)) tpl = true) (rows (db w)) ->
  db (snd (handler now req w)) = db w.
Proof.
  intros Hs Hm Hcov. rewrite (get_keeps_db_of_materialize now req w u Hs Hm).
  destruct (materialize u now w) as [r w1] eqn:E. simpl.
  eapply materialize_reconciled; eauto.
Qed.

Lemma X9_listing_of_reconciled_table_is_read_only_witness :
  db (snd (handler (at_ day0 15 0) (request 1 "GET" no_body) series_world_failing))
  = db series_world_failing.
Proof.
  apply (X9_listing_of_reconciled_table_is_read_only (at_ day0 15 0)
           (request 1 "GET" no_body) series_world_failing 1%nat).
  - reflexivity.
  - reflexivity.
  - change (rows (db series_world_failing)) with [stretch_template; stretch_instance].
    constructor; [intros _; reflexivity|].
    constructor; [intros H; vm_compute in H; discriminate H | constructor].
Defined.

Lemma covered_app u now l news tpl :
  covered u now l tpl = true -> covered u now (l ++ news) tpl = true.
Proof. unfold covered. rewrite existsb_app. intros ->. reflexivity. Qed.

Lemma covered_same_day u n now l tpl :
  Js.startOfDay n = Js.startOfDay now -> covered u n l tpl = covered u now l tpl.
Proof.
  intros H. unfold covered. induction l as [|x l IH]; simpl; [reflexivity|].
  rewrite IH, (instance_today_same_day u (id tpl) n now x H). reflexivity.
Qed.

(** What one turn of the loop has done when it returns, for a template
    with a due time within the day: it has appended at most the instance,
    due today, and the template has an instance for today. *)
Lemma ensure_covers u now tpl w w' :
  clock now -> due_within_day tpl = true ->
  ensure_instance u (Js.startOfDay now) (Js.endOfDay now) tpl w = (Ok tt, w') ->
  exists news,
    rows (db w') = (rows (db w) ++ news)%list /\
    Forall (fun r => isTemplate r = false /\
                     between (dueAt r) (Js.startOfDay now) (Js.endOfDay now) = true) news /\
    covered u now (rows (db w')) tpl = true.
Proof.
  intros Hc Hdue E. unfold ensure_instance, bind, findFirst in E.
  match type of E with context [call ?op w] =>
    destruct (call_cases op w) as [(fs & _ & E1) | E1]; rewrite E1 in E; clear E1 end.
  { discriminate. }
  cbn [fst snd] in E. fold (instance_today u (id tpl) now) in E.
  destruct (find (instance_today u (id tpl) now) (rows (db w))) as [x|] eqn:Ex.
  { unfold ret in E. inversion E; subst. exists []. cbn [next db].
    rewrite app_nil_r. split; [reflexivity|]. split; [constructor|].
    unfold covered. apply existsb_exists. apply find_some in Ex. exists x. exact Ex. }
  destruct (due_today now tpl Hc Hdue) as (d & Ed & Hb).
  unfold due_hm in Ed.
  destruct (Js.split_time (Js.or_str (timeOfDay tpl) "09:00")) as [hh mm].
  cbn [fst snd] in Ed. unfold DateTime in E. rewrite Ed in E. cbn [ret] in E.
  unfold create in E.
  match type of E with context [call ?op ?w1] =>
    destruct (call_cases op w1) as [(fs & _ & E1) | E1]; rewrite E1 in E; clear E1 end.
  { discriminate. }
  cbn [fst snd] in E. unfold ret in E. inversion E; subst. cbn [db next rows].
  exists [instance_for (nextId (db w)) u tpl d].
  split; [reflexivity|]. split.
  - constructor; [|constructor]. split; [reflexivity | exact Hb].
  - unfold covered. rewrite existsb_app.
    apply orb_true_iff. right. cbn [existsb]. rewrite orb_false_r.
    unfold instance_today.
    cbn [set_id instance_for userId isTemplate templateId dueAt eqb_id negb].
    rewrite !Nat.eqb_refl. cbn [andb]. exact Hb.
Qed.

Lemma forEach_covers u now l :
  clock now ->
  Forall (fun tpl => due_within_day tpl = true) l ->
  forall w w',
    forEach l (ensure_instance u (Js.startOfDay now) (Js.endOfDay now)) w = (Ok tt, w') ->
    exists news,
      rows (db w') = (rows (db w) ++ news)%list /\
      Forall (fun r => isTemplate r = false /\
                       between (dueAt r) (Js.startOfDay now) (Js.endOfDay now) = true) news /\
      Forall (fun tpl => covered u now (rows (db w')) tpl = true) l.
Proof.
  intros Hclock Hl. induction Hl as [|tpl l Hdue Hl IH]; intros w w' E.
  - simpl in E. unfold ret in E. inversion E; subst. exists [].
    rewrite app_nil_r. repeat split; constructor.
  - simpl in E. unfold bind in E.
    destruct (ensure_instance u (Js.startOfDay now) (Js.endOfDay now) tpl w)
      as [[[]|e] w1] eqn:E1; [|discriminate].
    destruct (ensure_covers u now tpl w w1 Hclock Hdue E1) as (news1 & Hrows1 & Hnews1 & Hcov1).
    destruct (IH w1 w' E) as (news & Hrows & Hnews & Hcov).
    exists (news1 ++ news)%list. split.
    { rewrite Hrows, Hrows1, app_assoc. reflexivity. }
    split; [apply Forall_app; auto|].
    constructor; [|exact Hcov]. rewrite Hrows. apply covered_app. exact Hcov1.
Qed.

(** What the reconciliation pass has done when it returns, whatever the
    outages: the table is followed by new rows, none a template, all due
    today, and every daily template of the caller has an instance for
    today. *)
Lemma materialize_covers u now w w' :
  clock now ->
  Forall (fun tpl => daily_template u tpl = true -> due_within_day tpl = true) (rows (db w)) ->
  materialize u now w = (Ok tt, w') ->
  exists news,
    rows (db w') = (rows (db w) ++ news)%list /\
    Forall (fun r => isTemplate r = false /\
                     between (dueAt r) (Js.startOfDay now) (Js.endOfDay now) = true) news /\
    Forall (fun tpl => daily_template u tpl = true ->
                       covered u now (rows (db w')) tpl = true) (rows (db w')).
Proof.
  intros Hclock Hdue E. unfold materialize, bind, findMany in E.
  match type of E with context [call ?op w] =>
    destruct (call_cases op w) as [(fs & _ & E1) | E1]; rewrite E1 in E; clear E1 end.
  { discriminate. }
  cbn [fst snd] in E. fold (daily_template u) in E.
  apply (forEach_covers u now _ Hclock) in E.
  2:{ rewrite Forall_forall in *. intros tpl Htpl. apply filter_In in Htpl.
      destruct Htpl. auto. }
  destruct E as (news & Hrows & Hnews & Hcov). cbn [next db] in Hrows.
  exists news. split; [exact Hrows|]. split; [exact Hnews|].
  rewrite Forall_forall in *. intros tpl Htpl Hd.
  rewrite Hrows in Htpl. apply in_app_or in Htpl. destruct Htpl as [Hin | Hin].
  - apply Hcov. apply filter_In. auto.
  - destruct (Hnews tpl Hin) as [Hnt _]. unfold daily_template in Hd.
    rewrite Hnt, andb_false_r in Hd. discriminate.
Qed.

(** When the database answers, the pass returns. *)
Lemma forEach_returns u now l :
  clock now ->
  Forall (fun tpl => due_within_day tpl = true) l ->
  forall w, reliable w ->
  exists w',
    forEach l (ensure_instance u (Js.startOfDay now) (Js.endOfDay now)) w = (Ok tt, w') /\
    reliable w'.
Proof.
  intros Hclock Hl. induction Hl as [|tpl l Hdue Hl IH]; intros w Hrel.
  - exists w. split; [reflexivity | exact Hrel].
  - assert (Hans : forall fs, faults w <> true :: fs)
      by (intros fs; apply reliable_no_fault; assumption).
    assert (Hstep : exists w1,
      ensure_instance u (Js.startOfDay now) (Js.endOfDay now) tpl w = (Ok tt, w1) /\
      reliable w1).
    { destruct (find (instance_today u (id tpl) now) (rows (db w))) as [x|] eqn:Ex.
      - exists (next w (db w)). rewrite (ensure_found u now tpl w Hans x Ex).
        split; [reflexivity | apply reliable_next; exact Hrel].
      - destruct (due_today now tpl Hclock Hdue) as (d & Ed & _).
        eexists. rewrite (ensure_created u now tpl w Hans d Ex Ed).
        + split; [reflexivity | auto using reliable_next].
        + intros fs. apply (reliable_no_fault (next w (db w))), reliable_next, Hrel. }
    destruct Hstep as (w1 & E1 & Hrel1).
    destruct (IH w1 Hrel1) as (w' & E & Hrel').
    exists w'. simpl. unfold bind. rewrite E1. auto.
Qed.

Lemma materialize_returns u now w :
  clock now -> reliable w ->
  Forall (fun tpl => daily_template u tpl = true -> due_within_day tpl = true) (rows (db w)) ->
  exists w', materialize u now w = (Ok tt, w') /\ reliable w'.
Proof.
  intros Hclock Hrel Hdue. unfold materialize, bind at 1, findMany.
  rewrite (call_reliable _ w Hrel). cbn [fst snd]. fold (daily_template u).
  apply forEach_returns; [exact Hclock | | apply reliable_next; exact Hrel].
  rewrite Forall_forall in *. intros tpl Htpl. apply filter_In in Htpl.
  destruct Htpl. auto.
Qed.

(** A listing answered 200 has run the whole pass. *)
Lemma listing_answered now req w u :
  session req = Some u -> method req = "GET" ->
  status (fst (handler now req w)) = 200 ->
  exists w1, materialize u now w = (Ok tt, w1).
Proof.
  intros Hs Hm H200.
  destruct (materialize u now w) as [[[]|e] w1] eqn:E; [eauto|].
  rewrite (listing_aborts now req w u e w1 Hs Hm E) in H200. discriminate.
Qed.

(** X10. When the database answers and the time of day of every daily
    template of the caller gives a due time within the day, a listing (at
    a clock reading from 1970 to the year 9999) leaves the table with an
    instance due today for every daily template of the caller, however
    many there are. *)
Theorem X10_listing_covers_every_template now req w u :
  session req = Some u -> method req = "GET" ->
  clock now -> reliable w ->
  Forall (fun tpl => daily_template u tpl = true -> due_within_day tpl = true) (rows (db w)) ->
  Forall (fun tpl => daily_template u tpl = true ->
                     covered u now (rows (db (snd (handler now req w)))) tpl = true)
         (rows (db (snd (handler now req w)))).
Proof.
  intros Hs Hm Hclock Hrel Hdue.
  rewrite (get_keeps_db_of_materialize now req w u Hs Hm).
  destruct (materialize_returns u now w Hclock Hrel Hdue) as (w' & E & _).
  destruct (materialize_covers u now w w' Hclock Hdue E) as (news & _ & _ & Hcov).
  rewrite E. exact Hcov.
Qed.

Lemma X10_listing_covers_every_template_witness :
  Forall (fun tpl => daily_template 1 tpl = true ->
            covered 1 (at_ day0 15 0)
              (rows (db (snd (handler (at_ day0 15 0) (request 1 "GET" no_body) template_world))))
              tpl = true)
         (rows (db (snd (handler (at_ day0 15 0) (request 1 "GET" no_body) template_world)))).
Proof.
  apply (X10_listing_covers_every_template (at_ day0 15 0) (request 1 "GET" no_body)
           template_world 1%nat).
  - reflexivity.
  - reflexivity.
  - unfold clock. vm_compute. split; [discriminate | reflexivity].
  - reflexivity.
  - change (rows (db template_world)) with [stretch_template].
    constructor; [intros _; reflexivity | constructor].
Defined.

Lemma serve_reconciled u now reqs :
  Forall (listing_on u now) reqs ->
  forall w,
    Forall (fun tpl => daily_template u tpl = true ->
                       covered u now (rows (db w)) tpl = true) (rows (db w)) ->
    db (snd (serve reqs w)) = db w.
Proof.
  intros Hreqs. induction Hreqs as [|[n req] reqs (Hs & Hm & Hday & _) Hreqs IH];
    intros w Hcov; simpl; [reflexivity|]. simpl in *.
  assert (H1 : db (snd (handler n req w)) = db w).
  { rewrite (get_keeps_db_of_materialize n req w u Hs Hm).
    destruct (materialize u n w) as [r w1] eqn:E. simpl.
    eapply materialize_reconciled; [|exact E].
    eapply Forall_impl; [|exact Hcov]. intros tpl H Hd.
    rewrite (covered_same_day u n now _ tpl Hday). auto. }
  destruct (handler n req w) as [res w1]. simpl in H1.
  assert (H2 : db (snd (serve reqs w1)) = db w1) by (apply IH; rewrite H1; exact Hcov).
  destruct (serve reqs w1) as [out w2]. simpl in *. congruence.
Qed.

(** X11. Idempotence for any number of templates: when the time of day of
    every daily template of the caller gives a due time within the day and
    the first listing of the day is answered 200, any number of further
    listings on that day leave the table the first one left, whatever the
    database does during them (clock readings from 1970 to the year
    9999). *)
Theorem X11_further_listings_change_nothing now first reqs w u :
  listing_on u now first ->
  Forall (listing_on u now) reqs ->
  status (fst (handler (fst first) (snd first) w)) = 200 ->
  Forall (fun tpl => daily_template u tpl = true -> due_within_day tpl = true) (rows (db w)) ->
  db (snd (serve (first :: reqs) w)) = db (snd (handler (fst first) (snd first) w)).
Proof.
  intros (Hs & Hm & Hday & Hclock) Hreqs H200 Hdue. destruct first as [n req]. simpl in *.
  pose proof (get_keeps_db_of_materialize n req w u Hs Hm) as Hdb.
  destruct (listing_answered n req w u Hs Hm H200) as (w' & E).
  destruct (materialize_covers u n w w' Hclock Hdue E) as (news & _ & _ & Hcov).
  rewrite E in Hdb. simpl in Hdb.
  destruct (handler n req w) as [res w1]. simpl in *.
  assert (H2 : db (snd (serve reqs w1)) = db w1).
  { apply (serve_reconciled u now reqs Hreqs). rewrite Hdb.
    eapply Forall_impl; [|exact Hcov]. intros tpl H Hd.
    rewrite <- (covered_same_day u n now _ tpl Hday). auto. }
  destruct (serve reqs w1) as [out w2]. simpl in *. exact H2.
Qed.

Lemma X11_further_listings_change_nothing_witness :
  db (snd (serve [listing 1 15 0; listing 1 15 1; listing 1 23 59] template_world_failing))
  = db (snd (handler (at_ day0 15 0) (request 1 "GET" no_body) template_world_failing)).
Proof.
  apply (X11_further_listings_change_nothing (at_ day0 15 0) (listing 1 15 0)
           [listing 1 15 1; listing 1 23 59] template_world_failing 1%nat).
  - repeat split; unfold clock; simpl; vm_compute; intros; discriminate.
  - repeat constructor; unfold clock; simpl; vm_compute; intros; discriminate.
  - vm_compute. reflexivity.
  - change (rows (db template_world_failing)) with [stretch_template].
    constructor; [intros _; reflexivity | constructor].
Defined.

(** ** One instance per day *)

Lemma window_day d n :
  between (Some d) (Js.startOfDay n) (Js.endOfDay n) = true ->
  Js.startOfDay d = Js.startOfDay n.
Proof.
  unfold between, Js.endOfDay, Js.msPerHour, Js.msPerMinute. intros H.
  apply andb_true_iff in H. destruct H as [H1 H2].
  apply Z.leb_le in H1. apply Z.leb_le in H2.
  replace d with (Js.startOfDay n + (d - Js.startOfDay n)) by lia.
  apply startOfDay_plus. unfold Js.msPerDay. lia.
Qed.

Lemma other_day_instance u t a b r :
  Js.startOfDay a <> Js.startOfDay b ->
  between (dueAt r) (Js.startOfDay b) (Js.endOfDay b) = true ->
  instance_today u t a r = false.
Proof.
  intros Hab Hb. unfold instance_today.
  destruct (dueAt r) as [d|]; [|discriminate].
  destruct (between (Some d) (Js.startOfDay a) (Js.endOfDay a)) eqn:Ha;
    [|apply andb_false_r].
  apply window_day in Ha. apply window_day in Hb. congruence.
Qed.

(** X12. Per-day scoping: a listing on another day adds that day's
    instances and leaves those of the first day as they are, so that after
    a listing on each of two days every daily template of the caller has
    an instance due on the one and an instance due on the other (the
    database answering, the times of day of the templates giving due times
    within the day, clock readings from 1970 to the year 9999). *)
Theorem X12_listings_on_two_days nowA nowB reqA reqB w u :
  session reqA = Some u -> method reqA = "GET" ->
  session reqB = Some u -> method reqB = "GET" ->
  clock nowA -> clock nowB ->
  Js.startOfDay nowA <> Js.startOfDay nowB ->
  reliable w ->
  Forall (fun tpl => daily_template u tpl = true -> due_within_day tpl = true) (rows (db w)) ->
  Forall (fun tpl => daily_template u tpl = true ->
            covered u nowA (rows (db (snd (serve [(nowA, reqA); (nowB, reqB)] w)))) tpl = true /\
            covered u nowB (rows (db (snd (serve [(nowA, reqA); (nowB, reqB)] w)))) tpl = true)
         (rows (db (snd (serve [(nowA, reqA); (nowB, reqB)] w)))) /\
  forall t,
    filter (instance_today u t nowA) (rows (db (snd (serve [(nowA, reqA); (nowB, reqB)] w))))
    = filter (instance_today u t nowA) (rows (db (snd (handler nowA reqA w)))).
Proof.
  intros HsA HmA HsB HmB HcA HcB Hdays Hrel Hdue.
  destruct (materialize_returns u nowA w HcA Hrel Hdue) as (wA & EA & HrelA).
  destruct (materialize_covers u nowA w wA HcA Hdue EA) as (newsA & HrowsA & HnewsA & HcovA).
  destruct (get_after_materialize nowA reqA w u wA HsA HmA EA HrelA) as [Hrel1 Hdb1].
  simpl. destruct (handler nowA reqA w) as [resA w1]. simpl in *.
  assert (Hdue1 : Forall (fun tpl => daily_template u tpl = true -> due_within_day tpl = true)
                         (rows (db w1))).
  { rewrite Hdb1, HrowsA. apply Forall_app. split; [exact Hdue|].
    eapply Forall_impl; [|exact HnewsA]. intros r [Hnt _] Hd.
    unfold daily_template in Hd. rewrite Hnt, andb_false_r in Hd. discriminate. }
  destruct (materialize_returns u nowB w1 HcB Hrel1 Hdue1) as (wB & EB & HrelB).
  destruct (materialize_covers u nowB w1 wB HcB Hdue1 EB) as (newsB & HrowsB & HnewsB & HcovB).
  destruct (get_after_materialize nowB reqB w1 u wB HsB HmB EB HrelB) as [_ Hdb2].
  destruct (handler nowB reqB w1) as [resB w2]. simpl in *.
  rewrite Hdb2. split.
  - rewrite Forall_forall in *. intros tpl Htpl Hd. split; [|apply HcovB; assumption].
    rewrite HrowsB in Htpl |- *. apply covered_app.
    apply in_app_or in Htpl. destruct Htpl as [Hin | Hin].
    + rewrite Hdb1 in Hin |- *. apply HcovA; assumption.
    + destruct (HnewsB tpl Hin) as [Hnt _]. unfold daily_template in Hd.
      rewrite Hnt, andb_false_r in Hd. discriminate.
  - intros t. rewrite HrowsB, filter_app.
    replace (filter (instance_today u t nowA) newsB) with (@nil Todo).
    + apply app_nil_r.
    + symmetry. clear - HnewsB Hdays. induction HnewsB as [|r l [_ Hb] _ IH]; simpl; [reflexivity|].
      rewrite (other_day_instance u t nowA nowB r Hdays Hb). exact IH.
Qed.

Lemma X12_listings_on_two_days_witness :
  Forall (fun tpl => daily_template 1 tpl = true ->
            covered 1 (at_ day0 15 0)
              (rows (db (snd (serve [(at_ day0 15 0, request 1 "GET" no_body);
                                     (at_ (day0 + Js.msPerDay) 8 0, request 1 "GET" no_body)]
                                    template_world)))) tpl = true /\
            covered 1 (at_ (day0 + Js.msPerDay) 8 0)
              (rows (db (snd (serve [(at_ day0 15 0, request 1 "GET" no_body);
                                     (at_ (day0 + Js.msPerDay) 8 0, request 1 "GET" no_body)]
                                    template_world)))) tpl = true)
         (rows (db (snd (serve [(at_ day0 15 0, request 1 "GET" no_body);
                                (at_ (day0 + Js.msPerDay) 8 0, request 1 "GET" no_body)]
                               template_world)))) /\
  forall t,
    filter (instance_today 1 t (at_ day0 15 0))
      (rows (db (snd (serve [(at_ day0 15 0, request 1 "GET" no_body);
                             (at_ (day0 + Js.msPerDay) 8 0, request 1 "GET" no_body)]
                            template_world))))
    = filter (instance_today 1 t (at_ day0 15 0))
        (rows (db (snd (handler (at_ day0 15 0) (request 1 "GET" no_body) template_world)))).
Proof.
  apply (X12_listings_on_two_days (at_ day0 15 0) (at_ (day0 + Js.msPerDay) 8 0)
           (request 1 "GET" no_body) (request 1 "GET" no_body) template_world 1%nat).
  - reflexivity.
  - reflexivity.
  - reflexivity.
  - reflexivity.
  - unfold clock. vm_compute. split; [discriminate | reflexivity].
  - unfold clock. vm_compute. split; [discriminate | reflexivity].
  - vm_compute. discriminate.
  - reflexivity.
  - change (rows (db template_world)) with [stretch_template].
    constructor; [intros _; reflexivity | constructor].
Defined.

(** ** More on create *)

Lemma clock_hour_minute now :
  0 <= Js.getHours now <= 23 /\ 0 <= Js.getMinutes now <= 59.
Proof.
  unfold Js.getHours, Js.getMinutes, Js.msPerDay, Js.msPerHour, Js.msPerMinute.
  pose proof (Z.mod_pos_bound now 86400000 ltac:(lia)).
  pose proof (Z.mod_pos_bound now 3600000 ltac:(lia)).
  split; split.
  - apply Z.div_pos; lia.
  - apply Z.lt_succ_r. apply Z.div_lt_upper_bound; lia.
  - apply Z.div_pos; lia.
  - apply Z.lt_succ_r. apply Z.div_lt_upper_bound; lia.
Qed.

(** The time of the clock with its seconds and milliseconds cut off. *)
Lemma minute_of_clock now :
  at_ (Js.startOfDay now) (Js.getHours now) (Js.getMinutes now) = 60000 * (now / 60000).
Proof.
  unfold at_, Js.startOfDay, Js.getHours, Js.getMinutes,
    Js.msPerDay, Js.msPerHour, Js.msPerMinute.
  pose proof (Z.div_mod now 86400000 ltac:(lia)) as E1.
  pose proof (Z.mod_pos_bound now 86400000 ltac:(lia)) as B1.
  pose proof (Z.div_mod (now mod 86400000) 3600000 ltac:(lia)) as E2.
  pose proof (Z.mod_pos_bound (now mod 86400000) 3600000 ltac:(lia)) as B2.
  pose proof (Z.div_mod now 3600000 ltac:(lia)) as E3.
  pose proof (Z.mod_pos_bound now 3600000 ltac:(lia)) as B3.
  pose proof (Z.div_mod (now mod 3600000) 60000 ltac:(lia)) as E4.
  pose proof (Z.mod_pos_bound (now mod 3600000) 60000 ltac:(lia)) as B4.
  pose proof (Z.div_mod now 60000 ltac:(lia)) as E5.
  pose proof (Z.mod_pos_bound now 60000 ltac:(lia)) as B5.
  lia.
Qed.

(** X13. A valid create request for a one-off record (recurrence not
    DAILY, no isTemplate flag set) without a time of day (absent or the
    empty text), whose title, notes and tags are strings the database
    stores, stores a record with the clock's HH:MM as its time of day, due
    at the moment of creation with the seconds cut off. *)
Theorem X13_create_defaults_to_now now req w u data :
  session req = Some u -> method req = "POST" ->
  reliable w -> clock now ->
  todoSchema_safeParse (body req) = Some data ->
  input_text data = true ->
  i_recurrence data <> Some DAILY ->
  b_isTemplate (body req) <> Given true ->
  i_timeOfDay data = None \/ i_timeOfDay data = Some "" ->
  exists r,
    fst (handler now req w) = respond 201 (JTodo r) /\
    In r (rows (db (snd (handler now req w)))) /\
    title r = i_title data /\
    recurrence r = NONE /\ isTemplate r = false /\ templateId r = None /\
    timeOfDay r = Some (Js.timeString5 now) /\
    dueAt r = Some (60000 * (now / 60000)).
Proof.
  intros Hs Hm Hrel Hclock Hp Htext Hrec Htpl Htod.
  destruct (clock_hour_minute now) as [Hh Hmin].
  unfold handler. rewrite (dispatch_method now req u "POST" Hs Hm).
  change (String.eqb "POST" "GET") with false.
  change (String.eqb "POST" "POST") with true. cbv iota.
  unfold handle_POST. rewrite Hp.
  assert (Erec : match i_recurrence data with Some DAILY => true | _ => false end = false).
  { destruct (i_recurrence data) as [[]|]; try reflexivity. contradiction. }
  assert (Eflag : match b_isTemplate (body req) with Given true => true | _ => false end = false).
  { destruct (b_isTemplate (body req)) as [| |[]]; try reflexivity. contradiction. }
  rewrite Erec, Eflag. cbn [orb]. cbv iota.
  assert (Etod : Js.or_str (i_timeOfDay data) (Js.timeString5 now) = Js.timeString5 now).
  { destruct Htod as [-> | ->]; reflexivity. }
  rewrite Etod.
  change (Js.timeString5 now) with (hhmm (Js.getHours now) (Js.getMinutes now)).
  rewrite split_time_hhmm by lia.
  assert (Eh : Js.or_num (Fin (Js.getHours now)) (Js.getHours now) = Fin (Js.getHours now))
    by (unfold Js.or_num; destruct (_ =? 0); reflexivity).
  assert (Em : Js.or_num (Fin (Js.getMinutes now)) (Js.getMinutes now) = Fin (Js.getMinutes now))
    by (unfold Js.or_num; destruct (_ =? 0); reflexivity).
  rewrite Eh, Em.
  destruct (setHours_within now (Js.getHours now) (Js.getMinutes now) Hclock)
    as (Eset & Ets & _); try lia.
  rewrite minute_of_clock in Eset, Ets.
  unfold bind, DateTime. rewrite Eset, Ets. cbn [ret].
  rewrite Text_texts
    by (unfold input_text in Htext; cbn [forallb] in *; rewrite text_hhmm by lia; exact Htext).
  unfold create. rewrite (call_reliable _ w Hrel). cbn [fst snd next db rows].
  eexists. split; [reflexivity|].
  split; [apply in_or_app; right; left; reflexivity|].
  repeat split.
Qed.

Lemma X13_create_defaults_to_now_witness :
  exists r,
    fst (handler (at_ day0 14 37 + 12345)
           (request 1 "POST" (new_todo "Buy milk" (Some "NONE") (Some "")))
           empty_world) = respond 201 (JTodo r) /\
    In r (rows (db (snd (handler (at_ day0 14 37 + 12345)
                           (request 1 "POST" (new_todo "Buy milk" (Some "NONE") (Some "")))
                           empty_world)))) /\
    title r = "Buy milk" /\
    recurrence r = NONE /\ isTemplate r = false /\ templateId r = None /\
    timeOfDay r = Some (Js.timeString5 (at_ day0 14 37 + 12345)) /\
    dueAt r = Some (60000 * ((at_ day0 14 37 + 12345) / 60000)).
Proof.
  apply (X13_create_defaults_to_now (at_ day0 14 37 + 12345)
           (request 1 "POST" (new_todo "Buy milk" (Some "NONE") (Some ""))) empty_world 1%nat
           {| i_title := "Buy milk"; i_notes := None; i_dueDate := None;
              i_recurrence := Some NONE; i_timeOfDay := Some ""; i_tags := None;
              i_completed := None |}).
  - reflexivity.
  - reflexivity.
  - reflexivity.
  - unfold clock. vm_compute. split; [discriminate | reflexivity].
  - reflexivity.
  - reflexivity.
  - discriminate.
  - discriminate.
  - right. reflexivity.
Defined.

(** ** More on update *)

Lemma update_first_found p f l r :
  find p l = Some r ->
  exists l', update_first p f l = Some (f r, l') /\
             (p (f r) = true -> find p l' = Some (f r)).
Proof.
  induction l as [|y l IH]; simpl; [discriminate|].
  destruct (p y) eqn:Ep.
  - intros E. inversion E; subst. eexists. split; [reflexivity|].
    intros Hp. simpl. rewrite Hp. reflexivity.
  - intros E. destruct (IH E) as (l' & E1 & E2). rewrite E1.
    eexists. split; [reflexivity|]. intros Hp. simpl. rewrite Ep. auto.
Qed.

Lemma update_first_others p f l r l' i x :
  (forall y, p y = true -> id y = i) ->
  update_first p f l = Some (r, l') -> In x l -> id x <> i -> In x l'.
Proof.
  intros Hp. revert r l'. induction l as [|y l IH]; simpl; intros r l' E Hx Hi; [contradiction|].
  destruct (p y) eqn:Ep.
  - inversion E; subst. destruct Hx as [-> | Hx]; [|right; exact Hx].
    exfalso. apply Hi. apply Hp. exact Ep.
  - destruct (update_first p f l) as [[r0 l0]|] eqn:E0; [|discriminate].
    inversion E; subst. destruct Hx as [-> | Hx]; [left; reflexivity|].
    right. eapply IH; eauto.
Qed.

Lemma storable_accepted now b h m :
  b_timeOfDay b = Given (hhmm h m) -> 0 <= h <= 23 -> 0 <= m <= 59 ->
  storable b = true ->
  forallb text (update_texts (build_updates now b)) = true /\
  option_map as_Recurrence (typed (b_recurrence b)) <> Some None /\
  option_map strings (typed (b_tags b)) <> Some None.
Proof.
  intros Htod Hh Hm Hst. pose proof (text_hhmm h m Hh Hm) as Htext.
  unfold storable in Hst.
  repeat (apply andb_true_iff in Hst; destruct Hst as [Hst ?]).
  unfold update_texts, build_updates.
  cbn [u_title u_notes u_tags u_completed u_timeOfDay u_dueAt u_recurrence u_isTemplate].
  rewrite Htod. cbn [typed nullable]. split; [|split].
  - rewrite !forallb_app. cbn [forallb]. rewrite Htext.
    destruct (b_title b) as [| |s]; cbn [typed nullable forallb];
      destruct (b_notes b) as [| |[n|]]; cbn [typed forallb];
      destruct (b_tags b) as [| |l]; cbn [typed option_map forallb];
      try (destruct (strings l); [|discriminate]);
      repeat match goal with E : _ = true |- _ => rewrite E end; reflexivity.
  - destruct (b_recurrence b) as [| |s]; try discriminate.
    cbn [typed option_map]. destruct (as_Recurrence s); discriminate.
  - destruct (b_tags b) as [| |l]; try discriminate.
    cbn [typed option_map]. destruct (strings l); discriminate.
Qed.

(** X14. An update whose time of day is a well-formed HH:MM (hour 00 to 23,
    minute 00 to 59, midnight included), and whose recurrence, tags, title
    and notes, if it carries any, are such as the client and the database
    store (as all that the dialog sends are, but for a text with the code
    unit 0), makes the record due on the day of the request at that time,
    whatever day it was due before, stores the text as its time of day,
    and keeps its id, owner and template link; the record found under the
    id afterwards is the one returned. *)
Theorem X14_update_time_reanchors now req w u i r h m :
  session req = Some u -> method req = "PUT" ->
  b_id (body req) = Given i ->
  b_timeOfDay (body req) = Given (hhmm h m) ->
  0 <= h <= 23 -> 0 <= m <= 59 ->
  storable (body req) = true ->
  reliable w -> clock now ->
  lookup u i (db w) = Some r ->
  exists r',
    fst (handler now req w) = respond 200 (JTodo r') /\
    lookup u i (db (snd (handler now req w))) = Some r' /\
    dueAt r' = Some (at_ (Js.startOfDay now) h m) /\
    timeOfDay r' = Some (hhmm h m) /\
    identity r' = identity r.
Proof.
  intros Hs Hm Hid Htod Hh Hmin Hst Hrel Hclock Hr.
  destruct (storable_accepted now (body req) h m Htod Hh Hmin Hst) as (Etext & Erec & Etags).
  unfold handler. rewrite (dispatch_method now req u "PUT" Hs Hm).
  change (String.eqb "PUT" "GET") with false.
  change (String.eqb "PUT" "POST") with false.
  change (String.eqb "PUT" "PUT") with true. cbv iota.
  unfold handle_PUT. rewrite Hid.
  unfold apply_updates. rewrite Etext. unfold build_updates.
  cbn [u_title u_notes u_tags u_completed u_timeOfDay u_dueAt u_recurrence u_isTemplate].
  rewrite Htod. cbn [typed]. rewrite split_time_hhmm by lia.
  assert (Eh : Js.or_num (Fin h) 0 = Fin h)
    by (unfold Js.or_num; destruct (Z.eqb_spec h 0); congruence).
  assert (Em : Js.or_num (Fin m) 0 = Fin m)
    by (unfold Js.or_num; destruct (Z.eqb_spec m 0); congruence).
  rewrite Eh, Em.
  destruct (setHours_within now h m Hclock) as (Eset & Ets & _); try lia.
  rewrite Eset. cbn [option_map]. rewrite Ets.
  unfold lookup in Hr.
  destruct (option_map as_Recurrence (typed (b_recurrence (body req)))) as [[rc|]|];
    try contradiction;
    destruct (option_map strings (typed (b_tags (body req)))) as [[tg|]|];
    try contradiction;
    unfold bind, update; rewrite (call_reliable _ w Hrel);
    match goal with |- context [update_first ?p ?f (rows (db w))] =>
      destruct (update_first_found p f (rows (db w)) r Hr) as (l' & E1 & E2); rewrite E1 end;
    cbn [fst snd next db rows ret];
    (eexists; split; [reflexivity|]; split;
       [ unfold lookup; cbn [rows]; apply E2; cbn [id userId];
         apply find_some in Hr; apply Hr
       | repeat split ]).
Qed.

Lemma X14_update_time_reanchors_witness :
  exists r',
    fst (handler (at_ (day0 + Js.msPerDay) 9 0)
           (sent 1 ("PUT", Page.update_payload stretch_instance midnight_draft))
           series_world)
      = respond 200 (JTodo r') /\
    lookup 1 2 (db (snd (handler (at_ (day0 + Js.msPerDay) 9 0)
           (sent 1 ("PUT", Page.update_payload stretch_instance midnight_draft))
           series_world))) = Some r' /\
    dueAt r' = Some (at_ (Js.startOfDay (at_ (day0 + Js.msPerDay) 9 0)) 0 0) /\
    timeOfDay r' = Some (hhmm 0 0) /\
    identity r' = identity stretch_instance.
Proof.
  apply (X14_update_time_reanchors (at_ (day0 + Js.msPerDay) 9 0)
           (sent 1 ("PUT", Page.update_payload stretch_instance midnight_draft))
           series_world 1%nat 2%nat stretch_instance 0 0); try reflexivity; try lia.
  unfold clock. vm_compute. split; [discriminate | reflexivity].
Defined.

(** X15. An update never adds or removes a record and never changes the
    id, the owner or the template link of any record, whatever its body and
    whatever the database does. *)
Theorem X15_update_keeps_identities now req w :
  method req = "PUT" ->
  map identity (rows (db (snd (handler now req w)))) = map identity (rows (db w)).
Proof.
  intros Hm.
  apply (preserves_handler (fun t => map identity (rows t) = map identity (rows (db w))));
    [|reflexivity].
  unfold dispatch. destruct (session req) as [u|]; [|apply preserves_ret].
  rewrite Hm.
  change (String.eqb "PUT" "GET") with false.
  change (String.eqb "PUT" "POST") with false.
  change (String.eqb "PUT" "PUT") with true. cbv iota.
  unfold handle_PUT. through_handler.
  apply preserves_call. intros tb Htb.
  match goal with |- context [update_first ?p ?f (rows tb)] =>
    destruct (update_first p f (rows tb)) as [[r l]|] eqn:E end; simpl; [|exact Htb].
  rewrite <- Htb. eapply update_first_map; [|exact E].
  intros x. unfold identity.
  match goal with H : apply_updates _ = Some _ |- _ =>
    destruct (apply_updates_keeps _ _ x H) as (-> & -> & ->) end.
  reflexivity.
Qed.

Lemma X15_update_keeps_identities_witness :
  map identity (rows (db (snd (handler (at_ day0 15 0)
                                 (request 1 "PUT" (set_template 2 true)) series_world))))
  = map identity (rows (db series_world)).
Proof.
  apply (X15_update_keeps_identities (at_ day0 15 0)
           (request 1 "PUT" (set_template 2 true)) series_world).
  reflexivity.
Defined.

(** X16. An update leaves every record other than the one it names stored
    exactly as it was, whatever its body and whatever the database does. *)
Theorem X16_update_touches_one_record now req w i :
  method req = "PUT" -> b_id (body req) = Given i ->
  Forall (fun x => id x = i \/ In x (rows (db (snd (handler now req w))))) (rows (db w)).
Proof.
  intros Hm Hid.
  apply (preserves_handler
           (fun t => Forall (fun x => id x = i \/ In x (rows t)) (rows (db w)))).
  2:{ rewrite Forall_forall. auto. }
  unfold dispatch. destruct (session req) as [u|]; [|apply preserves_ret].
  rewrite Hm.
  change (String.eqb "PUT" "GET") with false.
  change (String.eqb "PUT" "POST") with false.
  change (String.eqb "PUT" "PUT") with true. cbv iota.
  unfold handle_PUT. rewrite Hid. through_handler.
  apply preserves_call. intros tb Htb.
  match goal with |- context [update_first ?p ?f (rows tb)] =>
    destruct (update_first p f (rows tb)) as [[r l]|] eqn:E end; simpl; [|exact Htb].
  eapply Forall_impl; [|exact Htb]. intros x [Hx | Hx]; [left; exact Hx|].
  destruct (Nat.eq_dec (id x) i) as [Hi | Hi]; [left; exact Hi | right].
  eapply update_first_others; [|exact E|exact Hx|exact Hi].
  intros y Hy. apply andb_true_iff in Hy. destruct Hy as [Hy _].
  apply Nat.eqb_eq. exact Hy.
Qed.

Lemma X16_update_touches_one_record_witness :
  Forall (fun x => id x = 2%nat \/
            In x (rows (db (snd (handler (at_ day0 15 0)
                                   (request 1 "PUT" (set_completed 2 true)) series_world)))))
         (rows (db series_world)).
Proof.
  apply (X16_update_touches_one_record (at_ day0 15 0)
           (request 1 "PUT" (set_completed 2 true)) series_world 2%nat); reflexivity.
Defined.

(** ** Create, then look up *)

Lemma call_Ok_table {A} (op : Table -> Result A * Table) w a w' :
  call op w = (Ok a, w') -> op (db w) = (Ok a, db w').
Proof.
  intros E. destruct (call_cases op w) as [(fs & _ & E1) | E1]; rewrite E1 in E.
  - discriminate.
  - inversion E; subst. simpl. destruct (op (db w)); reflexivity.
Qed.

Lemma find_snoc (p : Todo -> bool) l r :
  (forall x, In x l -> p x = false) -> p r = true -> find p (l ++ [r]) = Some r.
Proof.
  intros Hl Hr. induction l as [|y l IH]; simpl.
  - rewrite Hr. reflexivity.
  - rewrite (Hl y (or_introl eq_refl)). apply IH. intros x Hx. apply Hl. right. exact Hx.
Qed.

Lemma created_row w u data r w' :
  wf (db w) -> userId data = u ->
  create data w = (Ok r, w') ->
  r = set_id (nextId (db w)) data /\
  rows (db w') = (rows (db w) ++ [r])%list /\
  lookup u (id r) (db w') = Some r.
Proof.
  intros [_ Hlt] Hu E. unfold create in E. apply call_Ok_table in E.
  inversion E as [[Hr Hdb]]. cbn [rows]. split; [reflexivity|].
  split; [reflexivity|]. unfold lookup. cbn [rows set_id id].
  apply find_snoc.
  - intros x Hx. rewrite Forall_forall in Hlt. specialize (Hlt x Hx).
    apply andb_false_iff. left. apply Nat.eqb_neq. lia.
  - cbn [set_id id userId]. rewrite Hu, !Nat.eqb_refl. reflexivity.
Qed.

(** X17. The record a create request returns is stored: it is appended to
    the table as the last row, belongs to the caller, names no template,
    and is the record found under its id afterwards. *)
Theorem X17_created_record_is_found now req w u r :
  session req = Some u -> method req = "POST" ->
  wf (db w) ->
  json (fst (handler now req w)) = JTodo r ->
  rows (db (snd (handler now req w))) = (rows (db w) ++ [r])%list /\
  userId r = u /\ templateId r = None /\
  lookup u (id r) (db (snd (handler now req w))) = Some r.
Proof.
  intros Hs Hm Hwf. unfold handler.
  rewrite (dispatch_method now req u "POST" Hs Hm).
  change (String.eqb "POST" "GET") with false.
  change (String.eqb "POST" "POST") with true. cbv iota.
  destruct (handle_POST u now (body req) w) as [[res|e] w'] eqn:E; simpl; [|discriminate].
  intros Hj. unfold handle_POST in E.
  destruct (todoSchema_safeParse (body req)) as [data|].
  2:{ unfold ret in E. inversion E; subst. discriminate. }
  destruct (_ || _).
  - apply bind_Ok in E. destruct E as (ut & wt & Et & E).
    apply Text_Ok in Et. destruct Et as [_ ->].
    apply bind_Ok in E. destruct E as (todo & w1 & E1 & E2).
    unfold ret in E2. inversion E2; subst. simpl in Hj. inversion Hj; subst.
    eapply created_row in E1; [|exact Hwf|reflexivity]. destruct E1 as (Er & Hrows & Hlook).
    split; [exact Hrows|]. split; [rewrite Er; reflexivity|].
    split; [rewrite Er; reflexivity | exact Hlook].
  - destruct (Js.split_time _) as [hh mm].
    apply bind_Ok in E. destruct E as (d & w0 & E0 & E).
    apply bind_Ok in E. destruct E as (ut & wt & Et & E).
    assert (w0 = w).
    { unfold DateTime in E0. destruct (timestamp _); [|discriminate].
      unfold ret in E0. inversion E0; reflexivity. }
    subst w0. apply Text_Ok in Et. destruct Et as [_ ->].
    apply bind_Ok in E. destruct E as (todo & w1 & E1 & E2).
    unfold ret in E2. inversion E2; subst. simpl in Hj. inversion Hj; subst.
    eapply created_row in E1; [|exact Hwf|reflexivity]. destruct E1 as (Er & Hrows & Hlook).
    split; [exact Hrows|]. split; [rewrite Er; reflexivity|].
    split; [rewrite Er; reflexivity | exact Hlook].
Qed.

Lemma X17_created_record_is_found_witness :
  rows (db (snd (handler (at_ day0 14 37)
                   (request 1 "POST" (new_todo "Stretch" (Some "DAILY") None)) empty_world)))
    = (rows (db empty_world) ++ [stretch_template])%list /\
  userId stretch_template = 1%nat /\ templateId stretch_template = None /\
  lookup 1 (id stretch_template)
    (db (snd (handler (at_ day0 14 37)
                (request 1 "POST" (new_todo "Stretch" (Some "DAILY") None)) empty_world)))
    = Some stretch_template.
Proof.
  apply (X17_created_record_is_found (at_ day0 14 37)
           (request 1 "POST" (new_todo "Stretch" (Some "DAILY") None)) empty_world
           1%nat stretch_template).
  - reflexivity.
  - reflexivity.
  - split; simpl; constructor.
  - vm_compute. reflexivity.
Defined.

(** ** The page: completing a record *)

Lemma update_first_undo p f g l r :
  find p l = Some r -> p (f r) = true -> g (f r) = r ->
  exists l1, update_first p f l = Some (f r, l1) /\ update_first p g l1 = Some (r, l).
Proof.
  intros Hfind Hp Hg. induction l as [|y l IH]; simpl in *; [discriminate|].
  destruct (p y) eqn:Ep.
  - inversion Hfind; subst. eexists. split; [reflexivity|].
    simpl. rewrite Hp, Hg. reflexivity.
  - destruct (IH Hfind) as (l1 & E1 & E2). rewrite E1.
    eexists. split; [reflexivity|]. simpl. rewrite Ep, E2. reflexivity.
Qed.

(** The request of [toggleCompleted], given what the update does to the
    table. *)
Lemma toggle_answered now w u t r' l :
  reliable w ->
  update_first (fun r => Nat.eqb (id r) (id t) && Nat.eqb (userId r) u)
               (toggled t) (rows (db w)) = Some (r', l) ->
  handler now (sent u (Page.toggleCompleted t)) w
    = (respond 200 (JTodo r'), next w {| rows := l; nextId := nextId (db w) |}).
Proof.
  intros Hrel E.
  unfold handler, dispatch, sent, request, Page.toggleCompleted.
  cbn [session method body fst snd].
  change (String.eqb "PUT" "GET") with false.
  change (String.eqb "PUT" "POST") with false.
  change (String.eqb "PUT" "PUT") with true. cbv iota.
  unfold handle_PUT. cbn [b_id]. unfold apply_updates, update_texts, build_updates.
  cbn [b_title b_notes b_tags b_completed b_timeOfDay b_recurrence b_isTemplate
       u_title u_notes u_tags u_completed u_timeOfDay u_dueAt u_recurrence u_isTemplate
       typed option_map or_else nullable app forallb].
  fold (toggled t). unfold bind, update. rewrite (call_reliable _ w Hrel).
  rewrite E. reflexivity.
Qed.

(** X18. Completing a listed record and completing it again, as the page
    does with the record the first answer returned, restores the table:
    the first request flips [completed], the second flips it back, and
    nothing else has changed. *)
Theorem X18_toggle_twice_restores now1 now2 w u t :
  reliable w -> lookup u (id t) (db w) = Some t ->
  fst (handler now1 (sent u (Page.toggleCompleted t)) w)
    = respond 200 (JTodo (toggled t t)) /\
  db (snd (handler now2 (sent u (Page.toggleCompleted (toggled t t)))
             (snd (handler now1 (sent u (Page.toggleCompleted t)) w)))) = db w.
Proof.
  intros Hrel Hr. unfold lookup in Hr.
  assert (Hp : (fun r => Nat.eqb (id r) (id t) && Nat.eqb (userId r) u) (toggled t t) = true).
  { apply find_some in Hr. apply Hr. }
  assert (Hg : toggled (toggled t t) (toggled t t) = t).
  { destruct t; unfold toggled; cbn. rewrite negb_involutive. reflexivity. }
  destruct (update_first_undo _ (toggled t) (toggled (toggled t t)) (rows (db w)) t Hr Hp Hg)
    as (l1 & E1 & E2).
  rewrite (toggle_answered now1 w u t _ _ Hrel E1). cbn [fst snd].
  split; [reflexivity|].
  rewrite (toggle_answered now2 _ u (toggled t t) t (rows (db w))).
  - cbn [snd next db]. destruct (db w); reflexivity.
  - apply reliable_next. exact Hrel.
  - exact E2.
Qed.

Lemma X18_toggle_twice_restores_witness :
  fst (handler (at_ day0 15 0) (sent 1 (Page.toggleCompleted stretch_instance)) series_world)
    = respond 200 (JTodo (toggled stretch_instance stretch_instance)) /\
  db (snd (handler (at_ day0 15 1)
             (sent 1 (Page.toggleCompleted (toggled stretch_instance stretch_instance)))
             (snd (handler (at_ day0 15 0) (sent 1 (Page.toggleCompleted stretch_instance))
                     series_world)))) = db series_world.
Proof.
  apply (X18_toggle_twice_restores (at_ day0 15 0) (at_ day0 15 1) series_world 1%nat
           stretch_instance); reflexivity.
Defined.

(** ** The page: its four lists *)

Lemma filter_split_length (p q : Todo -> bool) l :
  (forall x, q x = negb (p x)) ->
  (List.length (filter p l) + List.length (filter q l) = List.length l)%nat.
Proof.
  intros H. induction l as [|y l IH]; simpl; [reflexivity|].
  rewrite H. destruct (p y); simpl; lia.
Qed.

Lemma filter_sorted (p : Todo -> bool) l :
  StronglySorted due_le l -> StronglySorted due_le (filter p l).
Proof.
  induction 1 as [|y l Hs IH Hall]; simpl; [constructor|].
  destruct (p y); [|exact IH]. constructor; [exact IH|].
  rewrite Forall_forall in *. intros x Hx. apply filter_In in Hx. apply Hall, Hx.
Qed.

(** X19. The page shows every fetched record in exactly one of its three
    sections: uncompleted and overdue (Pending), uncompleted and due now or
    later or without a due date (Upcoming), or completed. *)
Theorem X19_page_sections_partition now todos :
  (List.length (Page.pending now todos) + List.length (Page.upcoming now todos) +
   List.length (Page.completed_ todos) = List.length todos)%nat /\
  forall t, In t todos <->
            In t (Page.pending now todos) \/ In t (Page.upcoming now todos) \/
            In t (Page.completed_ todos).
Proof.
  split.
  - unfold Page.pending, Page.upcoming, Page.completed_.
    rewrite (filter_split_length _ _ (Page.active todos)).
    + unfold Page.active. rewrite sort_length.
      rewrite Nat.add_comm. apply filter_split_length. reflexivity.
    + intros x. destruct (dueAt x) as [d|]; [|reflexivity].
      destruct (Z.ltb_spec d now), (Z.leb_spec now d); try reflexivity; lia.
  - intros t. unfold Page.pending, Page.upcoming, Page.completed_, Page.active.
    rewrite !filter_In, !sort_In, !filter_In. split.
    + intros Hin. destruct (completed t) eqn:Ec; [right; right; auto|].
      destruct (dueAt t) as [d|]; [|right; left; auto].
      destruct (Z.ltb_spec d now).
      * left. auto.
      * right. left. split; [auto|]. apply Z.leb_le. lia.
    + intros [H | [H | H]]; tauto.
Qed.

(** X20. Pending and Upcoming are each in ascending order of the due
    timestamp (records without one last), every Pending record is due
    before the clock of the page, and every Pending record is due no later
    than every Upcoming one. *)
Theorem X20_page_sections_ordered now todos :
  StronglySorted due_le (Page.pending now todos) /\
  StronglySorted due_le (Page.upcoming now todos) /\
  Forall (fun t => exists d, dueAt t = Some d /\ d < now) (Page.pending now todos) /\
  forall a b, In a (Page.pending now todos) -> In b (Page.upcoming now todos) -> due_le a b.
Proof.
  assert (Hp : forall t, In t (Page.pending now todos) -> exists d, dueAt t = Some d /\ d < now).
  { intros t Ht. unfold Page.pending in Ht. apply filter_In in Ht. destruct Ht as [_ Ht].
    destruct (dueAt t) as [d|]; [|discriminate]. exists d. split; [reflexivity|].
    apply Z.ltb_lt. exact Ht. }
  split; [apply filter_sorted, sort_sorted|].
  split; [apply filter_sorted, sort_sorted|].
  split; [rewrite Forall_forall; exact Hp|].
  intros a b Ha Hb. destruct (Hp a Ha) as (d & Ed & Hd).
  unfold Page.upcoming in Hb. apply filter_In in Hb. destruct Hb as [_ Hb].
  unfold due_le. rewrite Ed. destruct (dueAt b) as [e|]; [|exact I].
  apply Z.leb_le in Hb. lia.
Qed.

(** ** The page: tags *)

Lemma split_free sep s : occurs sep s = false -> Page.split sep s = [s].
Proof.
  induction s as [|c r IH]; simpl; [reflexivity|].
  intros H. apply orb_false_iff in H. destruct H as [Hc Hr].
  rewrite Hc, (IH Hr). reflexivity.
Qed.

Lemma split_single sep s : Page.split sep s = [s] -> occurs sep s = false.
Proof.
  induction s as [|c r IH]; simpl; [reflexivity|].
  destruct (Ascii.eqb c sep); [discriminate|].
  destruct (Page.split sep r) as [|h t] eqn:E; intros H; inversion H; subst.
  - discriminate.
  - simpl. apply IH. reflexivity.
Qed.

Lemma split_pieces_free sep s : Forall (fun p => occurs sep p = false) (Page.split sep s).
Proof.
  induction s as [|c r IH]; simpl; [repeat constructor|].
  destruct (Ascii.eqb c sep) eqn:Ec; [constructor; [reflexivity | exact IH]|].
  destruct (Page.split sep r) as [|h t]; [repeat constructor; simpl; rewrite Ec; reflexivity|].
  inversion IH; subst. constructor; [|assumption]. simpl. rewrite Ec. assumption.
Qed.

Lemma split_append sep t r :
  occurs sep t = false ->
  Page.split sep (t ++ String sep r) = t :: Page.split sep r.
Proof.
  induction t as [|c t IH]; simpl.
  - intros _. rewrite Ascii.eqb_refl. reflexivity.
  - intros H. apply orb_false_iff in H. destruct H as [Hc Ht].
    rewrite Hc, (IH Ht). reflexivity.
Qed.

Lemma occurs_append c s t : occurs c (s ++ t) = occurs c s || occurs c t.
Proof.
  induction s as [|d s IH]; simpl; [reflexivity|]. rewrite IH, orb_assoc. reflexivity.
Qed.

Lemma trim_start_free c s : occurs c s = false -> occurs c (Js.trim_start s) = false.
Proof.
  induction s as [|d s IH]; simpl; [reflexivity|].
  intros H. destruct (Js.is_white_space d); [|exact H].
  apply orb_false_iff in H. apply IH, H.
Qed.

Lemma trim_end_free c s : occurs c s = false -> occurs c (Page.trim_end s) = false.
Proof.
  induction s as [|d s IH]; simpl; [reflexivity|].
  intros H. apply orb_false_iff in H. destruct H as [Hd Hs].
  specialize (IH Hs). destruct (Page.trim_end s) as [|e r'].
  - destruct (Js.is_white_space d); simpl; [reflexivity | rewrite Hd; reflexivity].
  - simpl in *. rewrite Hd. exact IH.
Qed.

Lemma trim_end_idem s : Page.trim_end (Page.trim_end s) = Page.trim_end s.
Proof.
  induction s as [|d s IH]; simpl; [reflexivity|].
  destruct (Page.trim_end s) as [|e r'] eqn:E.
  - destruct (Js.is_white_space d) eqn:Ed; simpl; [reflexivity | rewrite Ed; reflexivity].
  - change (Page.trim_end (String d (String e r')))
      with (match Page.trim_end (String e r') with
            | EmptyString => if Js.is_white_space d then EmptyString else String d EmptyString
            | x => String d x
            end).
    rewrite IH. reflexivity.
Qed.

(** A text that does not start with white space. *)
Lemma trim_start_fixed s :
  match s with String c _ => Js.is_white_space c = false | EmptyString => True end ->
  Js.trim_start s = s.
Proof. destruct s as [|c r]; simpl; [reflexivity|]. intros ->. reflexivity. Qed.

Lemma trim_start_head s :
  match Js.trim_start s with
  | String c _ => Js.is_white_space c = false
  | EmptyString => True
  end.
Proof.
  induction s as [|c r IH]; simpl; [exact I|].
  destruct (Js.is_white_space c) eqn:E; [exact IH | exact E].
Qed.

Lemma trim_end_head s :
  match s with String c _ => Js.is_white_space c = false | EmptyString => True end ->
  match Page.trim_end s with
  | String c _ => Js.is_white_space c = false
  | EmptyString => True
  end.
Proof.
  destruct s as [|c r]; simpl; [auto|]. intros H.
  destruct (Page.trim_end r); [rewrite H|]; exact H.
Qed.

Lemma trim_idem s : Page.trim (Page.trim s) = Page.trim s.
Proof.
  unfold Page.trim.
  rewrite (trim_start_fixed (Page.trim_end (Js.trim_start s))).
  - apply trim_end_idem.
  - apply trim_end_head, trim_start_head.
Qed.

Lemma truthy_not_empty s : Page.truthy s = true <-> s <> "".
Proof. destruct s; simpl; split; congruence. Qed.

(** What the dialog sends as tags is clean. *)
Lemma tags_of_clean text : Forall clean_tag (Page.tags_of text).
Proof.
  unfold Page.tags_of. destruct (Page.truthy text); [|constructor].
  rewrite Forall_forall. intros t Ht. apply filter_In in Ht. destruct Ht as [Hin Hne].
  apply in_map_iff in Hin. destruct Hin as (p & <- & Hp).
  pose proof (split_pieces_free ","%char text) as Hfree.
  rewrite Forall_forall in Hfree. specialize (Hfree p Hp).
  split; [apply truthy_not_empty; exact Hne|]. split.
  - apply split_free. unfold Page.trim. apply trim_end_free, trim_start_free, Hfree.
  - apply trim_idem.
Qed.

Lemma append_assoc (a b c : string) : a ++ b ++ c = (a ++ b) ++ c.
Proof.
  induction a as [|x a IH]; simpl; [reflexivity|]. rewrite IH. reflexivity.
Qed.

Lemma split_join pre t l :
  occurs ","%char pre = false ->
  Forall clean_tag (t :: l) ->
  Page.split ","%char (pre ++ Page.join_tags (t :: l))
  = (pre ++ t) :: map (String " "%char) l.
Proof.
  revert pre t. induction l as [|t' l IH]; intros pre t Hpre Hl.
  - simpl. inversion Hl as [|? ? (_ & Ht & _) _]; subst.
    apply split_free. rewrite occurs_append, Hpre. apply split_single. exact Ht.
  - inversion Hl as [|? ? (_ & Ht & _) Hl']; subst.
    unfold Page.join_tags in *.
    change (String.concat ", " (t :: t' :: l))
      with (t ++ String ","%char (" " ++ String.concat ", " (t' :: l))).
    rewrite (append_assoc pre t), split_append.
    + rewrite (IH " " t' eq_refl Hl'). reflexivity.
    + rewrite occurs_append, Hpre. apply split_single. exact Ht.
Qed.

Lemma tags_round_trip l : Forall clean_tag l -> Page.tags_of (Page.join_tags l) = l.
Proof.
  intros Hl. destruct l as [|t l]; [reflexivity|].
  unfold Page.tags_of.
  assert (Htruthy : Page.truthy (Page.join_tags (t :: l)) = true).
  { inversion Hl as [|? ? (Hne & _ & _) _]; subst.
    unfold Page.join_tags. destruct t as [|c t]; [contradiction|].
    destruct l; reflexivity. }
  rewrite Htruthy.
  pose proof (split_join "" t l eq_refl Hl) as E. simpl in E. rewrite E. clear E Htruthy.
  simpl map. inversion Hl as [|? ? (Hne & _ & Htrim) Hl']; subst.
  rewrite Htrim. simpl filter.
  assert (Hn : Page.truthy t = true) by (apply truthy_not_empty; exact Hne).
  rewrite Hn. f_equal.
  clear - Hl'. induction Hl' as [|x l (Hne & _ & Htrim) _ IH]; simpl; [reflexivity|].
  assert (Ex : Page.trim (String " " x) = x) by exact Htrim.
  rewrite Ex.
  assert (Hn : Page.truthy x = true) by (apply truthy_not_empty; exact Hne).
  rewrite Hn, IH. reflexivity.
Qed.

(** X21. The tags the dialog sends never contain an empty tag, a comma or
    white space at either end of a tag; and opening the edit dialog on
    tags it produced and saving them again sends the same tags: joining
    them with a comma and a blank and splitting that text again is the
    identity. *)
Theorem X21_tags_round_trip text :
  Forall clean_tag (Page.tags_of text) /\
  Page.tags_of (Page.join_tags (Page.tags_of text)) = Page.tags_of text.
Proof.
  split; [apply tags_of_clean | apply tags_round_trip, tags_of_clean].
Qed.

Example tags_of_dialog :
  Page.tags_of " workout,errands ,, home gym " = ["workout"; "errands"; "home gym"].
Proof. reflexivity. Qed.

Example join_tags_dialog :
  Page.join_tags ["workout"; "errands"; "home gym"] = "workout, errands, home gym".
Proof. reflexivity. Qed.

(** ** The page: what the dialog creates *)

Lemma strings_map_Some l : strings (map Some l) = Some l.
Proof.
  induction l as [|x l IH]; simpl; [reflexivity|]. rewrite IH. reflexivity.
Qed.

Lemma dialog_payload_parses d :
  Page.truthy (Page.trim (Page.d_title d)) = true ->
  exists data,
    todoSchema_safeParse (Page.create_payload d) = Some data /\
    i_title data = Page.trim (Page.d_title d) /\
    i_recurrence data = Some (Page.d_recurrence d) /\
    i_dueDate data = None /\
    i_tags data = Some (Page.tags_of (Page.d_tags d)) /\
    nullable (i_notes data)
    = if Page.truthy (Page.trim (Page.d_notes d)) then [Page.trim (Page.d_notes d)] else [].
Proof.
  intros Ht. unfold todoSchema_safeParse, Page.create_payload.
  cbn [b_title b_notes b_dueDate b_recurrence b_isTemplate b_timeOfDay b_tags
       b_completed b_position optional].
  destruct (Page.trim (Page.d_title d)) as [|c t] eqn:Et; [discriminate|].
  change (1 <=? String.length (String c t))%nat with true. cbv iota.
  unfold optional_recurrence, optional_tags. rewrite strings_map_Some.
  assert (En : as_Recurrence (Page.name_of (Page.d_recurrence d)) = Some (Page.d_recurrence d))
    by (destruct (Page.d_recurrence d); reflexivity).
  rewrite En. cbn [option_map].
  destruct (Page.truthy (Page.trim (Page.d_notes d)));
    cbn [optional_notes]; eexists; (split; [reflexivity|]); repeat split.
Qed.

(** Trimming and splitting a text the database stores give such texts. *)
Lemma split_pieces_keep c sep s :
  occurs c s = false -> Forall (fun p => occurs c p = false) (Page.split sep s).
Proof.
  induction s as [|x r IH]; simpl; [repeat constructor|].
  intros H. apply orb_false_iff in H. destruct H as [Hx Hr]. specialize (IH Hr).
  destruct (Ascii.eqb x sep); [constructor; [reflexivity | exact IH]|].
  destruct (Page.split sep r) as [|h t]; [repeat constructor; simpl; rewrite Hx; reflexivity|].
  inversion IH; subst. constructor; [|assumption]. simpl. rewrite Hx. assumption.
Qed.

Lemma text_trim s : text s = true -> text (Page.trim s) = true.
Proof.
  unfold text, Page.trim. intros H. apply negb_true_iff in H. apply negb_true_iff.
  apply trim_end_free, trim_start_free, H.
Qed.

Lemma text_tags_of s : text s = true -> forallb text (Page.tags_of s) = true.
Proof.
  intros H. unfold Page.tags_of. destruct (Page.truthy s); [|reflexivity].
  apply forallb_forall. intros t Ht. apply filter_In in Ht. destruct Ht as [Hin _].
  apply in_map_iff in Hin. destruct Hin as (p & <- & Hp).
  apply text_trim. unfold text in *. apply negb_true_iff in H. apply negb_true_iff.
  pose proof (split_pieces_keep Ascii.zero ","%char s H) as Hall.
  rewrite Forall_forall in Hall. apply Hall, Hp.
Qed.

(** X22. What the dialog sends for a new to-do is never turned down as
    invalid input: the create request of the page is answered 201, or 500
    when something is thrown, and never 400. *)
Theorem X22_dialog_create_is_valid now w u d mb :
  Page.save None d = Some mb ->
  fst mb = "POST" /\
  (status (fst (handler now (sent u mb) w)) = 201 \/
   status (fst (handler now (sent u mb) w)) = 500).
Proof.
  unfold Page.save. destruct (Page.truthy (Page.trim (Page.d_title d))) eqn:Ht; [|discriminate].
  intros E. inversion E; subst. clear E. split; [reflexivity|].
  destruct (dialog_payload_parses d Ht) as (data & Ep & _).
  unfold handler, dispatch, sent, request. cbn [session method body fst snd].
  change (String.eqb "POST" "GET") with false.
  change (String.eqb "POST" "POST") with true. cbv iota.
  destruct (handle_POST u now (Page.create_payload d) w) as [[res|e] w'] eqn:E;
    cbn [fst]; [|right; reflexivity].
  left. unfold handle_POST in E. rewrite Ep in E.
  destruct (_ || _).
  - apply bind_Ok in E. destruct E as (ut & wt & Et & E).
    apply bind_Ok in E. destruct E as (todo & w1 & _ & E2).
    unfold ret in E2. inversion E2; subst. reflexivity.
  - destruct (Js.split_time _) as [hh mm].
    apply bind_Ok in E. destruct E as (dd & w0 & _ & E).
      apply bind_Ok in E. destruct E as (ut & wt & Et & E).
    apply bind_Ok in E. destruct E as (todo & w1 & _ & E2).
    unfold ret in E2. inversion E2; subst. reflexivity.
Qed.

Lemma X22_dialog_create_is_valid_witness :
  fst ("POST", Page.create_payload
         {| Page.d_title := " Stretch "; Page.d_notes := ""; Page.d_timeOfDay := "07:30";
            Page.d_recurrence := DAILY; Page.d_tags := "health, morning" |}) = "POST" /\
  (status (fst (handler (at_ day0 14 37)
      (sent 1 ("POST", Page.create_payload
         {| Page.d_title := " Stretch "; Page.d_notes := ""; Page.d_timeOfDay := "07:30";
            Page.d_recurrence := DAILY; Page.d_tags := "health, morning" |})) empty_world)) = 201 \/
   status (fst (handler (at_ day0 14 37)
      (sent 1 ("POST", Page.create_payload
         {| Page.d_title := " Stretch "; Page.d_notes := ""; Page.d_timeOfDay := "07:30";
            Page.d_recurrence := DAILY; Page.d_tags := "health, morning" |})) empty_world)) = 500).
Proof.
  apply (X22_dialog_create_is_valid (at_ day0 14 37) empty_world 1%nat
           {| Page.d_title := " Stretch "; Page.d_notes := ""; Page.d_timeOfDay := "07:30";
              Page.d_recurrence := DAILY; Page.d_tags := "health, morning" |}).
  reflexivity.
Defined.

(** X23. A daily task created through the dialog (no text of which holds
    the code unit 0) is stored as a template (isTemplate, recurrence DAILY,
    no due date) with the trimmed title and the parsed tags, and its time
    of day is the HH:MM of the server clock at creation: the page sends the
    chosen time as [timeOfDay] and no [dueDate], and the template branch
    reads only [dueDate]. *)
Theorem X23_dialog_daily_task_repeats_at_creation_time now w u d mb :
  Page.save None d = Some mb ->
  Page.d_recurrence d = DAILY ->
  draft_text d = true ->
  reliable w ->
  exists r,
    fst (handler now (sent u mb) w) = respond 201 (JTodo r) /\
    isTemplate r = true /\ recurrence r = DAILY /\ dueAt r = None /\
    title r = Page.trim (Page.d_title d) /\
    tags r = Page.tags_of (Page.d_tags d) /\
    timeOfDay r = Some (Js.timeString5 now).
Proof.
  unfold Page.save. destruct (Page.truthy (Page.trim (Page.d_title d))) eqn:Ht; [|discriminate].
  intros E Hd Htext Hrel. inversion E; subst. clear E.
  destruct (dialog_payload_parses d Ht) as (data & Ep & Etitle & Erec & Edue & Etags & Enotes).
  unfold draft_text in Htext.
  apply andb_true_iff in Htext. destruct Htext as [Htext Htags].
  apply andb_true_iff in Htext. destruct Htext as [Htitle Hnotes].
  unfold handler, dispatch, sent, request. cbn [session method body fst snd].
  change (String.eqb "POST" "GET") with false.
  change (String.eqb "POST" "POST") with true. cbv iota.
  unfold handle_POST. rewrite Ep, Erec, Hd, Edue, Etags, Etitle, Enotes. cbn [orb].
  unfold bind. rewrite Text_texts.
  2:{ cbn [forallb]. rewrite forallb_app, (text_trim _ Htitle), (text_tags_of _ Htags).
      destruct (Page.truthy (Page.trim (Page.d_notes d))); cbn [forallb andb];
        rewrite ?(text_trim _ Hnotes); reflexivity. }
  unfold create. rewrite (call_reliable _ w Hrel). cbn [fst snd ret].
  eexists. split; [reflexivity|]. repeat split.
Qed.

Lemma X23_dialog_daily_task_repeats_at_creation_time_witness :
  exists r,
    fst (handler (at_ day0 14 37)
      (sent 1 ("POST", Page.create_payload
         {| Page.d_title := " Stretch "; Page.d_notes := ""; Page.d_timeOfDay := "07:30";
            Page.d_recurrence := DAILY; Page.d_tags := "health, morning" |})) empty_world)
      = respond 201 (JTodo r) /\
    isTemplate r = true /\ recurrence r = DAILY /\ dueAt r = None /\
    title r = Page.trim " Stretch " /\
    tags r = Page.tags_of "health, morning" /\
    timeOfDay r = Some (Js.timeString5 (at_ day0 14 37)).
Proof.
  apply (X23_dialog_daily_task_repeats_at_creation_time (at_ day0 14 37) empty_world 1%nat
           {| Page.d_title := " Stretch "; Page.d_notes := ""; Page.d_timeOfDay := "07:30";
              Page.d_recurrence := DAILY; Page.d_tags := "health, morning" |});
    reflexivity.
Defined.

(** What the scenario stores: the chosen 07:30 is gone, 14:37 is kept. *)
Example dialog_daily_task :
  option_map timeOfDay
    (lookup 1 1 (db (snd (handler (at_ day0 14 37)
      (sent 1 ("POST", Page.create_payload
         {| Page.d_title := " Stretch "; Page.d_notes := ""; Page.d_timeOfDay := "07:30";
            Page.d_recurrence := DAILY; Page.d_tags := "health, morning" |})) empty_world))))
  = Some (Some "14:37").
Proof. vm_compute. reflexivity. Qed.

(** ** Update of a record the caller does not have *)

(** X24. An update that names an id under which the caller has no record
    writes nothing and is answered 500 Internal server error, whatever its
    body and whatever the database does: the handler does not look the
    record up before updating it. *)
Theorem X24_update_unknown_id now req w a i :
  session req = Some a -> method req = "PUT" -> b_id (body req) = Given i ->
  lookup a i (db w) = None ->
  fst (handler now req w) = respond 500 (JError "Internal server error") /\
  db (snd (handler now req w)) = db w.
Proof.
  intros Hs Hm Hid Hnone. unfold handler.
  rewrite (dispatch_method now req a "PUT" Hs Hm). simpl.
  unfold handle_PUT. rewrite Hid.
  destruct (apply_updates _) as [f|]; [|simpl; auto].
  unfold bind, update.
  match goal with |- context [call ?op w] =>
    destruct (call_cases op w) as [(fs & _ & E) | E]; rewrite E; simpl end.
  - auto.
  - unfold lookup in Hnone. rewrite (find_none_update_first _ f _ Hnone). simpl. auto.
Qed.

Lemma X24_update_unknown_id_witness :
  fst (handler (at_ day0 15 0) (request 1 "PUT" (set_completed 7 true)) series_world)
    = respond 500 (JError "Internal server error") /\
  db (snd (handler (at_ day0 15 0) (request 1 "PUT" (set_completed 7 true)) series_world))
    = db series_world.
Proof.
  apply (X24_update_unknown_id (at_ day0 15 0) (request 1 "PUT" (set_completed 7 true))
           series_world 1%nat 7%nat); reflexivity.
Defined.

(** ** The dashboard *)

Lemma firstn_incl {A} n (l : list A) x : In x (firstn n l) -> In x l.
Proof.
  intros Hx. rewrite <- (firstn_skipn n l). apply in_or_app. left. exact Hx.
Qed.

Lemma firstn_sorted n (l : list Todo) :
  StronglySorted due_le l -> StronglySorted due_le (firstn n l).
Proof.
  revert n. induction l as [|y l IH]; intros n Hs; destruct n; simpl; try constructor.
  - inversion Hs; subst. auto.
  - inversion Hs as [|? ? _ Hall]; subst. rewrite Forall_forall in *.
    intros x Hx. apply Hall. eapply firstn_incl. exact Hx.
Qed.

(** X25. The card of the dashboard shows at most 100 records, all of them
    uncompleted, no template among them, all of the caller, in ascending
    order of the due timestamp. *)
Theorem X25_dashboard_card now w u l :
  json (fst (handler now (Dashboard.fetch u) w)) = JTodos l ->
  (List.length (Dashboard.shown l) <= 100)%nat /\
  StronglySorted due_le (Dashboard.shown l) /\
  Forall (fun r => completed r = false /\ isTemplate r = false /\ userId r = u)
         (Dashboard.shown l).
Proof.
  intros Hj. unfold Dashboard.shown. split; [apply firstn_le_length|].
  split; [apply firstn_sorted; eapply listing_sorted; exact Hj|].
  destruct (listing_origin now (Dashboard.fetch u) w u l eq_refl eq_refl Hj) as (n & _ & ->).
  rewrite Forall_forall. intros r Hr.
  assert (Hin := firstn_incl 100 _ r Hr).
  apply sort_In, take_rows_incl, filter_In in Hin. destruct Hin as [_ Hp].
  cbn [Dashboard.fetch query Dashboard.params q_completed] in Hp.
  apply andb_true_iff in Hp. destruct Hp as [Hp Hc].
  apply andb_true_iff in Hp. destruct Hp as [Hu Ht].
  apply Nat.eqb_eq in Hu. apply negb_true_iff in Ht.
  apply Bool.eqb_prop in Hc. auto.
Qed.

Lemma X25_dashboard_card_witness :
  (List.length (Dashboard.shown [stretch_instance]) <= 100)%nat /\
  StronglySorted due_le (Dashboard.shown [stretch_instance]) /\
  Forall (fun r => completed r = false /\ isTemplate r = false /\ userId r = 1%nat)
         (Dashboard.shown [stretch_instance]).
Proof.
  apply (X25_dashboard_card (at_ day0 15 0) series_world 1%nat [stretch_instance]).
  vm_compute. reflexivity.
Defined.

(** ** The time of day, written by create and read by the materializer *)

(** X26. The time of day a template is created with (the HH:MM of a clock
    reading, two digits each) is read back by the materializer as the same
    hour and minute, except that hour 00 is read as 9. *)
Theorem X26_template_time_read_back t :
  due_hm (Some (Js.timeString5 t))
  = (Fin (if Js.getHours t =? 0 then 9 else Js.getHours t), Fin (Js.getMinutes t)).
Proof.
  destruct (clock_hour_minute t) as [Hh Hm].
  change (Js.timeString5 t) with (hhmm (Js.getHours t) (Js.getMinutes t)).
  apply due_hm_hhmm; assumption.
Qed.

(** ** What a listing adds *)

(** X27. Whatever a listing adds to the table is appended to it, and every
    row it appends is generated from a daily template T of the caller,
    whatever the database does: it copies owner, title, notes and tags, has
    recurrence NONE, isTemplate false and templateId T.id, and its dueAt is
    what [setHours] makes of midnight of the day and of the hour and the
    minute read from the two parts of T.timeOfDay, a part that reads as no
    number or as 0 being replaced (the hour by 9, the minute by 0). For an
    absent or empty timeOfDay that is today at 09:00; for a well-formed
    HH:MM it is today at HH:MM, except that the hour 00 gives 09:MM (clock
    reading from 1970 to the year 9999). *)
Theorem X27_listing_appends_generated_rows now req w u :
  session req = Some u ->
  method req = "GET" ->
  clock now ->
  exists news,
    rows (db (snd (handler now req w))) = (rows (db w) ++ news)%list /\
    Forall (fun r => exists tpl,
              In tpl (rows (db w)) /\ daily_template u tpl = true /\
              copies tpl r /\ due_rule now (timeOfDay tpl) (dueAt r)) news.
Proof. apply generated_rows. Qed.

Lemma X27_listing_appends_generated_rows_witness :
  exists news,
    rows (db (snd (handler (at_ day0 0 31) (request 1 "GET" no_body) night_template_world)))
      = (rows (db night_template_world) ++ news)%list /\
    Forall (fun r => exists tpl,
              In tpl (rows (db night_template_world)) /\ daily_template 1 tpl = true /\
              copies tpl r /\ due_rule (at_ day0 0 31) (timeOfDay tpl) (dueAt r)) news.
Proof.
  apply (X27_listing_appends_generated_rows (at_ day0 0 31) (request 1 "GET" no_body)
           night_template_world 1%nat).
  - reflexivity.
  - reflexivity.
  - unfold clock. vm_compute. split; [discriminate | reflexivity].
Defined.

(** ** Create requests the schema turns down *)

Lemma ill_typed_invalid b : ill_typed b = true -> todoSchema_safeParse b = None.
Proof.
  unfold ill_typed, todoSchema_safeParse.
  destruct b as [bid bt bn bd br bi btod btg bc bp].
  cbn [b_title b_notes b_dueDate b_recurrence b_isTemplate b_timeOfDay b_tags
       b_completed b_position].
  intros H.
  destruct bt as [| |t]; try reflexivity.
  destruct (1 <=? String.length t)%nat; [|reflexivity].
  destruct bn as [| |[n|]]; try reflexivity;
    destruct bd as [| |dd]; try reflexivity;
    (destruct br as [| |s]; [| |cbn [optional_recurrence]; destruct (as_Recurrence s)];
       try reflexivity);
    destruct bi as [| |flag]; try reflexivity;
    destruct btod as [| |tod]; try reflexivity;
    (destruct btg as [| |l]; [| |cbn [optional_tags]; destruct (strings l)];
       try reflexivity);
    destruct bc as [| |c]; try reflexivity;
    destruct bp as [| |z]; try reflexivity;
    discriminate H.
Qed.

(** X28. A create request in which a field of the schema has a value of
    another type than its own (a number for the title, the text true for
    [completed], [null] for the notes, ...) is answered 400 Invalid input
    and nothing is written or even asked of the database, whatever the
    other fields are. *)
Theorem X28_ill_typed_create_is_refused now req w u :
  session req = Some u -> method req = "POST" ->
  ill_typed (body req) = true ->
  handler now req w = (respond 400 (JError "Invalid input"), w).
Proof.
  intros Hs Hm H. unfold handler. rewrite (dispatch_method now req u "POST" Hs Hm).
  change (String.eqb "POST" "GET") with false.
  change (String.eqb "POST" "POST") with true. cbv iota.
  unfold handle_POST. rewrite (ill_typed_invalid _ H). reflexivity.
Qed.

Lemma X28_ill_typed_create_is_refused_witness :
  handler (at_ day0 14 37) (request 1 "POST" quoted_flag) series_world_failing
  = (respond 400 (JError "Invalid input"), series_world_failing).
Proof.
  apply (X28_ill_typed_create_is_refused (at_ day0 14 37) (request 1 "POST" quoted_flag)
           series_world_failing 1%nat); reflexivity.
Defined.
